(** * file_organizer.py: classification and conflict resolution

    A shallow embedding of [src/file_organizer.py] and the properties of
    its classifier, duplicate resolver, traversal loop and command line.

    Conventions of the model.
    - Strings are byte strings; [str.lower] acts on the letters A-Z.
    - A path is kept as the list of its components: [os.path.join p name]
      appends one component and [os_path_str] renders the components
      separated by "/", which is the string the source tests with [in].
    - The file system is a finite map from paths to nodes: regular
      files and directories, no symbolic links.  The empty path (the
      directory the relative paths start from) always is a directory.
    - [hashlib.md5] and [time.time] are outside of the repository and are
      parameters of the development.
    - The log lines are not modelled. *)

From Stdlib Require Import ZArith String Ascii List DecimalString Lia.
From stdpp Require Import gmap strings list fin_maps.
Open Scope string_scope.
Open Scope list_scope.

(** ** Strings *)

Module Str.

(** [str.lower] on one character. *)
Definition lower_char (c : ascii) : ascii :=
  let n := nat_of_ascii c in
  if (65 <=? n)%nat && (n <=? 90)%nat then ascii_of_nat (n + 32) else c.

Fixpoint lower (s : string) : string :=
  match s with
  | EmptyString => EmptyString
  | String c rest => String (lower_char c) (lower rest)
  end.

(** [needle in hay] for two strings: [needle] occurs as a substring. *)
Fixpoint contains (needle hay : string) : bool :=
  String.prefix needle hay ||
  match hay with
  | EmptyString => false
  | String _ rest => contains needle rest
  end.

(** [x in xs] for a list of strings. *)
Definition mem (x : string) (xs : list string) : bool :=
  existsb (String.eqb x) xs.

(** [s.rfind(c)]: the highest index of [c] in [s], or -1. *)
Fixpoint rfind_from (c : ascii) (s : string) (i : Z) (found : Z) : Z :=
  match s with
  | EmptyString => found
  | String d rest =>
      rfind_from c rest (i + 1) (if Ascii.eqb c d then i else found)
  end.

Definition rfind (c : ascii) (s : string) : Z := rfind_from c s 0 (-1).

(** [s[:i]] and [s[i:]] for [0 <= i]. *)
Definition take (i : Z) (s : string) : string :=
  String.substring 0 (Z.to_nat i) s.

Definition drop (i : Z) (s : string) : string :=
  String.substring (Z.to_nat i) (String.length s - Z.to_nat i) s.

(** [str(n)] for an integer. *)
Definition of_int (n : Z) : string := NilZero.string_of_int (Z.to_int n).

End Str.

(** ** [os.path] *)

Abbreviation path := (list string).

(** The string of a path, as [os.walk] and [os.path.join] build it. *)
Definition os_path_str (p : path) : string := String.concat "/" p.

(** [os.path.join(p, name)] for a single component [name]. *)
Definition os_path_join (p : path) (name : string) : path := p ++ [name].

(** The loop of [genericpath._splitext]: looks for a character other
    than the dot in [p[i : i + n]]. *)
Fixpoint splitext_scan (p : string) (i : Z) (n : nat) : bool :=
  match n with
  | O => false
  | S n' =>
      match String.get (Z.to_nat i) p with
      | Some c => if Ascii.eqb c "."%char then splitext_scan p (i + 1) n' else true
      | None => true
      end
  end.

(** [os.path.splitext(p)]: the extension starts at the last dot, unless
    only dots come before it in the last component. *)
Definition os_path_splitext (p : string) : string * string :=
  let sepIndex := Str.rfind "/"%char p in
  let dotIndex := Str.rfind "."%char p in
  if (sepIndex <? dotIndex)%Z
     && splitext_scan p (sepIndex + 1) (Z.to_nat (dotIndex - (sepIndex + 1)))
  then (Str.take dotIndex p, Str.drop dotIndex p)
  else (p, EmptyString).

(** ** The category table and the classifier *)

Definition FILE_CATEGORIES : list (string * list string) :=
  [ ("Dokumente", [".pdf"; ".doc"; ".docx"; ".txt"; ".rtf"; ".odt"; ".xls";
                   ".xlsx"; ".ppt"; ".pptx"; ".csv"; ".ods"; ".odp"]);
    ("Bilder", [".jpg"; ".jpeg"; ".png"; ".gif"; ".bmp"; ".svg"; ".tiff";
                ".ico"; ".webp"; ".heic"; ".raw"; ".psd"; ".ai"]);
    ("Videos", [".mp4"; ".mkv"; ".avi"; ".mov"; ".wmv"; ".flv"; ".webm";
                ".m4v"; ".mpg"; ".mpeg"; ".3gp"]);
    ("Audio", [".mp3"; ".wav"; ".ogg"; ".flac"; ".aac"; ".wma"; ".m4a";
               ".mid"; ".midi"]);
    ("Archive", [".zip"; ".rar"; ".7z"; ".tar"; ".gz"; ".bz2"; ".xz"; ".iso"]);
    ("Code", [".py"; ".java"; ".cpp"; ".c"; ".h"; ".hpp"; ".js"; ".html";
              ".css"; ".php"; ".rb"; ".go"; ".rs"; ".swift"; ".kt"; ".json";
              ".xml"; ".sql"; ".sh"; ".bat"; ".ps1"]);
    ("Programme", [".exe"; ".msi"; ".app"; ".dmg"; ".deb"; ".rpm"]);
    ("Andere", []) ].

(** [FILE_CATEGORIES.keys()] *)
Definition category_names : list string := map fst FILE_CATEGORIES.

(** The [for ... in FILE_CATEGORIES.items()] loop of
    [get_category_for_extension], with its [return] inside and the
    [return "Andere"] after it. *)
Fixpoint category_loop (ext : string) (items : list (string * list string))
  : string :=
  match items with
  | [] => "Andere"
  | (category, extensions) :: rest =>
      if Str.mem ext extensions then category else category_loop ext rest
  end.

Definition get_category_for_extension (ext : string) : string :=
  let ext := Str.lower ext in
  category_loop ext FILE_CATEGORIES.

(** ** The file system *)

(** What the program can observe of a regular file: its bytes, the
    month of its modification time as [strftime('%Y-%m')] prints it,
    whether it can be opened for reading and whether its directory entry
    can be renamed. *)
Record file := mk_file {
  data : string;
  month : string;
  readable : bool;
  movable : bool }.

Inductive node :=
| File (f : file)
| Dir.

Abbreviation disk := (gmap path node).

Inductive exn :=
| FileNotFoundError
| FileExistsError
| NotADirectoryError
| IsADirectoryError
| PermissionError
| ShutilError
| KeyError.

Definition node_at (d : disk) (p : path) : option node :=
  match p with
  | [] => Some Dir
  | _ => d !! p
  end.

Definition os_path_exists (d : disk) (p : path) : bool :=
  match node_at d p with
  | Some _ => true
  | None => false
  end.

Definition os_path_isdir (d : disk) (p : path) : bool :=
  match node_at d p with
  | Some Dir => true
  | _ => false
  end.

(** [os.path.dirname] and [os.path.basename] on components. *)
Definition dirname (p : path) : path := removelast p.
Definition basename (p : path) : string := List.last p "".

(** [os.mkdir(p)] *)
Definition os_mkdir (d : disk) (p : path) : exn + disk :=
  if os_path_exists d p then inl FileExistsError
  else match node_at d (dirname p) with
       | Some Dir => inr (<[p := Dir]> d)
       | Some (File _) => inl NotADirectoryError
       | None => inl FileNotFoundError
       end.

(** [os.makedirs(p)], by recursion on the reversed path [rp]: the
    missing parent is made first (its [FileExistsError] is passed over,
    as in the library), then the last component. *)
Fixpoint makedirs_rev (rp : list string) (d : disk) : exn + disk :=
  match rp with
  | [] => os_mkdir d []
  | _ :: rhead =>
      let head := rev rhead in
      let made :=
        match head with
        | [] => inr d
        | _ => if os_path_exists d head then inr d
               else match makedirs_rev rhead d with
                    | inl FileExistsError => inr d
                    | r => r
                    end
        end in
      match made with
      | inl e => inl e
      | inr d' => os_mkdir d' (rev rp)
      end
  end.

Definition os_makedirs (d : disk) (p : path) : exn + disk :=
  makedirs_rev (rev p) d.

(** [os.path.getmtime(p)] followed by [strftime('%Y-%m')]. *)
Definition getmtime_month (d : disk) (p : path) : exn + string :=
  match node_at d p with
  | Some (File f) => inr (month f)
  | Some Dir => inl IsADirectoryError
  | None => inl FileNotFoundError
  end.

(** [os.rename(src, dst)] for a regular file [src]: an existing regular
    file at [dst] is replaced.  The program renames only entries that
    [os.walk] listed as regular files. *)
Definition os_rename (d : disk) (src dst : path) : exn + disk :=
  match node_at d src with
  | Some (File f) =>
      if negb (movable f) then inl PermissionError
      else if os_path_isdir d dst then inl IsADirectoryError
      else match node_at d (dirname dst) with
           | Some Dir => inr (<[dst := File f]> (delete src d))
           | Some (File _) => inl NotADirectoryError
           | None => inl FileNotFoundError
           end
  | Some Dir => inl IsADirectoryError
  | None => inl FileNotFoundError
  end.

(** [shutil.move(src, dst)]: into [dst] when it is a directory, else
    onto [dst].  A rename that fails is taken to fail in the library's
    copy-and-delete fallback as well. *)
Definition shutil_move (d : disk) (src dst : path) : exn + disk :=
  if os_path_isdir d dst then
    let real_dst := os_path_join dst (basename src) in
    if os_path_exists d real_dst then inl ShutilError
    else os_rename d src real_dst
  else os_rename d src dst.

(** [os.scandir(top)] as [os.walk] uses it: the names of the
    sub-directories and of the other entries of [top]. *)
Fixpoint strip_prefix (top k : path) : option path :=
  match top, k with
  | [], _ => Some k
  | a :: top', b :: k' => if String.eqb a b then strip_prefix top' k' else None
  | _ :: _, [] => None
  end.

Definition child_name (top k : path) : option string :=
  match strip_prefix top k with
  | Some [name] => Some name
  | _ => None
  end.

Definition entries (d : disk) (top : path) : list (string * node) :=
  omap (fun kn : path * node =>
          match child_name top kn.1 with
          | Some name => Some (name, kn.2)
          | None => None
          end) (map_to_list d).

Definition is_dir_node (n : node) : bool :=
  match n with Dir => true | File _ => false end.

Definition scandir (d : disk) (top : path)
  : option (list string * list string) :=
  if os_path_isdir d top then
    let es := entries d top in
    Some (map fst (List.filter (fun e => is_dir_node e.2) es),
          map fst (List.filter (fun e => negb (is_dir_node e.2)) es))
  else None.

(** ** The statistics dictionary *)

(** [stats["kategorien"]]: a dict in insertion order. *)
Abbreviation counts := (list (string * nat)).

Fixpoint dict_get (k : string) (d : counts) : option nat :=
  match d with
  | [] => None
  | (k', v) :: rest => if String.eqb k k' then Some v else dict_get k rest
  end.

Fixpoint dict_set (k : string) (v : nat) (d : counts) : counts :=
  match d with
  | [] => [(k, v)]
  | (k', v') :: rest =>
      if String.eqb k k' then (k', v) :: rest else (k', v') :: dict_set k v rest
  end.

Record Stats := mk_stats {
  verschoben : nat;
  uebersprungen : nat;
  fehler : nat;
  kategorien : counts }.

(** ** The state of a run *)

(** The disk, the number of clock readings taken so far, the
    [file_hashes] dict (its keys are digests or [None]) and [stats]. *)
Record run_state := mk_state {
  disk_of : disk;
  ticks : nat;
  file_hashes : gmap (option string) path;
  stats : Stats }.

Definition set_disk (d : disk) (s : run_state) : run_state :=
  mk_state d (ticks s) (file_hashes s) (stats s).

Definition set_stats (t : Stats) (s : run_state) : run_state :=
  mk_state (disk_of s) (ticks s) (file_hashes s) t.

(** ** Statements that can raise or [continue] *)

Inductive outcome (A : Type) :=
| Normal (a : A)
| Continue
| Raise (e : exn).
Arguments Normal {A} a.
Arguments Continue {A}.
Arguments Raise {A} e.

Definition M (A : Type) : Type := run_state -> outcome A * run_state.

Definition ret {A} (a : A) : M A := fun s => (Normal a, s).

Definition bind {A B} (m : M A) (k : A -> M B) : M B :=
  fun s =>
    match m s with
    | (Normal a, s') => k a s'
    | (Continue, s') => (Continue, s')
    | (Raise e, s') => (Raise e, s')
    end.

Notation "'let!' x ':=' m 'in' k" := (bind m (fun x => k))
  (at level 10, x name, m at level 100, k at level 200,
   format "'[v' 'let!'  x  ':='  m  'in' '/' k ']'").
Notation "m '>>' k" := (bind m (fun _ => k))
  (at level 90, right associativity).

Definition continue_ {A} : M A := fun s => (Continue, s).

(** A file-system call: its exception is raised, its new disk stored. *)
Definition io_update (op : disk -> exn + disk) : M unit :=
  fun s =>
    match op (disk_of s) with
    | inl e => (Raise e, s)
    | inr d => (Normal tt, set_disk d s)
    end.

Definition io_read {A} (op : disk -> exn + A) : M A :=
  fun s =>
    match op (disk_of s) with
    | inl e => (Raise e, s)
    | inr a => (Normal a, s)
    end.

Definition io_query {A} (op : disk -> A) : M A :=
  fun s => (Normal (op (disk_of s)), s).

Definition update_stats (f : Stats -> Stats) : M unit :=
  fun s => (Normal tt, set_stats (f (stats s)) s).

Definition add_verschoben (t : Stats) : Stats :=
  mk_stats (S (verschoben t)) (uebersprungen t) (fehler t) (kategorien t).

Definition add_uebersprungen (t : Stats) : Stats :=
  mk_stats (verschoben t) (S (uebersprungen t)) (fehler t) (kategorien t).

Definition add_fehler (t : Stats) : Stats :=
  mk_stats (verschoben t) (uebersprungen t) (S (fehler t)) (kategorien t).

Definition set_kategorien (c : counts) (t : Stats) : Stats :=
  mk_stats (verschoben t) (uebersprungen t) (fehler t) c.

(** [if category not in stats["kategorien"]: stats["kategorien"][category] = 0] *)
Definition init_count (category : string) (t : Stats) : Stats :=
  match dict_get category (kategorien t) with
  | Some _ => t
  | None => set_kategorien (dict_set category 0 (kategorien t)) t
  end.

Definition init_category (category : string) : M unit :=
  update_stats (init_count category).

(** [stats["kategorien"][category] += 1] *)
Definition incr_category (category : string) : M unit :=
  fun s =>
    match dict_get category (kategorien (stats s)) with
    | Some v =>
        (Normal tt,
         set_stats (set_kategorien
                      (dict_set category (v + 1) (kategorien (stats s)))
                      (stats s)) s)
    | None => (Raise KeyError, s)
    end.

(** [create_directory_if_not_exists(directory)] *)
Definition create_directory_if_not_exists (directory : path) : M unit :=
  let! present := io_query (fun d => os_path_exists d directory) in
  if negb present then io_update (fun d => os_makedirs d directory)
  else ret tt.

(** ** The run *)

Section Organizer.

(** [hashlib.md5(data).hexdigest()] *)
Variable md5_hexdigest : string -> string.

(** The value of [int(time.time())] at the n-th reading of the clock. *)
Variable clock : nat -> Z.

(** [get_file_hash(file_path)]: the digest, or [None] when the file
    cannot be read. *)
Definition get_file_hash (d : disk) (file_path : path) : option string :=
  match node_at d file_path with
  | Some (File f) =>
      if readable f then Some (md5_hexdigest (data f)) else None
  | _ => None
  end.

(** [int(time.time())] *)
Definition time_time : M Z :=
  fun s =>
    (Normal (clock (ticks s)),
     mk_state (disk_of s) (S (ticks s)) (file_hashes s) (stats s)).

(** The truth value of [file_hash and file_hash in file_hashes]. *)
Definition known_duplicate (file_hash : option string)
    (index : gmap (option string) path) : bool :=
  match file_hash with
  | Some h =>
      negb (String.eqb h "") &&
      match index !! Some h with Some _ => true | None => false end
  | None => false
  end.

(** [file_hashes[file_hash] = target_path] *)
Definition record_hash (file_hash : option string) (target_path : path)
  : M unit :=
  fun s =>
    (Normal tt,
     mk_state (disk_of s) (ticks s)
              (<[file_hash := target_path]> (file_hashes s)) (stats s)).

Variable destination_dir : path.
Variable preview : bool.
Variable include_date : bool.
Variable handle_duplicates : string.

(** The [if os.path.exists(target_path):] block: the resolved target
    path, or [continue]. *)
Definition resolve_collision (source_path target_dir : path)
    (filename : string) (target_path : path) : M path :=
  let! file_hash := io_query (fun d => get_file_hash d source_path) in
  let! index := (fun s => (Normal (file_hashes s), s)) in
  let! target_path :=
    (if known_duplicate file_hash index then
       if String.eqb handle_duplicates "skip" then
         update_stats add_uebersprungen >> continue_
       else if String.eqb handle_duplicates "rename" then
         let (name, ext) := os_path_splitext filename in
         let! timestamp := time_time in
         let new_filename := name +:+ "_" +:+ Str.of_int timestamp +:+ ext in
         ret (os_path_join target_dir new_filename)
       else ret target_path
     else ret target_path) in
  record_hash file_hash target_path >>
  ret target_path.

(** The target directory of a file: the category folder, and below it
    the month of the file when [include_date] is set; that folder is
    created unless the run is a preview. *)
Definition plan_target_dir (source_path : path) (category : string)
  : M path :=
  let target_dir := os_path_join destination_dir category in
  if include_date then
    let! date_str := io_read (fun d => getmtime_month d source_path) in
    let target_dir := os_path_join target_dir date_str in
    (if negb preview then create_directory_if_not_exists target_dir
     else ret tt) >>
    ret target_dir
  else ret target_dir.

(** The body of the [try] statement, for the file [filename] of the
    directory [root]. *)
Definition try_body (root : path) (filename : string) : M unit :=
  let source_path := os_path_join root filename in
  let (_, ext) := os_path_splitext filename in
  let category := get_category_for_extension ext in
  init_category category >>
  let! target_dir := plan_target_dir source_path category in
  let target_path := os_path_join target_dir filename in
  let! collision := io_query (fun d => os_path_exists d target_path) in
  let! target_path :=
    (if collision
     then resolve_collision source_path target_dir filename target_path
     else ret target_path) in
  (if preview then ret tt
   else io_update (fun d => shutil_move d source_path target_path)) >>
  update_stats add_verschoben >>
  incr_category category.

(** [any(category in root for category in FILE_CATEGORIES.keys())] *)
Definition already_organized (root : path) : bool :=
  existsb (fun category => Str.contains category (os_path_str root))
          category_names.

(** One iteration of [for filename in files]. *)
Definition process_file (root : path) (filename : string)
    (s : run_state) : run_state :=
  if already_organized root then
    set_stats (add_uebersprungen (stats s)) s
  else
    match try_body root filename s with
    | (Normal _, s') => s'
    | (Continue, s') => s'
    | (Raise _, s') => set_stats (add_fehler (stats s')) s'
    end.

(** [for filename in files] *)
Definition process_files (root : path) (files : list string)
    (s : run_state) : run_state :=
  fold_left (fun s filename => process_file root filename s) files s.

(** [for root, _, files in os.walk(top)], top-down: the directory is
    listed when the walk reaches it, its files are processed, then its
    sub-directories are walked in turn, each one listed only when its
    turn comes.  A path that cannot be listed yields nothing.  [depth]
    bounds the nesting of the directories below [top]; [None] means that
    it was too small ([walk_returns] and [walk_depth_mono] show that a
    large enough [depth] exists and that any larger one gives the same
    state). *)
Fixpoint walk (depth : nat) (top : path) (s : run_state)
  : option run_state :=
  match scandir (disk_of s) top with
  | None => Some s
  | Some (dirs, files) =>
      match depth with
      | O => None
      | S depth' =>
          fold_left
            (fun acc dirname =>
               match acc with
               | Some s' => walk depth' (os_path_join top dirname) s'
               | None => None
               end)
            dirs (Some (process_files top files s))
      end
  end.

(** The loop over [FILE_CATEGORIES.keys()] before the walk; it is not
    inside a [try]. *)
Fixpoint create_category_directories (names : list string) : M unit :=
  match names with
  | [] => ret tt
  | category :: rest =>
      create_directory_if_not_exists (os_path_join destination_dir category) >>
      create_category_directories rest
  end.

End Organizer.

(** What a call of [organize_files_by_type] ends with: the returned
    [stats] together with the state it leaves, or an exception. *)
Inductive run_result :=
| Returned (s : run_state)
| Raised (e : exn) (s : run_state).

Definition initial_state (d : disk) : run_state :=
  mk_state d 0 ∅ (mk_stats 0 0 0 []).

(** [if not destination_dir: destination_dir = source_dir]; [None]
    stands for a destination that is [None] or the empty string. *)
Definition destination_or_source (source_dir : path)
    (destination_dir : option path) : path :=
  match destination_dir with
  | Some p => p
  | None => source_dir
  end.

(** [organize_files_by_type(source_dir, destination_dir, preview,
    include_date, handle_duplicates)] on the disk [d]. *)
Definition organize_files_by_type (md5_hexdigest : string -> string)
    (clock : nat -> Z) (depth : nat)
    (source_dir : path) (destination_dir : option path)
    (preview include_date : bool) (handle_duplicates : string)
    (d : disk) : option run_result :=
  let destination_dir := destination_or_source source_dir destination_dir in
  let s0 := initial_state d in
  let prepared :=
    if negb preview
    then create_category_directories destination_dir category_names s0
    else (Normal tt, s0) in
  match prepared with
  | (Raise e, s) => Some (Raised e s)
  | (_, s) =>
      match walk md5_hexdigest clock destination_dir preview include_date
                 handle_duplicates depth source_dir s with
      | Some s' => Some (Returned s')
      | None => None
      end
  end.

(** The sum of the per-category counts. *)
Definition total (c : counts) : nat := list_sum (map snd c).

(** [stats["verschoben"]] is the sum of the per-category counts. *)
Definition counts_consistent (t : Stats) : Prop :=
  verschoben t = total (kategorien t).

(** No directory of the disk lies deeper than [bound] components. *)
Definition dirs_within (bound : nat) (d : disk) : Prop :=
  forall k, d !! k = Some Dir -> length k <= bound.

(** The category of a file name, the folder planned for a file of that
    category, and the statistics after one more completed file of it. *)
Definition category_of (filename : string) : string :=
  get_category_for_extension (os_path_splitext filename).2.

Definition planned_target_dir (destination_dir : path) (include_date : bool)
    (category : string) (f : file) : path :=
  if include_date
  then os_path_join (os_path_join destination_dir category) (month f)
  else os_path_join destination_dir category.

Definition count_completed (category : string) (t : Stats) : Stats :=
  let t1 := init_count category t in
  mk_stats (S (verschoben t1)) (uebersprungen t1) (fehler t1)
           (dict_set category
              (default 0 (dict_get category (kategorien t1)) + 1)
              (kategorien t1)).

(** ** The command line

    [main] and the [if __name__ == "__main__":] block, on the parsed
    arguments.  What they write to the log is left out.  [main] reads
    the clock once before it calls [organize_files_by_type], so the
    call sees the readings after the first. *)





(** ** Sample data

    A stand-in for the digest, a clock, and small disks on which the
    definitions are evaluated. *)

Definition sample_md5 (bytes : string) : string := "md5:" +:+ bytes.

Definition sample_clock (n : nat) : Z := (1700000000 + Z.of_nat n)%Z.

Definition hello : file := mk_file "hello" "2024-01" true true.

(** [src/MyCodeStuff/notes.txt], and an output folder. *)
Definition disk_code_stuff : disk :=
  list_to_map
    [ (["src"], Dir); (["src"; "MyCodeStuff"], Dir);
      (["src"; "MyCodeStuff"; "notes.txt"], File hello);
      (["src"; "Bilder"], Dir);
      (["src"; "Bilder"; "notes.txt"], File hello);
      (["out"], Dir) ].

Definition secret : file := mk_file "secret" "2024-01" false true.
Definition locked : file := mk_file "hello" "2024-01" true false.
Definition old_report : file := mk_file "old" "2023-12" true true.

(** The same file in two, and in three, sub-folders of [src]. *)
Definition disk_two_copies : disk :=
  list_to_map
    [ (["src"], Dir); (["src"; "a"], Dir); (["src"; "b"], Dir);
      (["src"; "a"; "x.txt"], File hello);
      (["src"; "b"; "x.txt"], File hello);
      (["out"], Dir) ].

Definition disk_three_copies : disk :=
  list_to_map
    [ (["src"], Dir); (["src"; "a"], Dir); (["src"; "b"], Dir);
      (["src"; "c"], Dir);
      (["src"; "a"; "x.txt"], File hello);
      (["src"; "b"; "x.txt"], File hello);
      (["src"; "c"; "x.txt"], File hello);
      (["out"], Dir) ].

(** [src/a/x.txt] is the file [f], and [out/Dokumente/x.txt] exists. *)
Definition disk_clash (f : file) : disk :=
  list_to_map
    [ (["src"], Dir); (["src"; "a"], Dir);
      (["src"; "a"; "x.txt"], File f);
      (["out"], Dir); (["out"; "Dokumente"], Dir);
      (["out"; "Dokumente"; "x.txt"], File old_report) ].

(** [src] holds [a.pdf], [b.jpg] and [c.unknownext]. *)
Definition disk_three_kinds : disk :=
  list_to_map
    [ (["src"], Dir);
      (["src"; "a.pdf"], File hello);
      (["src"; "b.jpg"], File hello);
      (["src"; "c.unknownext"], File hello);
      (["out"], Dir) ].

(** The regular files of a disk, and the statistics of a finished call. *)
Definition files_of (d : disk) : list (path * file) :=
  omap (fun kn : path * node =>
          match kn.2 with
          | File f => Some (kn.1, f)
          | Dir => None
          end) (map_to_list d).

Definition returned_stats (r : option run_result) : option Stats :=
  match r with
  | Some (Returned s) => Some (stats s)
  | _ => None
  end.

Definition returned_files (r : option run_result)
  : option (list (path * file)) :=
  match r with
  | Some (Returned s) => Some (files_of (disk_of s))
  | _ => None
  end.

(** A state in which the digest of [hello] is already recorded. *)
Definition state_known_hello : run_state :=
  mk_state (disk_clash hello) 0
           {[ Some "md5:hello" := ["out"; "Dokumente"; "x.txt"] ]}
           (mk_stats 1 0 0 [("Dokumente", 1)]).

(** ** Sample evaluations *)

Example splitext_pdf : os_path_splitext "a.PDF" = ("a", ".PDF").
Proof. reflexivity. Qed.

Example splitext_hidden : os_path_splitext ".bashrc" = (".bashrc", "").
Proof. reflexivity. Qed.

Example splitext_two : os_path_splitext "x.tar.gz" = ("x.tar", ".gz").
Proof. reflexivity. Qed.

Example classify_py : get_category_for_extension ".Py" = "Code".
Proof. reflexivity. Qed.

Example timestamp_text : Str.of_int 1700000000 = "1700000000".
Proof. reflexivity. Qed.

(** Three files of three kinds, moved into a separate output folder.
    (The order of the dict is the order in which the model lists the
    files of a directory; [os.scandir] promises none.) *)
Example three_kinds_sorted :
  let r := organize_files_by_type sample_md5 sample_clock 2 ["src"]
             (Some ["out"]) false false "rename" disk_three_kinds in
  returned_stats r
  = Some (mk_stats 3 0 0 [("Andere", 1); ("Bilder", 1); ("Dokumente", 1)])
  /\ option_map (map fst) (returned_files r)
     = Some [ ["out"; "Andere"; "c.unknownext"]; ["out"; "Bilder"; "b.jpg"];
              ["out"; "Dokumente"; "a.pdf"] ].
Proof. vm_compute. done. Qed.

(** Without a destination the category folders are made inside the
    source folder, and the walk meets each moved file again there and
    counts it as skipped. *)
Example three_kinds_in_place :
  returned_stats
    (organize_files_by_type sample_md5 sample_clock 2 ["src"] None
       false false "rename" disk_three_kinds)
  = Some (mk_stats 3 3 0 [("Andere", 1); ("Bilder", 1); ("Dokumente", 1)]).
Proof. vm_compute. reflexivity. Qed.

(** ** The classifier *)

Lemma lower_char_idem c : Str.lower_char (Str.lower_char c) = Str.lower_char c.
Proof. destruct c as [[] [] [] [] [] [] [] []]; reflexivity. Qed.

Lemma lower_idem s : Str.lower (Str.lower s) = Str.lower s.
Proof.
  induction s as [|c s IH]; simpl; [reflexivity|].
  by rewrite lower_char_idem, IH.
Qed.

Lemma mem_spec x xs : Str.mem x xs = true <-> x ∈ xs.
Proof.
  unfold Str.mem. rewrite existsb_exists. split.
  - intros (y & Hy & Heq). apply String.eqb_eq in Heq. subst.
    by apply list_elem_of_In.
  - intros Hin. exists x. split; [by apply list_elem_of_In|apply String.eqb_refl].
Qed.

Lemma mem_false x xs : Str.mem x xs = false <-> x ∉ xs.
Proof.
  rewrite <- mem_spec. destruct (Str.mem x xs); split; congruence.
Qed.

(** The loop returns the category of the first entry that holds [ext],
    and ["Andere"] when no entry does. *)
Lemma category_loop_spec ext items :
  (exists pre category extensions post,
      items = pre ++ (category, extensions) :: post /\
      ext ∈ extensions /\
      (forall c x, (c, x) ∈ pre -> ext ∉ x) /\
      category_loop ext items = category)
  \/ ((forall c x, (c, x) ∈ items -> ext ∉ x) /\
      category_loop ext items = "Andere").
Proof.
  induction items as [|[category extensions] rest IH]; simpl.
  - right. split; [|reflexivity]. intros c x Hin. inversion Hin.
  - destruct (Str.mem ext extensions) eqn:Hmem.
    + left. exists [], category, extensions, rest.
      repeat split; [by apply mem_spec|]. intros c x Hin. inversion Hin.
    + apply mem_false in Hmem.
      destruct IH as [(pre & c & x & post & -> & Hin & Hpre & Hres)|[Hnone Hres]].
      * left. exists ((category, extensions) :: pre), c, x, post.
        repeat split; [done| |done].
        intros c' x' Hin'. apply elem_of_cons in Hin' as [Heq|Hin'].
        -- by inversion Heq; subst.
        -- by eapply Hpre.
      * right. split; [|done].
        intros c' x' Hin'. apply elem_of_cons in Hin' as [Heq|Hin'].
        -- by inversion Heq; subst.
        -- by eapply Hnone.
Qed.

Lemma get_category_in_names ext :
  get_category_for_extension ext ∈ category_names.
Proof.
  destruct (category_loop_spec (Str.lower ext) FILE_CATEGORIES)
    as [(pre & c & x & post & Heq & _ & _ & Hres)|[_ Hres]];
    unfold get_category_for_extension; rewrite Hres.
  - unfold category_names. rewrite Heq, map_app. simpl.
    apply elem_of_app. right. apply elem_of_cons. by left.
  - unfold category_names. simpl.
    repeat (apply elem_of_cons; first [by left|right]).
Qed.

(** C4: the classifier lower-cases its input and returns the first
    category, in the declared order, whose extensions hold the
    lower-cased input; it returns "Andere" when no category does, in
    particular for the empty extension; it does not depend on the case
    of its input, so ".PDF" and ".pdf" are classified alike.  The
    function is total: it has a value, a category name, on every
    string. *)
Theorem C4_classifier_first_match :
  (forall ext : string,
      ((exists pre category extensions post,
           FILE_CATEGORIES = pre ++ (category, extensions) :: post /\
           Str.lower ext ∈ extensions /\
           (forall c x, (c, x) ∈ pre -> Str.lower ext ∉ x) /\
           get_category_for_extension ext = category)
       \/ ((forall c x, (c, x) ∈ FILE_CATEGORIES -> Str.lower ext ∉ x) /\
           get_category_for_extension ext = "Andere"))
      /\ get_category_for_extension (Str.lower ext)
         = get_category_for_extension ext
      /\ get_category_for_extension ext ∈ category_names)
  /\ get_category_for_extension "" = "Andere"
  /\ get_category_for_extension ".PDF" = get_category_for_extension ".pdf".
Proof.
  split; [|split; reflexivity].
  intros ext. split; [apply category_loop_spec|]. split.
  - unfold get_category_for_extension. by rewrite lower_idem.
  - apply get_category_in_names.
Qed.

(** ** The already-organized exclusion *)

Lemma prefix_app c t : String.prefix c (c +:+ t) = true.
Proof.
  induction c as [|a c IH]; simpl; [by destruct t|].
  destruct (ascii_dec a a); [exact IH|contradiction].
Qed.

Lemma prefix_refl c : String.prefix c c = true.
Proof.
  induction c as [|a c IH]; simpl; [reflexivity|].
  destruct (ascii_dec a a); [exact IH|contradiction].
Qed.

Lemma contains_here c hay : String.prefix c hay = true -> Str.contains c hay = true.
Proof. intros H. destruct hay; simpl in *; by rewrite H. Qed.

Lemma contains_skip c a hay :
  Str.contains c hay = true -> Str.contains c (String a hay) = true.
Proof.
  intros H. change (String.prefix c (String a hay) || Str.contains c hay = true).
  rewrite H. apply orb_true_r.
Qed.

Lemma contains_app_r c u hay :
  Str.contains c hay = true -> Str.contains c (u +:+ hay) = true.
Proof.
  intros H. induction u as [|a u IH]; simpl; [exact H|].
  by apply contains_skip.
Qed.

(** A component of a path occurs in the string of the path. *)
Lemma contains_segment c (root : path) :
  c ∈ root -> Str.contains c (os_path_str root) = true.
Proof.
  unfold os_path_str. induction root as [|x xs IH]; intros Hin.
  - inversion Hin.
  - apply elem_of_cons in Hin. destruct xs as [|y ys].
    + destruct Hin as [->|Hin]; [|inversion Hin].
      simpl. apply contains_here, prefix_refl.
    + change (Str.contains c (x +:+ "/" +:+ String.concat "/" (y :: ys)) = true).
      destruct Hin as [->|Hin].
      * apply contains_here, prefix_app.
      * apply contains_app_r, contains_app_r, IH, Hin.
Qed.

Lemma already_organized_intro category (root : path) :
  category ∈ category_names ->
  Str.contains category (os_path_str root) = true ->
  already_organized root = true.
Proof.
  intros Hcat Hsub. unfold already_organized. apply existsb_exists.
  exists category. split; [by apply list_elem_of_In|exact Hsub].
Qed.

Section Exclusion.

Variables (md5_hexdigest : string -> string) (clock : nat -> Z).
Variables (destination_dir : path) (preview include_date : bool).
Variable handle_duplicates : string.

Local Abbreviation step :=
  (process_file md5_hexdigest clock destination_dir preview
                include_date handle_duplicates).

(** An excluded file costs one [übersprungen] and nothing else. *)
Lemma skip_step root filename s :
  already_organized root = true ->
  step root filename s = set_stats (add_uebersprungen (stats s)) s.
Proof. intros H. unfold step, process_file. by rewrite H. Qed.

(** C7: a file below a directory one of whose path components equals a
    category name is left alone: the disk, the duplicate index and the
    per-category counts are as before, nothing is counted as moved or
    as an error, and the skipped counter grows by one. *)
Theorem C7_category_segment_skipped root filename s category :
  category ∈ category_names ->
  category ∈ root ->
  let s' := step root filename s in
  disk_of s' = disk_of s /\
  file_hashes s' = file_hashes s /\
  kategorien (stats s') = kategorien (stats s) /\
  verschoben (stats s') = verschoben (stats s) /\
  fehler (stats s') = fehler (stats s) /\
  uebersprungen (stats s') = S (uebersprungen (stats s)).
Proof.
  intros Hcat Hseg s'. subst s'.
  rewrite skip_step; [by repeat split|].
  eapply already_organized_intro; [exact Hcat|by apply contains_segment].
Qed.

(** C9: the exclusion tests whether a category name occurs as a
    substring of the directory path: every file of such a directory is
    skipped and nothing else happens, also when no component of the
    path is a category name, as for the directory "MyCodeStuff" and
    the category "Code". *)
Theorem C9_exclusion_by_substring :
  (forall root filename s category,
      category ∈ category_names ->
      Str.contains category (os_path_str root) = true ->
      let s' := step root filename s in
      disk_of s' = disk_of s /\
      file_hashes s' = file_hashes s /\
      kategorien (stats s') = kategorien (stats s) /\
      verschoben (stats s') = verschoben (stats s) /\
      fehler (stats s') = fehler (stats s) /\
      uebersprungen (stats s') = S (uebersprungen (stats s)))
  /\ Str.contains "Code" (os_path_str ["src"; "MyCodeStuff"]) = true
  /\ (forall seg, seg ∈ ["src"; "MyCodeStuff"] -> seg ∉ category_names).
Proof.
  split; [|split].
  - intros root filename s category Hcat Hsub s'. subst s'.
    rewrite skip_step; [by repeat split|].
    by eapply already_organized_intro.
  - reflexivity.
  - intros seg Hin Hcat. apply list_elem_of_In in Hin, Hcat.
    simpl in Hin, Hcat. intuition (subst; discriminate).
Qed.

End Exclusion.

Lemma C7_category_segment_skipped_witness :
  let s := initial_state disk_code_stuff in
  let s' := process_file sample_md5 sample_clock ["out"] false false "rename"
                         ["src"; "Bilder"] "notes.txt" s in
  disk_of s' = disk_of s /\
  file_hashes s' = file_hashes s /\
  kategorien (stats s') = kategorien (stats s) /\
  verschoben (stats s') = verschoben (stats s) /\
  fehler (stats s') = fehler (stats s) /\
  uebersprungen (stats s') = S (uebersprungen (stats s)).
Proof.
  apply (C7_category_segment_skipped sample_md5 sample_clock ["out"] false
           false "rename" ["src"; "Bilder"] "notes.txt"
           (initial_state disk_code_stuff) "Bilder").
  - apply list_elem_of_In. simpl. tauto.
  - apply list_elem_of_In. simpl. tauto.
Defined.

Lemma C9_exclusion_by_substring_witness :
  let s := initial_state disk_code_stuff in
  let s' := process_file sample_md5 sample_clock ["out"] false false "rename"
                         ["src"; "MyCodeStuff"] "notes.txt" s in
  disk_of s' = disk_of s /\
  file_hashes s' = file_hashes s /\
  kategorien (stats s') = kategorien (stats s) /\
  verschoben (stats s') = verschoben (stats s) /\
  fehler (stats s') = fehler (stats s) /\
  uebersprungen (stats s') = S (uebersprungen (stats s)).
Proof.
  apply (proj1 (C9_exclusion_by_substring sample_md5 sample_clock ["out"]
                  false false "rename")
           ["src"; "MyCodeStuff"] "notes.txt"
           (initial_state disk_code_stuff) "Code").
  - apply list_elem_of_In. simpl. tauto.
  - reflexivity.
Defined.

(** ** The counters *)

Lemma dict_get_set_eq k v (d : counts) : dict_get k (dict_set k v d) = Some v.
Proof.
  induction d as [|[k' v'] d IH]; simpl.
  - by rewrite String.eqb_refl.
  - destruct (String.eqb k k') eqn:E; simpl; rewrite E; [reflexivity|exact IH].
Qed.

Lemma total_set_new k v (d : counts) :
  dict_get k d = None -> total (dict_set k v d) = total d + v.
Proof.
  unfold total. induction d as [|[k' v'] d IH]; simpl; intros H; [lia|].
  destruct (String.eqb k k'); [discriminate|]. simpl. rewrite IH by done. lia.
Qed.

Lemma total_set_old k v v0 (d : counts) :
  dict_get k d = Some v0 -> total (dict_set k v d) + v0 = total d + v.
Proof.
  unfold total. induction d as [|[k' v'] d IH]; simpl; intros H; [discriminate|].
  destruct (String.eqb k k'); simpl.
  - inversion H; subst. lia.
  - specialize (IH H). lia.
Qed.

Lemma init_count_present category t :
  exists v, dict_get category (kategorien (init_count category t)) = Some v.
Proof.
  unfold init_count. destruct (dict_get category (kategorien t)) eqn:E.
  - eauto.
  - simpl. rewrite dict_get_set_eq. eauto.
Qed.

Lemma init_count_total category t :
  total (kategorien (init_count category t)) = total (kategorien t).
Proof.
  unfold init_count. destruct (dict_get category (kategorien t)) eqn:E;
    [reflexivity|]. simpl. rewrite total_set_new by done. lia.
Qed.

Lemma init_count_fields category t :
  verschoben (init_count category t) = verschoben t /\
  uebersprungen (init_count category t) = uebersprungen t /\
  fehler (init_count category t) = fehler t.
Proof. unfold init_count. by destruct (dict_get category (kategorien t)). Qed.

Ltac unfold_monad :=
  unfold create_directory_if_not_exists, init_category, incr_category,
    update_stats, record_hash, time_time, io_update, io_read, io_query,
    continue_, bind, ret.

Section Counters.
Variables (md5_hexdigest : string -> string) (clock : nat -> Z).
Variables (destination_dir : path) (preview include_date : bool).
Variable handle_duplicates : string.

Local Abbreviation plan :=
  (plan_target_dir destination_dir preview include_date).
Local Abbreviation resolve :=
  (resolve_collision md5_hexdigest clock handle_duplicates).
Local Abbreviation body :=
  (try_body md5_hexdigest clock destination_dir preview include_date
            handle_duplicates).

Lemma plan_frame source_path category s :
  let r := plan source_path category s in
  stats r.2 = stats s /\ file_hashes r.2 = file_hashes s /\
  ticks r.2 = ticks s /\ r.1 <> Continue.
Proof.
  unfold plan_target_dir. unfold_monad.
  repeat (case_match; simplify_eq /=); done.
Qed.

Lemma resolve_frame source_path target_dir filename target_path s :
  let r := resolve source_path target_dir filename target_path s in
  disk_of r.2 = disk_of s /\
  match r.1 with
  | Continue => stats r.2 = add_uebersprungen (stats s)
  | _ => stats r.2 = stats s
  end.
Proof.
  unfold resolve_collision. unfold_monad.
  repeat (case_match; simplify_eq /=); done.
Qed.

Lemma try_body_counters root filename s o s' :
  body root filename s = (o, s') ->
  let t := stats s in
  let t' := stats s' in
  match o with
  | Normal _ =>
      verschoben t' = S (verschoben t) /\
      total (kategorien t') = S (total (kategorien t)) /\
      uebersprungen t' = uebersprungen t /\ fehler t' = fehler t
  | Continue =>
      verschoben t' = verschoben t /\
      total (kategorien t') = total (kategorien t) /\
      uebersprungen t' = S (uebersprungen t) /\ fehler t' = fehler t
  | Raise _ =>
      verschoben t' = verschoben t /\
      total (kategorien t') = total (kategorien t) /\
      uebersprungen t' = uebersprungen t /\ fehler t' = fehler t
  end.
Proof.
  unfold try_body.
  destruct (os_path_splitext filename) as [name ext].
  set (category := get_category_for_extension ext).
  destruct (init_count_present category (stats s)) as [v Hv].
  pose proof (init_count_total category (stats s)) as Htot.
  pose proof (init_count_fields category (stats s)) as (Hm & Hs & He).
  pose proof (total_set_old _ (v + 1) _ _ Hv) as Hincr.
  unfold bind at 1. unfold init_category, update_stats.
  set (s1 := set_stats _ s).
  assert (Hs1 : stats s1 = init_count category (stats s)) by reflexivity.
  clearbody s1.
  unfold bind at 1.
  pose proof (plan_frame (os_path_join root filename) category s1) as Hplan.
  destruct (plan _ category s1) as [[target_dir| |e] s2]; simpl in Hplan;
    destruct Hplan as (Hs2 & _ & _ & Hnc); [|done|]; rewrite Hs1 in Hs2;
    cycle 1.
  { intros [= <- <-]. simpl. rewrite Hs2. repeat split; congruence. }
  unfold bind at 1. unfold io_query at 1.
  assert (Hres : exists o s3,
             (if os_path_exists (disk_of s2) (os_path_join target_dir filename)
              then resolve (os_path_join root filename) target_dir filename
                           (os_path_join target_dir filename)
              else ret (os_path_join target_dir filename)) s2 = (o, s3) /\
             match o with
             | Continue => stats s3 = add_uebersprungen (stats s2)
             | _ => stats s3 = stats s2
             end).
  { destruct (os_path_exists _ _).
    - pose proof (resolve_frame (os_path_join root filename) target_dir
                    filename (os_path_join target_dir filename) s2) as [_ H].
      destruct (resolve _ _ _ _ s2) as [o1 s3]. by exists o1, s3.
    - by exists (Normal (os_path_join target_dir filename)), s2. }
  destruct Hres as (o1 & s3 & Hrun & Hs3).
  unfold bind at 1. rewrite Hrun.
  destruct o1 as [target_path| |e]; rewrite Hs2 in Hs3; simpl; cycle 1.
  { intros [= <- <-]. rewrite Hs3. simpl. repeat split; congruence. }
  { intros [= <- <-]. rewrite Hs3. repeat split; congruence. }
  unfold bind at 1.
  assert (Hmove : exists o s4,
             (if preview then ret tt
              else io_update (fun d => shutil_move d (os_path_join root filename)
                                                   target_path)) s3 = (o, s4) /\
             stats s4 = stats s3 /\ o <> Continue).
  { unfold io_update, ret. destruct preview; [by eauto|].
    destruct (shutil_move _ _ _); by eauto. }
  destruct Hmove as (o2 & s4 & -> & Hs4 & Hnc4). rewrite Hs3 in Hs4.
  destruct o2 as [[]| |e]; [|done|]; cycle 1.
  { intros [= <- <-]. simpl. rewrite Hs4. repeat split; congruence. }
  unfold bind, update_stats, incr_category. simpl. rewrite Hs4, Hv.
  intros [= <- <-]. simpl. repeat split; lia.
Qed.

Local Abbreviation step :=
  (process_file md5_hexdigest clock destination_dir preview
                include_date handle_duplicates).
Local Abbreviation run_walk :=
  (walk md5_hexdigest clock destination_dir preview include_date
        handle_duplicates).

(** A file either completes, and then [verschoben] and the count of
    its category both grow by one, or it is skipped or fails, and then
    neither changes. *)
Lemma process_file_counters root filename s :
  let t := stats s in
  let t' := stats (step root filename s) in
  (verschoben t' = S (verschoben t) /\
   total (kategorien t') = S (total (kategorien t)) /\
   uebersprungen t' = uebersprungen t /\ fehler t' = fehler t)
  \/ (verschoben t' = verschoben t /\
      total (kategorien t') = total (kategorien t) /\
      uebersprungen t' + fehler t' = S (uebersprungen t + fehler t)).
Proof.
  intros t t'. subst t t'. unfold process_file.
  destruct (already_organized root).
  - right. simpl. repeat split; lia.
  - destruct (body root filename s) as [o s1] eqn:Hbody.
    apply try_body_counters in Hbody. simpl in Hbody.
    destruct o as [[]| |e]; [left|right|right]; simpl;
      destruct Hbody as (H1 & H2 & H3 & H4); repeat split; lia.
Qed.

(** A property that every file step keeps is kept by the loop over the
    files of a directory and by the walk. *)
Lemma process_files_invariant (P : run_state -> Prop) :
  (forall root filename s, P s -> P (step root filename s)) ->
  forall root files s, P s ->
    P (process_files md5_hexdigest clock destination_dir preview
                     include_date handle_duplicates root files s).
Proof.
  intros Hstep root files. unfold process_files.
  induction files as [|f files IH]; intros s Hs; simpl; [done|].
  apply IH, Hstep, Hs.
Qed.

Lemma walk_invariant (P : run_state -> Prop) :
  (forall root filename s, P s -> P (step root filename s)) ->
  forall depth top s s', P s -> run_walk depth top s = Some s' -> P s'.
Proof.
  intros Hstep depth.
  induction depth as [|depth IH]; intros top s s' Hs; simpl;
    destruct (scandir (disk_of s) top) as [[dirs files]|];
    try (intros [= <-]; done); try done.
  pose proof (process_files_invariant P Hstep top files s Hs) as Hfiles.
  revert Hfiles. generalize (process_files md5_hexdigest clock
    destination_dir preview include_date handle_duplicates top files s).
  induction dirs as [|dir dirs IHdirs]; intros s1 Hs1; simpl.
  - by intros [= <-].
  - destruct (run_walk depth (os_path_join top dir) s1) as [s2|] eqn:Hw.
    + apply IHdirs. by eapply IH.
    + clear. induction dirs; simpl; [done|auto].
Qed.

Lemma walk_S depth top s :
  run_walk (S depth) top s
  = match scandir (disk_of s) top with
    | None => Some s
    | Some (dirs, files) =>
        fold_left
          (fun acc dirname =>
             match acc with
             | Some s' => run_walk depth (os_path_join top dirname) s'
             | None => None
             end)
          dirs
          (Some (process_files md5_hexdigest clock destination_dir preview
                   include_date handle_duplicates top files s))
    end.
Proof. reflexivity. Qed.

(** A larger [depth] does not change what the walk returns. *)
Lemma walk_depth_step depth top s s' :
  run_walk depth top s = Some s' -> run_walk (S depth) top s = Some s'.
Proof.
  revert top s s'. induction depth as [|depth IH]; intros top s s'.
  - simpl. by destruct (scandir (disk_of s) top) as [[dirs files]|].
  - rewrite (walk_S (S depth)), (walk_S depth).
    destruct (scandir (disk_of s) top) as [[dirs files]|]; [|done].
    generalize (process_files md5_hexdigest clock destination_dir preview
                  include_date handle_duplicates top files s).
    induction dirs as [|dir dirs IHdirs]; intros s1; [done|].
    cbn [fold_left].
    destruct (walk _ _ _ _ _ _ depth (os_path_join top dir) s1) as [s2|] eqn:Hw.
    + rewrite (IH _ _ _ Hw). apply IHdirs.
    + intros Hnone. exfalso. revert Hnone. clear.
      induction dirs as [|dir' dirs IHd]; simpl; [done|exact IHd].
Qed.

Lemma walk_depth_mono depth depth' top s s' :
  depth <= depth' ->
  run_walk depth top s = Some s' -> run_walk depth' top s = Some s'.
Proof.
  intros Hle Hwalk. induction Hle as [|depth' Hle IH]; [done|].
  by apply walk_depth_step.
Qed.

End Counters.

(** The directories made before the walk leave the counters alone. *)
Lemma create_directory_frame directory s :
  let r := create_directory_if_not_exists directory s in
  stats r.2 = stats s /\ file_hashes r.2 = file_hashes s /\
  ticks r.2 = ticks s /\ r.1 <> Continue.
Proof.
  unfold_monad. repeat (case_match; simplify_eq /=); done.
Qed.

Lemma create_category_directories_frame destination_dir names s :
  let r := create_category_directories destination_dir names s in
  stats r.2 = stats s /\ file_hashes r.2 = file_hashes s /\
  ticks r.2 = ticks s /\ r.1 <> Continue.
Proof.
  revert s. induction names as [|category names IH]; intros s; simpl; [done|].
  unfold bind.
  pose proof (create_directory_frame
                (os_path_join destination_dir category) s) as Hdir.
  destruct (create_directory_if_not_exists _ s) as [[[]| |e] s1];
    simpl in Hdir; destruct Hdir as (H1 & H2 & H3 & H4); [|done|done].
  specialize (IH s1). simpl in IH. destruct IH as (I1 & I2 & I3 & I4).
  repeat split; congruence.
Qed.

(** C10: after every file and in the returned statistics, [verschoben]
    is the sum of the per-category counts.  A file that completes adds
    one to [verschoben] and one to the count of its category; a file
    that is skipped or fails adds to neither. *)
Theorem C10_moved_is_sum_of_categories
    (md5_hexdigest : string -> string) (clock : nat -> Z)
    (destination_dir : path) (preview include_date : bool)
    (handle_duplicates : string) :
  (forall root filename s,
      let t := stats s in
      let t' := stats (process_file md5_hexdigest clock destination_dir
                         preview include_date handle_duplicates
                         root filename s) in
      (verschoben t' = S (verschoben t) /\
       total (kategorien t') = S (total (kategorien t)) /\
       uebersprungen t' = uebersprungen t /\ fehler t' = fehler t)
      \/ (verschoben t' = verschoben t /\
          total (kategorien t') = total (kategorien t) /\
          uebersprungen t' + fehler t' = S (uebersprungen t + fehler t)))
  /\ (forall root filename s,
         counts_consistent (stats s) ->
         counts_consistent
           (stats (process_file md5_hexdigest clock destination_dir preview
                     include_date handle_duplicates root filename s)))
  /\ (forall depth top s s',
         counts_consistent (stats s) ->
         walk md5_hexdigest clock destination_dir preview include_date
              handle_duplicates depth top s = Some s' ->
         counts_consistent (stats s'))
  /\ (forall depth source_dir destination d s',
         organize_files_by_type md5_hexdigest clock depth source_dir
           destination preview include_date handle_duplicates d
         = Some (Returned s') ->
         counts_consistent (stats s')).
Proof.
  assert (Hstep : forall dest root filename s,
             counts_consistent (stats s) ->
             counts_consistent
               (stats (process_file md5_hexdigest clock dest preview
                         include_date handle_duplicates root filename s))).
  { intros dest root filename s Hs. unfold counts_consistent in *.
    destruct (process_file_counters md5_hexdigest clock dest preview
                include_date handle_duplicates root filename s)
      as [(H1 & H2 & _)|(H1 & H2 & _)]; lia. }
  split; [apply process_file_counters|]. split; [apply Hstep|]. split.
  - intros depth top s s' Hs Hwalk.
    exact (walk_invariant _ _ _ _ _ _ (fun s => counts_consistent (stats s))
             (Hstep destination_dir) depth top s s' Hs Hwalk).
  - intros depth source_dir destination d s'. unfold organize_files_by_type.
    set (dest := destination_or_source source_dir destination).
    set (prepared := if negb preview then _ else _).
    assert (Hprep : counts_consistent (stats prepared.2)).
    { subst prepared. destruct preview; [reflexivity|].
      change (counts_consistent
                (stats (create_category_directories dest category_names
                          (initial_state d)).2)).
      destruct (create_category_directories_frame dest category_names
                  (initial_state d)) as (-> & _). reflexivity. }
    destruct prepared as [o s0]. simpl in Hprep.
    destruct o as [[]| |e]; try done;
      destruct (walk _ _ _ _ _ _ depth source_dir s0) as [s1|] eqn:Hwalk;
      try done; intros [= <-];
      exact (walk_invariant _ _ _ _ _ _ (fun s => counts_consistent (stats s))
               (Hstep dest) depth source_dir s0 s1 Hprep Hwalk).
Qed.

(** ** The disk *)

Lemma exists_false_lookup (d : disk) p :
  os_path_exists d p = false -> p <> [] /\ d !! p = None.
Proof.
  unfold os_path_exists, node_at. destruct p; [done|].
  destruct (d !! (s :: p)); [done|]. by split.
Qed.

Lemma os_mkdir_inr d p d' :
  os_mkdir d p = inr d' -> d' = <[p := Dir]> d /\ p <> [] /\ d !! p = None.
Proof.
  unfold os_mkdir. destruct (os_path_exists d p) eqn:E; [done|].
  apply exists_false_lookup in E.
  destruct (node_at d (dirname p)) as [[f|]|]; try done.
  intros [= <-]. tauto.
Qed.

(** [os.makedirs] only adds directories, at paths no longer than its
    argument. *)
Lemma makedirs_rev_spec rp d d' :
  makedirs_rev rp d = inr d' ->
  forall k, d' !! k = d !! k \/
            (d !! k = None /\ d' !! k = Some Dir /\ length k <= length rp).
Proof.
  revert d d'. induction rp as [|tail rhead IH]; intros d d'.
  - simpl. unfold os_mkdir. simpl. done.
  - cbn [makedirs_rev].
    set (made := match rev rhead with [] => _ | _ => _ end).
    assert (Hmade : forall d1, made = inr d1 ->
              forall k, d1 !! k = d !! k \/
                (d !! k = None /\ d1 !! k = Some Dir /\ length k <= length rhead)).
    { subst made. intros d1. destruct (rev rhead) as [|a l].
      - intros [= <-] k. by left.
      - destruct (os_path_exists d (a :: l)).
        + intros [= <-] k. by left.
        + destruct (makedirs_rev rhead d) as [e|d2] eqn:Hrec.
          * destruct e; try done. intros [= <-] k. by left.
          * intros [= <-]. by apply IH. }
    destruct made as [e|d1]; [done|].
    specialize (Hmade d1 eq_refl).
    intros Hmk k. apply os_mkdir_inr in Hmk as (-> & Hne & Hnone).
    destruct (decide (k = rev (tail :: rhead))) as [->|Hk].
    + rewrite lookup_insert_eq.
      destruct (Hmade (rev (tail :: rhead))) as [Heq|(Hd & Hd1 & _)].
      * right. rewrite <- Heq, Hnone. by rewrite length_rev.
      * congruence.
    + rewrite lookup_insert_ne by done.
      destruct (Hmade k) as [Heq|(Hd & Hd1 & Hlen)]; [by left|].
      right. simpl. repeat split; [done|done|lia].
Qed.

Lemma os_makedirs_spec d p d' :
  os_makedirs d p = inr d' ->
  forall k, d' !! k = d !! k \/
            (d !! k = None /\ d' !! k = Some Dir /\ length k <= length p).
Proof.
  unfold os_makedirs. intros H k.
  destruct (makedirs_rev_spec _ _ _ H k) as [|(?&?&Hlen)]; [by left|].
  rewrite length_rev in Hlen. by right.
Qed.

(** A successful [shutil.move] takes the file from [src] and puts it at
    some path. *)
Lemma os_rename_inr d src dst d' :
  os_rename d src dst = inr d' ->
  exists f, node_at d src = Some (File f) /\ movable f = true /\
            os_path_isdir d dst = false /\
            node_at d (dirname dst) = Some Dir /\
            d' = <[dst := File f]> (delete src d).
Proof.
  unfold os_rename. destruct (node_at d src) as [[f|]|] eqn:Hsrc; try done.
  destruct (movable f) eqn:Hmov; [|done]. simpl.
  destruct (os_path_isdir d dst) eqn:Hdst; [done|].
  destruct (node_at d (dirname dst)) as [[g|]|] eqn:Hpar; try done.
  intros [= <-]. by exists f.
Qed.

Lemma shutil_move_inr d src dst d' :
  shutil_move d src dst = inr d' ->
  exists f real_dst, node_at d src = Some (File f) /\
                     d' = <[real_dst := File f]> (delete src d).
Proof.
  unfold shutil_move. destruct (os_path_isdir d dst).
  - destruct (os_path_exists d _); [done|].
    intros H. apply os_rename_inr in H as (f & ? & _ & _ & _ & ?). eauto.
  - intros H. apply os_rename_inr in H as (f & ? & _ & _ & _ & ?). eauto.
Qed.

Section DiskInvariant.
Variables (md5_hexdigest : string -> string) (clock : nat -> Z).
Variables (destination_dir : path) (preview include_date : bool).
Variable handle_duplicates : string.

Local Abbreviation plan :=
  (plan_target_dir destination_dir preview include_date).
Local Abbreviation resolve :=
  (resolve_collision md5_hexdigest clock handle_duplicates).
Local Abbreviation body :=
  (try_body md5_hexdigest clock destination_dir preview include_date
            handle_duplicates).
Local Abbreviation step :=
  (process_file md5_hexdigest clock destination_dir preview
                include_date handle_duplicates).

(** A property of the disk that the directory creations and the moves
    of a run that is not a preview keep. *)
Variable P : disk -> Prop.
Hypothesis makedirs_keeps :
  preview = false ->
  forall d p d', length p <= length destination_dir + 2 ->
                 P d -> os_makedirs d p = inr d' -> P d'.
Hypothesis move_keeps :
  preview = false ->
  forall d src dst d', P d -> shutil_move d src dst = inr d' -> P d'.

Lemma create_directory_disk p s :
  preview = false -> length p <= length destination_dir + 2 ->
  P (disk_of s) -> P (disk_of (create_directory_if_not_exists p s).2).
Proof.
  intros Hpre Hlen HP. unfold_monad.
  destruct (os_path_exists (disk_of s) p); simpl; [done|].
  destruct (os_makedirs (disk_of s) p) as [e|d'] eqn:Hmk; simpl; [done|].
  by eapply makedirs_keeps.
Qed.

Lemma plan_disk source_path category s :
  P (disk_of s) -> P (disk_of (plan source_path category s).2).
Proof.
  intros HP. unfold plan_target_dir.
  destruct include_date; [|done].
  unfold bind, io_read, ret.
  destruct (getmtime_month (disk_of s) source_path) as [e|date_str]; [done|].
  destruct (bool_dec preview true) as [Hpre|Hpre%not_true_is_false];
    rewrite Hpre; simpl; [done|].
  pose proof (create_directory_disk
                (os_path_join (os_path_join destination_dir category) date_str)
                s Hpre) as Hdir.
  destruct (create_directory_if_not_exists _ s) as [[[]| |e] s1]; simpl in *;
    apply Hdir; try done; unfold os_path_join; rewrite !length_app; simpl; lia.
Qed.

Lemma try_body_disk root filename s :
  P (disk_of s) -> P (disk_of (body root filename s).2).
Proof.
  intros HP. unfold try_body.
  destruct (os_path_splitext filename) as [name ext].
  set (category := get_category_for_extension ext).
  unfold bind at 1. unfold init_category, update_stats.
  set (s1 := set_stats _ s).
  assert (HP1 : P (disk_of s1)) by exact HP. clearbody s1.
  unfold bind at 1.
  pose proof (plan_disk (os_path_join root filename) category s1 HP1) as HP2.
  destruct (plan _ category s1) as [[target_dir| |e] s2]; simpl in HP2;
    [|done|done].
  unfold bind at 1. unfold io_query at 1. unfold bind at 1.
  assert (Hres : exists o s3,
             (if os_path_exists (disk_of s2) (os_path_join target_dir filename)
              then resolve (os_path_join root filename) target_dir filename
                           (os_path_join target_dir filename)
              else ret (os_path_join target_dir filename)) s2 = (o, s3) /\
             P (disk_of s3)).
  { destruct (os_path_exists _ _); [|by eexists _, _].
    pose proof (resolve_frame md5_hexdigest clock handle_duplicates
                  (os_path_join root filename) target_dir filename
                  (os_path_join target_dir filename) s2) as [H _].
    destruct (resolve _ _ _ _ s2) as [o s3]. exists o, s3.
    simpl in H. by rewrite H. }
  destruct Hres as (o & s3 & -> & HP3).
  destruct o as [target_path| |e]; [|done|done].
  unfold bind at 1.
  assert (Hmove : exists o s4,
             (if preview then ret tt
              else io_update (fun d => shutil_move d (os_path_join root filename)
                                                   target_path)) s3 = (o, s4) /\
             P (disk_of s4)).
  { unfold io_update, ret.
    destruct (bool_dec preview true) as [Hpre|Hpre%not_true_is_false];
      rewrite Hpre; [by eexists _, _|].
    destruct (shutil_move _ _ _) as [e|d'] eqn:Hmv; [by eexists _, _|].
    eexists _, _. split; [reflexivity|]. by eapply move_keeps. }
  destruct Hmove as (o & s4 & -> & HP4).
  destruct o as [[]| |e]; [|done|done].
  unfold bind, update_stats, incr_category. simpl.
  by destruct (dict_get category _).
Qed.

Lemma process_file_disk root filename s :
  P (disk_of s) -> P (disk_of (step root filename s)).
Proof.
  intros HP. unfold process_file.
  destruct (already_organized root); [done|].
  pose proof (try_body_disk root filename s HP) as H.
  by destruct (body root filename s) as [[[]| |e] s1].
Qed.

Lemma create_category_directories_disk names s :
  preview = false ->
  P (disk_of s) ->
  P (disk_of (create_category_directories destination_dir names s).2).
Proof.
  intros Hpre. revert s.
  induction names as [|category names IH]; intros s HP; simpl; [done|].
  unfold bind.
  pose proof (create_directory_disk (os_path_join destination_dir category)
                s Hpre) as Hdir.
  destruct (create_directory_if_not_exists _ s) as [[[]| |e] s1]; simpl in *;
    try (apply IH); apply Hdir; try done;
    unfold os_path_join; rewrite length_app; simpl; lia.
Qed.

End DiskInvariant.

(** ** Termination of the walk *)

Lemma makedirs_within bound d p d' :
  length p <= bound -> dirs_within bound d ->
  os_makedirs d p = inr d' -> dirs_within bound d'.
Proof.
  intros Hlen Hd Hmk k Hk.
  destruct (os_makedirs_spec _ _ _ Hmk k) as [Heq|(_ & _ & Hk')]; [|lia].
  apply Hd. congruence.
Qed.

Lemma move_within bound d src dst d' :
  dirs_within bound d -> shutil_move d src dst = inr d' -> dirs_within bound d'.
Proof.
  intros Hd Hmv k Hk. apply shutil_move_inr in Hmv as (f & real_dst & _ & ->).
  destruct (decide (real_dst = k)) as [->|Hne].
  - by rewrite lookup_insert_eq in Hk.
  - rewrite lookup_insert_ne in Hk by done.
    destruct (decide (src = k)) as [->|Hne'].
    + by rewrite lookup_delete_eq in Hk.
    + rewrite lookup_delete_ne in Hk by done. by apply Hd.
Qed.

Lemma dirs_within_exists (d : disk) : exists bound, dirs_within bound d.
Proof.
  induction d as [|k n d Hk Hfresh IH] using map_first_key_ind.
  - exists 0. intros k Hk. by rewrite lookup_empty in Hk.
  - destruct IH as [bound IH]. exists (Nat.max bound (length k)).
    intros k' Hk'. destruct (decide (k = k')) as [->|Hne]; [lia|].
    rewrite lookup_insert_ne in Hk' by done. specialize (IH k' Hk'). lia.
Qed.

Lemma dirs_within_mono bound bound' d :
  bound <= bound' -> dirs_within bound d -> dirs_within bound' d.
Proof. intros Hle Hd k Hk. specialize (Hd k Hk). lia. Qed.

Lemma scandir_too_deep bound d top :
  dirs_within bound d -> bound < length top -> scandir d top = None.
Proof.
  intros Hd Hlen. unfold scandir, os_path_isdir, node_at.
  destruct top as [|a top]; [simpl in Hlen; lia|].
  destruct (d !! (a :: top)) as [[f|]|] eqn:E; try done.
  specialize (Hd _ E). lia.
Qed.

Section Termination.
Variables (md5_hexdigest : string -> string) (clock : nat -> Z).
Variables (destination_dir : path) (preview include_date : bool).
Variable handle_duplicates : string.
Variable bound : nat.
Hypothesis bound_dest : length destination_dir + 2 <= bound.

Local Abbreviation step :=
  (process_file md5_hexdigest clock destination_dir preview
                include_date handle_duplicates).
Local Abbreviation run_walk :=
  (walk md5_hexdigest clock destination_dir preview include_date
        handle_duplicates).

Lemma process_file_within root filename s :
  dirs_within bound (disk_of s) ->
  dirs_within bound (disk_of (step root filename s)).
Proof.
  apply process_file_disk.
  - intros _ d p d' Hlen. apply makedirs_within. lia.
  - intros _ d src dst d'. apply move_within.
Qed.

(** With [depth] above the deepest directory, the walk comes back. *)
Lemma walk_returns depth top s :
  dirs_within bound (disk_of s) ->
  bound < length top + depth ->
  exists s', run_walk depth top s = Some s' /\ dirs_within bound (disk_of s').
Proof.
  revert top s. induction depth as [|depth IH]; intros top s Hd Hlen.
  - simpl. rewrite (scandir_too_deep bound) by (done || lia). eauto.
  - simpl. destruct (scandir (disk_of s) top) as [[dirs files]|]; [|eauto].
    pose proof (process_files_invariant md5_hexdigest clock destination_dir
                  preview include_date handle_duplicates
                  (fun s => dirs_within bound (disk_of s))
                  process_file_within top files s Hd) as Hfiles.
    revert Hfiles. generalize (process_files md5_hexdigest clock
      destination_dir preview include_date handle_duplicates top files s).
    induction dirs as [|dir dirs IHdirs]; intros s1 Hs1; simpl; [eauto|].
    destruct (IH (os_path_join top dir) s1 Hs1) as (s2 & -> & Hs2).
    + unfold os_path_join. rewrite length_app. simpl. lia.
    + by apply IHdirs.
Qed.

End Termination.

(** Every call of [organize_files_by_type] comes to an end, with one and
    the same result for every [depth] that is large enough, and only the
    creation of the category folders before the walk can make it end
    with an exception. *)
Lemma organize_returns (md5_hexdigest : string -> string) (clock : nat -> Z)
    (source_dir : path) (destination : option path)
    (preview include_date : bool) (handle_duplicates : string) (d : disk) :
  exists depth0 r,
    (forall depth, depth0 <= depth ->
       organize_files_by_type md5_hexdigest clock depth source_dir destination
         preview include_date handle_duplicates d = Some r) /\
    (preview = true -> exists s, r = Returned s) /\
    (forall e s, r = Raised e s ->
       create_category_directories
         (destination_or_source source_dir destination)
         category_names (initial_state d) = (Raise e, s)).
Proof.
  destruct (dirs_within_exists d) as [bound0 Hd].
  set (dest := destination_or_source source_dir destination).
  set (bound := Nat.max bound0 (length dest + 2)).
  assert (Hd0 : dirs_within bound (disk_of (initial_state d))).
  { eapply dirs_within_mono; [|exact Hd]. lia. }
  unfold organize_files_by_type. fold dest.
  destruct preview eqn:Hpre; simpl negb; cbv iota.
  - destruct (walk_returns md5_hexdigest clock dest true include_date
                handle_duplicates bound ltac:(lia) (S bound) source_dir
                (initial_state d) Hd0 ltac:(lia)) as (s' & Hwalk & _).
    exists (S bound), (Returned s'). split; [|split; [eauto|by intros e s [=]]].
    intros depth Hdepth.
    by rewrite (walk_depth_mono _ _ _ _ _ _ _ _ _ _ _ Hdepth Hwalk).
  - pose proof (create_category_directories_disk dest false
                  (dirs_within bound)
                  (fun _ d p d' Hlen => makedirs_within bound d p d' ltac:(lia))
                  category_names (initial_state d) eq_refl Hd0) as Hprep.
    pose proof (create_category_directories_frame dest category_names
                  (initial_state d)) as (_ & _ & _ & Hnc).
    destruct (create_category_directories dest category_names (initial_state d))
      as [[[]| |e] s0]; simpl in Hprep, Hnc; [|done|].
    + destruct (walk_returns md5_hexdigest clock dest false include_date
                  handle_duplicates bound ltac:(lia) (S bound) source_dir
                  s0 Hprep ltac:(lia)) as (s' & Hwalk & _).
      exists (S bound), (Returned s'). split; [|split; [done|by intros e s [=]]].
      intros depth Hdepth.
      by rewrite (walk_depth_mono _ _ _ _ _ _ _ _ _ _ _ Hdepth Hwalk).
    + exists 0, (Raised e s0). split; [done|]. split; [done|].
      by intros e' s' [= <- <-].
Qed.

(** ** Preview runs *)

Section Preview.
Variables (md5_hexdigest : string -> string) (clock : nat -> Z).
Variables (destination_dir : path) (include_date : bool).
Variable handle_duplicates : string.

(** A preview step leaves the disk as it is. *)
Lemma preview_step_disk root filename s :
  disk_of (process_file md5_hexdigest clock destination_dir true
             include_date handle_duplicates root filename s) = disk_of s.
Proof.
  symmetry.
  apply (process_file_disk md5_hexdigest clock destination_dir true
           include_date handle_duplicates (fun d => disk_of s = d));
    done.
Qed.

Lemma preview_walk_disk depth top s s' :
  walk md5_hexdigest clock destination_dir true include_date
       handle_duplicates depth top s = Some s' ->
  disk_of s' = disk_of s.
Proof.
  apply (walk_invariant md5_hexdigest clock destination_dir true
           include_date handle_duplicates
           (fun s1 => disk_of s1 = disk_of s)); [|done].
  intros root filename s1 <-. apply preview_step_disk.
Qed.

End Preview.

Lemma node_at_join (d : disk) p name :
  node_at d (os_path_join p name) = d !! os_path_join p name.
Proof. unfold node_at, os_path_join. by destruct p. Qed.

Section Agreement.
Variables (md5_hexdigest : string -> string) (clock : nat -> Z).
Variables (destination_dir : path) (include_date : bool).
Variable handle_duplicates : string.

Local Abbreviation plan := (plan_target_dir destination_dir).
Local Abbreviation resolve :=
  (resolve_collision md5_hexdigest clock handle_duplicates).
Local Abbreviation body :=
  (try_body md5_hexdigest clock destination_dir).
Local Abbreviation step :=
  (process_file md5_hexdigest clock destination_dir).

(** When the planner of a real run succeeds, the planner of a preview
    gives the same directory, and the real run has at most added
    directories no deeper than it. *)
Lemma plan_agree source_path category s target_dir s2 :
  plan false include_date source_path category s = (Normal target_dir, s2) ->
  plan true include_date source_path category s = (Normal target_dir, s) /\
  exists d1, s2 = set_disk d1 s /\
    forall k, d1 !! k = disk_of s !! k \/
              (disk_of s !! k = None /\ d1 !! k = Some Dir /\
               length k <= length target_dir).
Proof.
  unfold plan_target_dir. destruct include_date; cycle 1.
  { intros [= <- <-]. split; [done|]. exists (disk_of s).
    split; [by destruct s|]. by left. }
  unfold_monad.
  destruct (getmtime_month (disk_of s) source_path) as [e|date_str]; [done|].
  simpl. destruct (os_path_exists (disk_of s) _); simpl.
  - intros [= <- <-]. split; [done|]. exists (disk_of s).
    split; [by destruct s|]. by left.
  - destruct (os_makedirs (disk_of s) _) as [e|d1] eqn:Hmk; [done|].
    intros [= <- <-]. split; [done|]. exists d1. split; [done|].
    by apply os_makedirs_spec.
Qed.

(** The resolver reads the disk only to hash the source file. *)
Lemma resolve_disk source_path target_dir filename target_path s d1 :
  get_file_hash md5_hexdigest d1 source_path
  = get_file_hash md5_hexdigest (disk_of s) source_path ->
  resolve source_path target_dir filename target_path (set_disk d1 s)
  = let r := resolve source_path target_dir filename target_path s in
    (r.1, set_disk d1 r.2).
Proof.
  intros Hh. unfold resolve_collision. unfold_monad. simpl. rewrite Hh.
  repeat (case_match; simplify_eq /=); done.
Qed.

Lemma body_agree root filename s o sr :
  body false include_date handle_duplicates root filename s = (o, sr) ->
  (forall e, o <> Raise e) ->
  exists sp,
    body true include_date handle_duplicates root filename s = (o, sp) /\
    stats sr = stats sp /\ file_hashes sr = file_hashes sp /\
    ticks sr = ticks sp.
Proof.
  unfold try_body.
  destruct (os_path_splitext filename) as [name ext].
  set (category := get_category_for_extension ext).
  unfold bind at 1. unfold bind at 6.
  unfold init_category, update_stats.
  set (s1 := set_stats _ s). clearbody s1.
  unfold bind at 1. unfold bind at 5.
  destruct (plan false include_date _ category s1)
    as [[target_dir| |e] s2] eqn:Hplan;
    [| |intros [= <- <-] H; by destruct (H e)].
  2:{ intros [= <- <-] _.
      pose proof (plan_frame destination_dir false include_date
                    (os_path_join root filename) category s1) as (_&_&_&H).
      by rewrite Hplan in H. }
  apply plan_agree in Hplan as (-> & d1 & -> & Hd1).
  assert (Hex : os_path_exists d1 (os_path_join target_dir filename)
                = os_path_exists (disk_of s1) (os_path_join target_dir filename)).
  { unfold os_path_exists. rewrite !node_at_join.
    destruct (Hd1 (os_path_join target_dir filename)) as [->|(_ & _ & Hlen)];
      [done|].
    unfold os_path_join in Hlen. rewrite length_app in Hlen. simpl in Hlen. lia. }
  assert (Hhash : get_file_hash md5_hexdigest d1 (os_path_join root filename)
                  = get_file_hash md5_hexdigest (disk_of s1)
                      (os_path_join root filename)).
  { unfold get_file_hash. rewrite !node_at_join.
    by destruct (Hd1 (os_path_join root filename)) as [->|(-> & -> & _)]. }
  intros Hreal Hnr.
  unfold bind at 1 in Hreal. unfold io_query in Hreal.
  change (disk_of (set_disk d1 s1)) with d1 in Hreal. rewrite Hex in Hreal.
  unfold bind at 1 in Hreal.
  unfold bind at 1. unfold io_query. unfold bind at 1.
  assert (Hres : exists o1 s3,
             (if os_path_exists (disk_of s1) (os_path_join target_dir filename)
              then resolve (os_path_join root filename) target_dir filename
                           (os_path_join target_dir filename)
              else ret (os_path_join target_dir filename)) s1 = (o1, s3) /\
             (if os_path_exists (disk_of s1) (os_path_join target_dir filename)
              then resolve (os_path_join root filename) target_dir filename
                           (os_path_join target_dir filename)
              else ret (os_path_join target_dir filename)) (set_disk d1 s1)
             = (o1, set_disk d1 s3)).
  { clear Hex Hreal.
    destruct (os_path_exists (disk_of s1) _);
      [|eexists _, _; split; reflexivity].
    rewrite resolve_disk by exact Hhash.
    destruct (resolve _ _ _ _ s1) as [o1 s3]. by exists o1, s3. }
  destruct Hres as (o1 & s3 & Hp & Hr). rewrite Hr in Hreal. rewrite Hp.
  destruct o1 as [target_path| |e].
  - unfold bind at 1 in Hreal. unfold io_update in Hreal.
    change (disk_of (set_disk d1 s3)) with d1 in Hreal.
    destruct (shutil_move d1 _ target_path) as [e|d2];
      [injection Hreal as <- <-; by destruct (Hnr e)|].
    revert Hreal.
    unfold bind, ret, update_stats, incr_category. simpl.
    destruct (dict_get category (kategorien (stats s3)));
      intros [= <- <-]; by eexists.
  - injection Hreal as <- <-. by eexists.
  - injection Hreal as <- <-. by destruct (Hnr e).
Qed.

(** A file that the real run handles without an error is counted by
    the preview in the same way. *)
Lemma step_agree root filename s :
  let sr := step false include_date handle_duplicates root filename s in
  let sp := step true include_date handle_duplicates root filename s in
  fehler (stats sr) = fehler (stats s) ->
  stats sr = stats sp /\ file_hashes sr = file_hashes sp /\
  ticks sr = ticks sp.
Proof.
  unfold process_file. destruct (already_organized root); [done|].
  destruct (body false _ _ _ _ s) as [o sr] eqn:Hreal.
  pose proof (try_body_counters _ _ _ _ _ _ _ _ _ _ _ Hreal) as Hcount.
  simpl in Hcount.
  destruct o as [[]| |e].
  - apply body_agree in Hreal as (sp & -> & H); done.
  - apply body_agree in Hreal as (sp & -> & H); done.
  - simpl. destruct Hcount as (_ & _ & _ & He). lia.
Qed.

End Agreement.

(** ** Collisions that no strategy branch handles *)

Lemma isdir_node_at d p : os_path_isdir d p = true -> node_at d p = Some Dir.
Proof.
  unfold os_path_isdir. by destruct (node_at d p) as [[f|]|].
Qed.

Lemma dirname_join p name : dirname (os_path_join p name) = p.
Proof. apply removelast_last. Qed.

Section Collision.
Variables (md5_hexdigest : string -> string) (clock : nat -> Z).
Variables (destination_dir : path) (include_date : bool).
Variable handle_duplicates : string.

Local Abbreviation plan := (plan_target_dir destination_dir).
Local Abbreviation resolve :=
  (resolve_collision md5_hexdigest clock handle_duplicates).
Local Abbreviation hash_of := (get_file_hash md5_hexdigest).

(** The folder exists already: the planner returns it and changes
    nothing. *)
Lemma plan_existing preview source_path category s f :
  node_at (disk_of s) source_path = Some (File f) ->
  os_path_isdir (disk_of s)
    (planned_target_dir destination_dir include_date category f) = true ->
  plan preview include_date source_path category s
  = (Normal (planned_target_dir destination_dir include_date category f), s).
Proof.
  unfold plan_target_dir, planned_target_dir. intros Hsrc Hdir.
  destruct include_date; [|done].
  unfold_monad. unfold getmtime_month. rewrite Hsrc.
  apply isdir_node_at in Hdir.
  destruct preview; simpl; [done|].
  unfold os_path_exists. by rewrite Hdir.
Qed.

(** Without a digest that the index already holds, the resolver keeps
    the planned path, whatever the strategy, and stores the digest (or
    [None]) for it. *)
Lemma resolve_no_branch source_path target_dir filename target_path s :
  known_duplicate (hash_of (disk_of s) source_path) (file_hashes s) = false ->
  resolve source_path target_dir filename target_path s
  = (Normal target_path,
     mk_state (disk_of s) (ticks s)
              (<[hash_of (disk_of s) source_path := target_path]>
                 (file_hashes s))
              (stats s)).
Proof.
  intros Hnew. unfold resolve_collision. unfold_monad. by rewrite Hnew.
Qed.

Lemma collision_without_branch root filename s f g :
  let source_path := os_path_join root filename in
  let category := category_of filename in
  let target_dir :=
    planned_target_dir destination_dir include_date category f in
  let target_path := os_path_join target_dir filename in
  already_organized root = false ->
  disk_of s !! source_path = Some (File f) ->
  movable f = true ->
  os_path_isdir (disk_of s) target_dir = true ->
  disk_of s !! target_path = Some (File g) ->
  known_duplicate (hash_of (disk_of s) source_path) (file_hashes s) = false ->
  process_file md5_hexdigest clock destination_dir false include_date
               handle_duplicates root filename s
  = mk_state (<[target_path := File f]> (delete source_path (disk_of s)))
             (ticks s)
             (<[hash_of (disk_of s) source_path := target_path]>
                (file_hashes s))
             (count_completed category (stats s)).
Proof.
  intros source_path category target_dir target_path
         Horg Hsrc Hmov Hdir Htgt Hnew.
  unfold process_file. rewrite Horg. unfold try_body.
  subst category. unfold category_of in *.
  destruct (os_path_splitext filename) as [name ext]. cbn [snd] in *.
  set (category := get_category_for_extension ext) in *.
  fold source_path.
  unfold bind at 1. unfold init_category, update_stats.
  unfold bind at 1.
  rewrite (plan_existing false source_path category _ f);
    [|by rewrite <- Hsrc; apply node_at_join|exact Hdir].
  fold target_dir. fold target_path.
  unfold bind at 1. unfold io_query.
  change (disk_of (set_stats (init_count category (stats s)) s))
    with (disk_of s).
  assert (Hex : os_path_exists (disk_of s) target_path = true).
  { unfold os_path_exists. subst target_path. by rewrite node_at_join, Htgt. }
  rewrite Hex. unfold bind at 1.
  rewrite resolve_no_branch by exact Hnew.
  assert (Hmove : shutil_move (disk_of s) source_path target_path
                  = inr (<[target_path := File f]>
                           (delete source_path (disk_of s)))).
  { unfold shutil_move, os_rename, os_path_isdir. subst target_path source_path.
    rewrite !node_at_join, Htgt, Hsrc, Hmov, dirname_join.
    by rewrite (isdir_node_at _ _ Hdir). }
  unfold bind at 1. unfold io_update.
  cbn [disk_of set_stats set_disk ticks file_hashes stats]. rewrite Hmove.
  unfold bind, update_stats, incr_category, count_completed.
  cbn [stats set_stats set_disk disk_of ticks file_hashes add_verschoben
       kategorien verschoben uebersprungen fehler].
  destruct (init_count_present category (stats s)) as [v Hv].
  rewrite Hv. reflexivity.
Qed.

End Collision.

Lemma count_completed_spec category t :
  let t' := count_completed category t in
  verschoben t' = S (verschoben t) /\
  total (kategorien t') = S (total (kategorien t)) /\
  uebersprungen t' = uebersprungen t /\ fehler t' = fehler t.
Proof.
  unfold count_completed. simpl.
  destruct (init_count_present category t) as [v Hv].
  pose proof (init_count_total category t) as Htot.
  pose proof (init_count_fields category t) as (Hm & Hs & He).
  pose proof (total_set_old _ (v + 1) _ _ Hv) as Hincr.
  rewrite Hv. simpl. repeat split; lia.
Qed.

Lemma fresh_hash_not_known (md5_hexdigest : string -> string) (d : disk)
    (source_path : path) (index : gmap (option string) path) :
  (forall h, get_file_hash md5_hexdigest d source_path = Some h ->
             index !! Some h = None) ->
  known_duplicate (get_file_hash md5_hexdigest d source_path) index = false.
Proof.
  intros Hfresh. unfold known_duplicate.
  destruct (get_file_hash md5_hexdigest d source_path) as [h|]; [|done].
  rewrite (Hfresh h eq_refl). apply andb_false_r.
Qed.

(** C8: when the planned target path exists and the digest of the
    source file is not yet in the duplicate index, none of the skip,
    rename and replace branches runs, whatever the strategy: the
    resolver answers with the planned path itself, reads no timestamp,
    skips nothing and records the digest for the planned path.  A run
    that is not a preview then moves the file onto the planned path,
    where it replaces the file that was there, and counts the file as
    moved.  (The second part is about a move that succeeds: a source
    file that can be renamed, onto a regular file in an existing
    folder.) *)
Theorem C8_first_collision_overwrites
    (md5_hexdigest : string -> string) (clock : nat -> Z)
    (handle_duplicates : string) :
  (forall (source_path target_dir : path) (filename : string)
          (target_path : path) (s : run_state),
      (forall h, get_file_hash md5_hexdigest (disk_of s) source_path = Some h ->
                 file_hashes s !! Some h = None) ->
      resolve_collision md5_hexdigest clock handle_duplicates source_path
        target_dir filename target_path s
      = (Normal target_path,
         mk_state (disk_of s) (ticks s)
           (<[get_file_hash md5_hexdigest (disk_of s) source_path
              := target_path]> (file_hashes s))
           (stats s)))
  /\ (forall (destination_dir : path) (include_date : bool)
             (root : path) (filename : string) (s : run_state) (f g : file),
         let source_path := os_path_join root filename in
         let category := category_of filename in
         let target_dir :=
           planned_target_dir destination_dir include_date category f in
         let target_path := os_path_join target_dir filename in
         already_organized root = false ->
         disk_of s !! source_path = Some (File f) ->
         movable f = true ->
         os_path_isdir (disk_of s) target_dir = true ->
         disk_of s !! target_path = Some (File g) ->
         (forall h,
             get_file_hash md5_hexdigest (disk_of s) source_path = Some h ->
             file_hashes s !! Some h = None) ->
         let s' := process_file md5_hexdigest clock destination_dir false
                     include_date handle_duplicates root filename s in
         disk_of s'
         = <[target_path := File f]> (delete source_path (disk_of s)) /\
         disk_of s' !! target_path = Some (File f) /\
         ticks s' = ticks s /\
         file_hashes s'
         = <[get_file_hash md5_hexdigest (disk_of s) source_path
             := target_path]> (file_hashes s) /\
         verschoben (stats s') = S (verschoben (stats s)) /\
         total (kategorien (stats s')) = S (total (kategorien (stats s))) /\
         uebersprungen (stats s') = uebersprungen (stats s) /\
         fehler (stats s') = fehler (stats s)).
Proof.
  split.
  - intros source_path target_dir filename target_path s Hfresh.
    apply resolve_no_branch. by apply fresh_hash_not_known.
  - intros destination_dir include_date root filename s f g
           source_path category target_dir target_path
           Horg Hsrc Hmov Hdir Htgt Hfresh s'.
    apply fresh_hash_not_known in Hfresh. subst s'.
    rewrite (collision_without_branch md5_hexdigest clock destination_dir
               include_date handle_duplicates root filename s f g
               Horg Hsrc Hmov Hdir Htgt Hfresh).
    cbn [disk_of ticks file_hashes stats].
    split; [done|]. split; [apply lookup_insert_eq|]. split; [done|].
    split; [done|]. apply count_completed_spec.
Qed.

(** C2, as the code has it: when the planned target path exists and the
    source file cannot be hashed, no strategy branch runs and nothing is
    renamed, whatever the strategy: the resolver answers with the
    planned path itself and records [None] for it.  A run that is not a
    preview then moves the file onto the planned path, where it replaces
    the file that was there, and counts it as moved (for a move that
    succeeds). *)
Theorem C2_hash_failure_moves_onto_target
    (md5_hexdigest : string -> string) (clock : nat -> Z)
    (handle_duplicates : string) :
  (forall (source_path target_dir : path) (filename : string)
          (target_path : path) (s : run_state),
      get_file_hash md5_hexdigest (disk_of s) source_path = None ->
      resolve_collision md5_hexdigest clock handle_duplicates source_path
        target_dir filename target_path s
      = (Normal target_path,
         mk_state (disk_of s) (ticks s)
           (<[None := target_path]> (file_hashes s)) (stats s)))
  /\ (forall (destination_dir : path) (include_date : bool)
             (root : path) (filename : string) (s : run_state) (f g : file),
         let source_path := os_path_join root filename in
         let category := category_of filename in
         let target_dir :=
           planned_target_dir destination_dir include_date category f in
         let target_path := os_path_join target_dir filename in
         already_organized root = false ->
         disk_of s !! source_path = Some (File f) ->
         movable f = true ->
         os_path_isdir (disk_of s) target_dir = true ->
         disk_of s !! target_path = Some (File g) ->
         get_file_hash md5_hexdigest (disk_of s) source_path = None ->
         let s' := process_file md5_hexdigest clock destination_dir false
                     include_date handle_duplicates root filename s in
         disk_of s'
         = <[target_path := File f]> (delete source_path (disk_of s)) /\
         disk_of s' !! target_path = Some (File f) /\
         ticks s' = ticks s /\
         file_hashes s' = <[None := target_path]> (file_hashes s) /\
         verschoben (stats s') = S (verschoben (stats s)) /\
         uebersprungen (stats s') = uebersprungen (stats s) /\
         fehler (stats s') = fehler (stats s)).
Proof.
  split.
  - intros source_path target_dir filename target_path s Hnone.
    rewrite resolve_no_branch by (by rewrite Hnone). by rewrite Hnone.
  - intros destination_dir include_date root filename s f g
           source_path category target_dir target_path
           Horg Hsrc Hmov Hdir Htgt Hnone s'.
    assert (Hnew : known_duplicate
                     (get_file_hash md5_hexdigest (disk_of s) source_path)
                     (file_hashes s) = false) by (by rewrite Hnone).
    subst s'.
    rewrite (collision_without_branch md5_hexdigest clock destination_dir
               include_date handle_duplicates root filename s f g
               Horg Hsrc Hmov Hdir Htgt Hnew).
    cbn [disk_of ticks file_hashes stats]. fold source_path. rewrite Hnone.
    split; [done|]. split; [apply lookup_insert_eq|]. split; [done|].
    split; [done|].
    destruct (count_completed_spec category (stats s)) as (H1 & _ & H3 & H4).
    done.
Qed.

Lemma C8_first_collision_overwrites_witness :
  let s := initial_state (disk_clash hello) in
  let s' := process_file sample_md5 sample_clock ["out"] false false "skip"
              ["src"; "a"] "x.txt" s in
  disk_of s' = <[ ["out"; "Dokumente"; "x.txt"] := File hello ]>
                 (delete ["src"; "a"; "x.txt"] (disk_of s)) /\
  disk_of s' !! ["out"; "Dokumente"; "x.txt"] = Some (File hello) /\
  ticks s' = ticks s /\
  file_hashes s'
  = <[ Some "md5:hello" := ["out"; "Dokumente"; "x.txt"] ]> (file_hashes s) /\
  verschoben (stats s') = S (verschoben (stats s)) /\
  total (kategorien (stats s')) = S (total (kategorien (stats s))) /\
  uebersprungen (stats s') = uebersprungen (stats s) /\
  fehler (stats s') = fehler (stats s).
Proof.
  apply (proj2 (C8_first_collision_overwrites sample_md5 sample_clock "skip")
           ["out"] false ["src"; "a"] "x.txt"
           (initial_state (disk_clash hello)) hello old_report).
  - reflexivity.
  - reflexivity.
  - reflexivity.
  - reflexivity.
  - reflexivity.
  - intros h _. reflexivity.
Defined.

Lemma C2_hash_failure_moves_onto_target_witness :
  let s := initial_state (disk_clash secret) in
  let s' := process_file sample_md5 sample_clock ["out"] false false "rename"
              ["src"; "a"] "x.txt" s in
  disk_of s' = <[ ["out"; "Dokumente"; "x.txt"] := File secret ]>
                 (delete ["src"; "a"; "x.txt"] (disk_of s)) /\
  disk_of s' !! ["out"; "Dokumente"; "x.txt"] = Some (File secret) /\
  ticks s' = ticks s /\
  file_hashes s' = <[ None := ["out"; "Dokumente"; "x.txt"] ]> (file_hashes s) /\
  verschoben (stats s') = S (verschoben (stats s)) /\
  uebersprungen (stats s') = uebersprungen (stats s) /\
  fehler (stats s') = fehler (stats s).
Proof.
  apply (proj2 (C2_hash_failure_moves_onto_target sample_md5 sample_clock
                  "rename")
           ["out"] false ["src"; "a"] "x.txt"
           (initial_state (disk_clash secret)) secret old_report);
    reflexivity.
Defined.

(** C2, as it is stated, fails: the source file cannot be hashed, the
    strategy is "rename", and the file that was at the planned path is
    replaced; no renamed file appears. *)
Lemma C2_counterexample :
  let d := disk_clash secret in
  let s' := process_file sample_md5 sample_clock ["out"] false false "rename"
              ["src"; "a"] "x.txt" (initial_state d) in
  get_file_hash sample_md5 d ["src"; "a"; "x.txt"] = None /\
  d !! ["out"; "Dokumente"; "x.txt"] = Some (File old_report) /\
  disk_of s' !! ["out"; "Dokumente"; "x.txt"] = Some (File secret) /\
  files_of (disk_of s') = [ (["out"; "Dokumente"; "x.txt"], secret) ].
Proof. vm_compute. done. Qed.

(** ** Failures *)

(** The resolver never raises: a file that cannot be hashed gives the
    absent digest [None]. *)
Lemma resolve_never_raises md5_hexdigest clock handle_duplicates
    (source_path target_dir : path) (filename : string) (target_path : path)
    (s : run_state) (e : exn) :
  (resolve_collision md5_hexdigest clock handle_duplicates source_path
     target_dir filename target_path s).1 <> Raise e.
Proof.
  unfold resolve_collision. unfold_monad.
  repeat (case_match; simplify_eq /=); done.
Qed.

(** C6, as the code has it: an exception raised while a file is
    processed (by the lookup of its modification time, the creation of
    its month folder or the move) is caught at the end of the loop body,
    adds one to the error counter and nothing to the other counters, and
    the loop goes on with the next file; a file whose processing raises
    nothing leaves the error counter alone.  A file that cannot be
    hashed raises nothing at this point: the hash is absent and the
    resolver never raises.  Every call comes to an end, and only the
    creation of the category folders before the walk, which is outside
    of the [try], can end it with an exception. *)
Theorem C6_exceptions_counted_run_continues
    (md5_hexdigest : string -> string) (clock : nat -> Z)
    (destination_dir : path) (preview include_date : bool)
    (handle_duplicates : string) :
  (forall root filename s e,
      already_organized root = false ->
      (try_body md5_hexdigest clock destination_dir preview include_date
         handle_duplicates root filename s).1 = Raise e ->
      let s' := process_file md5_hexdigest clock destination_dir preview
                  include_date handle_duplicates root filename s in
      fehler (stats s') = S (fehler (stats s)) /\
      verschoben (stats s') = verschoben (stats s) /\
      uebersprungen (stats s') = uebersprungen (stats s) /\
      total (kategorien (stats s')) = total (kategorien (stats s)))
  /\ (forall root filename s,
         (forall e,
             (try_body md5_hexdigest clock destination_dir preview include_date
                handle_duplicates root filename s).1 <> Raise e) ->
         fehler (stats (process_file md5_hexdigest clock destination_dir preview
                          include_date handle_duplicates root filename s))
         = fehler (stats s))
  /\ (forall source_path target_dir filename target_path s e,
         (resolve_collision md5_hexdigest clock handle_duplicates source_path
            target_dir filename target_path s).1 <> Raise e)
  /\ (forall root filename files s,
         process_files md5_hexdigest clock destination_dir preview include_date
           handle_duplicates root (filename :: files) s
         = process_files md5_hexdigest clock destination_dir preview
             include_date handle_duplicates root files
             (process_file md5_hexdigest clock destination_dir preview
                include_date handle_duplicates root filename s))
  /\ (forall source_dir destination d,
         exists depth0 r,
           (forall depth, depth0 <= depth ->
              organize_files_by_type md5_hexdigest clock depth source_dir
                destination preview include_date handle_duplicates d = Some r) /\
           (forall e s, r = Raised e s ->
              preview = false /\
              create_category_directories
                (destination_or_source source_dir destination)
                category_names (initial_state d) = (Raise e, s))).
Proof.
  split; [|split; [|split; [|split]]].
  - intros root filename s e Horg Hraise s'. subst s'.
    unfold process_file. rewrite Horg.
    destruct (try_body _ _ _ _ _ _ root filename s) as [o s1] eqn:Hbody.
    simpl in Hraise. subst o.
    apply try_body_counters in Hbody. simpl in *.
    destruct Hbody as (H1 & H2 & H3 & H4). repeat split; congruence.
  - intros root filename s Hok. unfold process_file.
    destruct (already_organized root); [done|].
    destruct (try_body _ _ _ _ _ _ root filename s) as [o s1] eqn:Hbody.
    pose proof (try_body_counters _ _ _ _ _ _ _ _ _ _ _ Hbody) as Hcount.
    simpl in *.
    destruct o as [[]| |e]; [| |by destruct (Hok e)];
      by destruct Hcount as (_ & _ & _ & ?).
  - intros. apply resolve_never_raises.
  - reflexivity.
  - intros source_dir destination d.
    destruct (organize_returns md5_hexdigest clock source_dir destination
                preview include_date handle_duplicates d)
      as (depth0 & r & Hrun & Hprev & Hraised).
    exists depth0, r. split; [exact Hrun|].
    intros e s ->. split; [|by apply Hraised].
    destruct preview; [|done]. by destruct Hprev as [s' [=]].
Qed.

Lemma C6_exceptions_counted_run_continues_witness :
  (let s := initial_state (disk_clash locked) in
   let s' := process_file sample_md5 sample_clock ["out"] false false "rename"
               ["src"; "a"] "x.txt" s in
   fehler (stats s') = S (fehler (stats s)) /\
   verschoben (stats s') = verschoben (stats s) /\
   uebersprungen (stats s') = uebersprungen (stats s) /\
   total (kategorien (stats s')) = total (kategorien (stats s)))
  /\ (let s := initial_state (disk_clash hello) in
      fehler (stats (process_file sample_md5 sample_clock ["out"] false false
                       "rename" ["src"; "a"] "x.txt" s))
      = fehler (stats s)).
Proof.
  split.
  - apply (proj1 (C6_exceptions_counted_run_continues sample_md5 sample_clock
                    ["out"] false false "rename")
             ["src"; "a"] "x.txt" (initial_state (disk_clash locked))
             PermissionError).
    + reflexivity.
    + vm_compute. reflexivity.
  - apply (proj1 (proj2 (C6_exceptions_counted_run_continues sample_md5
                           sample_clock ["out"] false false "rename"))
             ["src"; "a"] "x.txt" (initial_state (disk_clash hello))).
    intros e. vm_compute. discriminate.
Defined.

(** C6, as it is stated, fails for a hash failure: the file cannot be
    hashed, the attempt is made because the planned path exists, and
    the file is counted as moved, not as an error. *)
Lemma C6_counterexample :
  let d := disk_clash secret in
  let s' := process_file sample_md5 sample_clock ["out"] false false "rename"
              ["src"; "a"] "x.txt" (initial_state d) in
  os_path_exists d ["out"; "Dokumente"; "x.txt"] = true /\
  get_file_hash sample_md5 d ["src"; "a"; "x.txt"] = None /\
  fehler (stats s') = 0 /\
  verschoben (stats s') = 1.
Proof. vm_compute. done. Qed.

(** ** Preview and real run *)

(** C5, as the code has it: a preview changes nothing on the disk and
    always returns its statistics.  For one file, processed from the
    same disk and the same duplicate index, the preview and the real
    run count alike whenever the real run raises no error for it; over
    a whole run the statistics can differ, because the preview never
    changes the disk that the later collision checks and directory
    listings read. *)
Theorem C5_preview_keeps_disk
    (md5_hexdigest : string -> string) (clock : nat -> Z)
    (include_date : bool) (handle_duplicates : string) :
  (forall depth source_dir destination d s',
      organize_files_by_type md5_hexdigest clock depth source_dir destination
        true include_date handle_duplicates d = Some (Returned s') ->
      disk_of s' = d)
  /\ (forall source_dir destination d,
         exists depth0 s',
           forall depth, depth0 <= depth ->
             organize_files_by_type md5_hexdigest clock depth source_dir
               destination true include_date handle_duplicates d
             = Some (Returned s'))
  /\ (forall destination_dir root filename s,
         disk_of (process_file md5_hexdigest clock destination_dir true
                    include_date handle_duplicates root filename s)
         = disk_of s)
  /\ (forall destination_dir root filename s,
         let sr := process_file md5_hexdigest clock destination_dir false
                     include_date handle_duplicates root filename s in
         let sp := process_file md5_hexdigest clock destination_dir true
                     include_date handle_duplicates root filename s in
         fehler (stats sr) = fehler (stats s) ->
         stats sr = stats sp /\ file_hashes sr = file_hashes sp).
Proof.
  split; [|split; [|split]].
  - intros depth source_dir destination d s'.
    unfold organize_files_by_type. simpl negb. cbv iota.
    destruct (walk _ _ _ _ _ _ depth source_dir (initial_state d))
      as [s1|] eqn:Hwalk; [|done].
    intros [= <-]. by apply preview_walk_disk in Hwalk.
  - intros source_dir destination d.
    destruct (organize_returns md5_hexdigest clock source_dir destination
                true include_date handle_duplicates d)
      as (depth0 & r & Hrun & Hprev & _).
    destruct (Hprev eq_refl) as [s' ->]. by exists depth0, s'.
  - intros. apply preview_step_disk.
  - intros destination_dir root filename s sr sp Hok.
    destruct (step_agree md5_hexdigest clock destination_dir include_date
                handle_duplicates root filename s Hok) as (H1 & H2 & _).
    by split.
Qed.

Lemma C5_preview_keeps_disk_witness :
  (exists s',
      organize_files_by_type sample_md5 sample_clock 3 ["src"] (Some ["out"])
        true false "skip" disk_three_copies = Some (Returned s') /\
      disk_of s' = disk_three_copies)
  /\ (let s := initial_state (disk_clash hello) in
      let sr := process_file sample_md5 sample_clock ["out"] false false "skip"
                  ["src"; "a"] "x.txt" s in
      let sp := process_file sample_md5 sample_clock ["out"] true false "skip"
                  ["src"; "a"] "x.txt" s in
      stats sr = stats sp /\ file_hashes sr = file_hashes sp).
Proof.
  split.
  - assert (exists s',
               organize_files_by_type sample_md5 sample_clock 3 ["src"]
                 (Some ["out"]) true false "skip" disk_three_copies
               = Some (Returned s')) as [s' Hs'].
    { vm_compute. eexists. reflexivity. }
    exists s'. split; [exact Hs'|].
    exact (proj1 (C5_preview_keeps_disk sample_md5 sample_clock false "skip")
             3 ["src"] (Some ["out"]) disk_three_copies s' Hs').
  - apply (proj2 (proj2 (proj2 (C5_preview_keeps_disk sample_md5 sample_clock
                                  false "skip")))
             ["out"] ["src"; "a"] "x.txt" (initial_state (disk_clash hello))).
    vm_compute. reflexivity.
Defined.

(** C5, as it is stated, fails: for three copies of one file and the
    strategy "skip" the preview reports three moved files, the real run
    two moved files and one skipped file. *)
Lemma C5_counterexample :
  returned_stats
    (organize_files_by_type sample_md5 sample_clock 3 ["src"] (Some ["out"])
       true false "skip" disk_three_copies)
  = Some (mk_stats 3 0 0 [("Dokumente", 3)])
  /\ returned_stats
       (organize_files_by_type sample_md5 sample_clock 3 ["src"] (Some ["out"])
          false false "skip" disk_three_copies)
     = Some (mk_stats 2 1 0 [("Dokumente", 2)]).
Proof. vm_compute. done. Qed.

(** ** Two copies of one file *)

(** C1, on two copies of one file in different sub-folders and the
    strategy "rename": the call returns with both files counted as
    moved, and the output folder holds a single file, under the original
    name; no file with a timestamp in its name exists. *)
Theorem C1_rename_two_copies_one_file_left :
  let r := organize_files_by_type sample_md5 sample_clock 3 ["src"]
             (Some ["out"]) false false "rename" disk_two_copies in
  returned_stats r = Some (mk_stats 2 0 0 [("Dokumente", 2)]) /\
  returned_files r = Some [ (["out"; "Dokumente"; "x.txt"], hello) ].
Proof. vm_compute. done. Qed.

(** C3, on two copies of one file in different sub-folders and the
    strategy "skip": one copy is left in the category folder, and the
    call returns with both files counted as moved and none as
    skipped. *)
Theorem C3_skip_two_copies_none_skipped :
  let r := organize_files_by_type sample_md5 sample_clock 3 ["src"]
             (Some ["out"]) false false "skip" disk_two_copies in
  returned_stats r = Some (mk_stats 2 0 0 [("Dokumente", 2)]) /\
  returned_files r = Some [ (["out"; "Dokumente"; "x.txt"], hello) ].
Proof. vm_compute. done. Qed.

Lemma C10_moved_is_sum_of_categories_witness :
  (let s := initial_state (disk_clash hello) in
   counts_consistent
     (stats (process_file sample_md5 sample_clock ["out"] false false "skip"
               ["src"; "a"] "x.txt" s)))
  /\ (exists s',
         organize_files_by_type sample_md5 sample_clock 3 ["src"]
           (Some ["out"]) false false "skip" disk_three_copies
         = Some (Returned s') /\
         counts_consistent (stats s')).
Proof.
  split.
  - apply (proj1 (proj2 (C10_moved_is_sum_of_categories sample_md5
                           sample_clock ["out"] false false "skip"))).
    reflexivity.
  - assert (exists s',
               organize_files_by_type sample_md5 sample_clock 3 ["src"]
                 (Some ["out"]) false false "skip" disk_three_copies
               = Some (Returned s')) as [s' Hs'].
    { vm_compute. eexists. reflexivity. }
    exists s'. split; [exact Hs'|].
    exact (proj2 (proj2 (proj2 (C10_moved_is_sum_of_categories sample_md5
                                  sample_clock ["out"] false false "skip")))
             3 ["src"] (Some ["out"]) disk_three_copies s' Hs').
Defined.

(** ** Two files of one name *)

Lemma category_is_organized destination_dir include_date filename f :
  already_organized
    (planned_target_dir destination_dir include_date (category_of filename) f)
  = true.
Proof.
  apply (already_organized_intro (category_of filename)).
  - apply get_category_in_names.
  - apply contains_segment. unfold planned_target_dir, os_path_join.
    destruct include_date; set_solver.
Qed.

Lemma join_neq (p : path) name : os_path_join p name <> p.
Proof.
  intros Heq. apply (f_equal length) in Heq.
  unfold os_path_join in Heq. rewrite length_app in Heq. simpl in Heq. lia.
Qed.

(** Moving a file leaves the directories where they are. *)
Lemma isdir_after_move (d : disk) (src dst p : path) (f0 f : file) :
  d !! src = Some (File f0) ->
  dst <> p ->
  os_path_isdir d p = true ->
  os_path_isdir (<[dst := File f]> (delete src d)) p = true.
Proof.
  intros Hsrc Hdst Hdir. apply isdir_node_at in Hdir.
  unfold os_path_isdir, node_at in *. destruct p as [|a l]; [done|].
  rewrite lookup_insert_ne by done.
  rewrite lookup_delete_ne by congruence. by rewrite Hdir.
Qed.

Section TwoFiles.
Variables (md5_hexdigest : string -> string) (clock : nat -> Z).
Variables (destination_dir : path) (include_date : bool).
Variable handle_duplicates : string.

Local Abbreviation step :=
  (process_file md5_hexdigest clock destination_dir false include_date
                handle_duplicates).

(** The planned path is free: the file is moved there. *)
Lemma move_without_collision root filename s f :
  let source_path := os_path_join root filename in
  let category := category_of filename in
  let target_dir :=
    planned_target_dir destination_dir include_date category f in
  let target_path := os_path_join target_dir filename in
  already_organized root = false ->
  disk_of s !! source_path = Some (File f) ->
  movable f = true ->
  os_path_isdir (disk_of s) target_dir = true ->
  disk_of s !! target_path = None ->
  step root filename s
  = mk_state (<[target_path := File f]> (delete source_path (disk_of s)))
             (ticks s) (file_hashes s)
             (count_completed category (stats s)).
Proof.
  intros source_path category target_dir target_path
         Horg Hsrc Hmov Hdir Htgt.
  unfold process_file. rewrite Horg. unfold try_body.
  subst category. unfold category_of in *.
  destruct (os_path_splitext filename) as [name ext]. cbn [snd] in *.
  set (category := get_category_for_extension ext) in *.
  fold source_path.
  unfold bind at 1. unfold init_category, update_stats.
  unfold bind at 1.
  rewrite (plan_existing destination_dir include_date false source_path
             category _ f);
    [|by rewrite <- Hsrc; apply node_at_join|exact Hdir].
  fold target_dir. fold target_path.
  unfold bind at 1. unfold io_query.
  change (disk_of (set_stats (init_count category (stats s)) s))
    with (disk_of s).
  assert (Hex : os_path_exists (disk_of s) target_path = false).
  { unfold os_path_exists. subst target_path. by rewrite node_at_join, Htgt. }
  rewrite Hex. unfold bind at 1. unfold ret at 1.
  assert (Hmove : shutil_move (disk_of s) source_path target_path
                  = inr (<[target_path := File f]>
                           (delete source_path (disk_of s)))).
  { unfold shutil_move, os_rename, os_path_isdir. subst target_path source_path.
    rewrite !node_at_join, Htgt, Hsrc, Hmov, dirname_join.
    by rewrite (isdir_node_at _ _ Hdir). }
  unfold bind at 1. unfold io_update.
  cbn [disk_of set_stats set_disk ticks file_hashes stats]. rewrite Hmove.
  unfold bind, update_stats, incr_category, count_completed.
  cbn [stats set_stats set_disk disk_of ticks file_hashes add_verschoben
       kategorien verschoben uebersprungen fehler].
  destruct (init_count_present category (stats s)) as [v Hv].
  rewrite Hv. reflexivity.
Qed.

(** Two files of one name, in two folders, planned for one free path:
    whatever the strategy and whatever the files hold, the second file
    replaces the first at that path and both are counted as moved. *)
Lemma second_file_replaces_first root1 root2 filename s f1 f2 :
  let source1 := os_path_join root1 filename in
  let source2 := os_path_join root2 filename in
  let category := category_of filename in
  let target_dir :=
    planned_target_dir destination_dir include_date category f1 in
  let target_path := os_path_join target_dir filename in
  root1 <> root2 ->
  already_organized root1 = false ->
  already_organized root2 = false ->
  disk_of s !! source1 = Some (File f1) ->
  disk_of s !! source2 = Some (File f2) ->
  movable f1 = true -> movable f2 = true ->
  month f1 = month f2 ->
  os_path_isdir (disk_of s) target_dir = true ->
  disk_of s !! target_path = None ->
  (forall h, get_file_hash md5_hexdigest (disk_of s) source2 = Some h ->
             file_hashes s !! Some h = None) ->
  let s' := step root2 filename (step root1 filename s) in
  disk_of s' = <[target_path := File f2]>
                 (delete source2 (delete source1 (disk_of s))) /\
  verschoben (stats s') = S (S (verschoben (stats s))) /\
  uebersprungen (stats s') = uebersprungen (stats s) /\
  fehler (stats s') = fehler (stats s) /\
  ticks s' = ticks s.
Proof.
  intros source1 source2 category target_dir target_path
         Hroots Horg1 Horg2 Hsrc1 Hsrc2 Hmov1 Hmov2 Hmonth Hdir Htgt Hfresh s'.
  assert (Hne12 : source1 <> source2).
  { intros Heq. apply app_inj_tail in Heq as [? _]. done. }
  assert (Hne1t : source1 <> target_path).
  { intros Heq. apply app_inj_tail in Heq as [Heq _].
    pose proof (category_is_organized destination_dir include_date filename f1)
      as Horg. fold category target_dir in Horg. congruence. }
  assert (Hne2t : source2 <> target_path).
  { intros Heq. apply app_inj_tail in Heq as [Heq _].
    pose proof (category_is_organized destination_dir include_date filename f1)
      as Horg. fold category target_dir in Horg. congruence. }
  assert (Hdir2 : target_dir
                  = planned_target_dir destination_dir include_date category f2).
  { subst target_dir. unfold planned_target_dir. by rewrite Hmonth. }
  subst s'.
  rewrite (move_without_collision root1 filename s f1 Horg1 Hsrc1 Hmov1
             Hdir Htgt).
  fold source1 category target_dir target_path.
  set (d1 := <[target_path := File f1]> (delete source1 (disk_of s))).
  set (s1 := mk_state d1 _ _ _).
  assert (Hs1src : disk_of s1 !! source2 = Some (File f2)).
  { subst s1 d1. cbn [disk_of].
    rewrite lookup_insert_ne by done. by rewrite lookup_delete_ne. }
  assert (Hs1dir : os_path_isdir (disk_of s1)
             (planned_target_dir destination_dir include_date category f2)
           = true).
  { rewrite <- Hdir2. subst s1 d1. cbn [disk_of].
    eapply isdir_after_move; [exact Hsrc1|apply join_neq|exact Hdir]. }
  assert (Hs1tgt : disk_of s1
             !! os_path_join
                  (planned_target_dir destination_dir include_date category f2)
                  filename
           = Some (File f1)).
  { rewrite <- Hdir2. subst s1 d1. cbn [disk_of]. apply lookup_insert_eq. }
  assert (Hs1hash : get_file_hash md5_hexdigest (disk_of s1) source2
                    = get_file_hash md5_hexdigest (disk_of s) source2).
  { unfold get_file_hash. unfold source2 at 1 2. rewrite !node_at_join.
    fold source2. by rewrite Hs1src, Hsrc2. }
  assert (Hs1new : known_duplicate
                     (get_file_hash md5_hexdigest (disk_of s1) source2)
                     (file_hashes s1) = false).
  { rewrite Hs1hash. by apply fresh_hash_not_known. }
  rewrite (collision_without_branch md5_hexdigest clock destination_dir
             include_date handle_duplicates root2 filename s1 f2 f1
             Horg2 Hs1src Hmov2 Hs1dir Hs1tgt Hs1new).
  fold category. rewrite <- Hdir2. fold source2 target_path. subst s1 d1.
  cbn [disk_of ticks file_hashes stats].
  split.
  - rewrite delete_insert_ne by done. apply insert_insert_eq.
  - destruct (count_completed_spec category (stats s)) as (H1 & _ & H3 & H4).
    destruct (count_completed_spec (category_of filename)
                (count_completed category (stats s))) as (H1' & _ & H3' & H4').
    fold category in H1', H3', H4'. simpl in *.
    repeat split; congruence.
Qed.

End TwoFiles.

(** ** The strategy branches *)

Section Strategies.
Variables (md5_hexdigest : string -> string) (clock : nat -> Z).
Variables (source_path target_dir : path) (filename : string).
Variables (target_path : path) (s : run_state).

Hypothesis known :
  known_duplicate (get_file_hash md5_hexdigest (disk_of s) source_path)
                  (file_hashes s) = true.

(** "skip": the file is counted as skipped and the loop goes on. *)
Lemma resolve_known_skip :
  resolve_collision md5_hexdigest clock "skip" source_path target_dir
    filename target_path s
  = (Continue, set_stats (add_uebersprungen (stats s)) s).
Proof.
  unfold resolve_collision. unfold_monad. by rewrite known.
Qed.

(** "rename": the new name is the stem, an underscore, the seconds of
    the clock and the extension; the digest is recorded for it. *)
Lemma resolve_known_rename :
  let new_filename :=
    (os_path_splitext filename).1 +:+ "_" +:+ Str.of_int (clock (ticks s))
    +:+ (os_path_splitext filename).2 in
  resolve_collision md5_hexdigest clock "rename" source_path target_dir
    filename target_path s
  = (Normal (os_path_join target_dir new_filename),
     mk_state (disk_of s) (S (ticks s))
       (<[get_file_hash md5_hexdigest (disk_of s) source_path
          := os_path_join target_dir new_filename]> (file_hashes s))
       (stats s)).
Proof.
  unfold resolve_collision. unfold_monad. rewrite known. simpl.
  by destruct (os_path_splitext filename).
Qed.

(** Any other strategy, "replace" among them: the planned path stays. *)
Lemma resolve_known_other handle_duplicates :
  handle_duplicates <> "skip" -> handle_duplicates <> "rename" ->
  resolve_collision md5_hexdigest clock handle_duplicates source_path
    target_dir filename target_path s
  = (Normal target_path,
     mk_state (disk_of s) (ticks s)
       (<[get_file_hash md5_hexdigest (disk_of s) source_path
          := target_path]> (file_hashes s))
       (stats s)).
Proof.
  intros Hskip Hrename. unfold resolve_collision. unfold_monad.
  rewrite known.
  apply String.eqb_neq in Hskip, Hrename. by rewrite Hskip, Hrename.
Qed.

End Strategies.

(** ** How one file is processed *)

Section Inversion.
Variables (md5_hexdigest : string -> string) (clock : nat -> Z).
Variables (destination_dir : path) (preview include_date : bool).
Variable handle_duplicates : string.

Local Abbreviation plan :=
  (plan_target_dir destination_dir preview include_date).
Local Abbreviation resolve :=
  (resolve_collision md5_hexdigest clock handle_duplicates).
Local Abbreviation body :=
  (try_body md5_hexdigest clock destination_dir preview include_date
            handle_duplicates).

(** The stages of [try_body]: the planner, the resolver when the planned
    path exists, the move, the counters. *)
Lemma try_body_inv root filename s o s' :
  body root filename s = (o, s') ->
  let source_path := os_path_join root filename in
  let category := category_of filename in
  let s1 := set_stats (init_count category (stats s)) s in
  match plan source_path category s1 with
  | (Raise e, s2) => o = Raise e /\ s' = s2
  | (Continue, _) => False
  | (Normal target_dir, s2) =>
      let target_path := os_path_join target_dir filename in
      match (if os_path_exists (disk_of s2) target_path
             then resolve source_path target_dir filename target_path
             else ret target_path) s2 with
      | (Raise _, _) => False
      | (Continue, s3) => o = Continue /\ s' = s3
      | (Normal resolved, s3) =>
          stats s3 = init_count category (stats s) /\
          if preview
          then o = Normal tt /\
               s' = set_stats (count_completed category (stats s)) s3
          else match shutil_move (disk_of s3) source_path resolved with
               | inl e => o = Raise e /\ s' = s3
               | inr d =>
                   o = Normal tt /\
                   s' = set_stats (count_completed category (stats s))
                          (set_disk d s3)
               end
      end
  end.
Proof.
  unfold try_body, category_of.
  destruct (os_path_splitext filename) as [name ext]. cbn [snd].
  set (category := get_category_for_extension ext).
  unfold bind at 1. unfold init_category, update_stats.
  set (source_path := os_path_join root filename).
  set (s1 := set_stats (init_count category (stats s)) s).
  intros Hbody.
  unfold bind at 1 in Hbody.
  pose proof (plan_frame destination_dir preview include_date source_path
                category s1) as (Hst2 & _ & _ & Hnc).
  destruct (plan source_path category s1) as [[target_dir| |e] s2];
    simpl in Hst2, Hnc; [| done | by injection Hbody as <- <-].
  unfold bind at 1 in Hbody. unfold io_query in Hbody.
  unfold bind at 1 in Hbody.
  assert (Hres : forall or s3,
             (if os_path_exists (disk_of s2) (os_path_join target_dir filename)
              then resolve source_path target_dir filename
                           (os_path_join target_dir filename)
              else ret (os_path_join target_dir filename)) s2 = (or, s3) ->
             (forall e, or <> Raise e) /\
             (forall tp, or = Normal tp -> stats s3 = stats s2)).
  { intros or s3. destruct (os_path_exists _ _).
    - intros Hr.
      pose proof (resolve_never_raises md5_hexdigest clock handle_duplicates
                    source_path target_dir filename
                    (os_path_join target_dir filename) s2) as Hnr.
      pose proof (resolve_frame md5_hexdigest clock handle_duplicates
                    source_path target_dir filename
                    (os_path_join target_dir filename) s2) as [_ Hfr].
      rewrite Hr in Hnr, Hfr. simpl in Hnr, Hfr.
      split; [exact Hnr|]. by intros tp ->.
    - intros [= <- <-]. split; [done|]. by intros. }
  remember ((if os_path_exists (disk_of s2) (os_path_join target_dir filename)
             then resolve source_path target_dir filename
                          (os_path_join target_dir filename)
             else ret (os_path_join target_dir filename)) s2) as run eqn:Hrun.
  destruct run as [or s3]. symmetry in Hrun.
  destruct (Hres or s3 eq_refl) as [Hnr Hst3]. clear Hres.
  destruct or as [resolved| |e]; [|by injection Hbody as <- <-|by destruct (Hnr e)].
  specialize (Hst3 resolved eq_refl). rewrite Hst2 in Hst3.
  change (stats s1) with (init_count category (stats s)) in Hst3.
  split; [exact Hst3|].
  destruct (init_count_present category (stats s)) as [v Hv].
  unfold bind at 1 in Hbody. destruct preview.
  - revert Hbody. unfold ret, bind, update_stats, incr_category, count_completed.
    simpl. rewrite Hst3, Hv. simpl. by intros [= <- <-].
  - unfold io_update in Hbody.
    destruct (shutil_move (disk_of s3) source_path resolved) as [e|d];
      [by injection Hbody as <- <-|].
    revert Hbody. unfold bind, update_stats, incr_category, count_completed.
    simpl. rewrite Hst3, Hv. simpl. by intros [= <- <-].
Qed.

End Inversion.

(** ** Directory creation *)

(** [os.makedirs] adds directories at prefixes of its argument, and its
    argument is a directory afterwards. *)
Lemma makedirs_rev_prefix (rp : list string) (d d' : disk) :
  makedirs_rev rp d = inr d' ->
  d' !! rev rp = Some Dir /\
  forall k, d' !! k = d !! k \/
            (d !! k = None /\ d' !! k = Some Dir /\ k `prefix_of` rev rp).
Proof.
  revert d d'. induction rp as [|tail rhead IH]; intros d d'.
  - simpl. unfold os_mkdir. simpl. done.
  - cbn [makedirs_rev].
    set (made := match rev rhead with [] => _ | _ => _ end).
    assert (Hmade : forall d1, made = inr d1 ->
              forall k, d1 !! k = d !! k \/
                (d !! k = None /\ d1 !! k = Some Dir /\ k `prefix_of` rev rhead)).
    { subst made. intros d1. destruct (rev rhead) as [|a l] eqn:Hrev.
      - intros [= <-] k. by left.
      - destruct (os_path_exists d (a :: l)).
        + intros [= <-] k. by left.
        + destruct (makedirs_rev rhead d) as [e|d2] eqn:Hrec.
          * destruct e; try done. intros [= <-] k. by left.
          * intros [= <-]. by apply (IH _ _ Hrec). }
    destruct made as [e|d1]; [done|].
    specialize (Hmade d1 eq_refl).
    intros Hmk. apply os_mkdir_inr in Hmk as (-> & Hne & Hnone).
    split; [apply lookup_insert_eq|]. intros k.
    destruct (decide (k = rev (tail :: rhead))) as [->|Hk].
    + rewrite lookup_insert_eq.
      destruct (Hmade (rev (tail :: rhead))) as [Heq|(Hd & Hd1 & _)].
      * right. by rewrite <- Heq, Hnone.
      * congruence.
    + rewrite lookup_insert_ne by done.
      destruct (Hmade k) as [Heq|(Hd & Hd1 & Hpre)]; [by left|].
      right. repeat split; [done|done|].
      simpl. by apply prefix_app_r.
Qed.

Lemma create_directory_present (directory : path) (s : run_state) :
  let r := create_directory_if_not_exists directory s in
  r.1 = Normal tt ->
  os_path_exists (disk_of r.2) directory = true /\
  (os_path_exists (disk_of s) directory = false ->
   os_path_isdir (disk_of r.2) directory = true) /\
  create_directory_if_not_exists directory r.2 = (Normal tt, r.2).
Proof.
  unfold create_directory_if_not_exists. unfold_monad.
  destruct (os_path_exists (disk_of s) directory) eqn:Hex; simpl.
  - intros _. rewrite Hex. done.
  - destruct (os_makedirs (disk_of s) directory) as [e|d'] eqn:Hmk; [done|].
    simpl. intros _.
    apply makedirs_rev_prefix in Hmk as [Hleaf _]. rewrite rev_involutive in Hleaf.
    apply exists_false_lookup in Hex as [Hne _].
    assert (Hn : node_at d' directory = Some Dir).
    { unfold node_at. by destruct directory. }
    unfold os_path_exists, os_path_isdir. rewrite Hn. done.
Qed.

(** X1: [create_directory_if_not_exists] ends with the path present
    whenever it returns (as a directory when it was absent), and
    calling it again changes nothing and raises nothing. *)
Theorem X1_create_directory_idempotent (directory : path) (s : run_state) :
  let r := create_directory_if_not_exists directory s in
  r.1 = Normal tt ->
  os_path_exists (disk_of r.2) directory = true /\
  (os_path_exists (disk_of s) directory = false ->
   os_path_isdir (disk_of r.2) directory = true) /\
  create_directory_if_not_exists directory r.2 = (Normal tt, r.2).
Proof. apply create_directory_present. Qed.

Lemma X1_create_directory_idempotent_witness :
  let s := initial_state disk_two_copies in
  let r := create_directory_if_not_exists ["out"; "Dokumente"; "2024-01"] s in
  os_path_exists (disk_of r.2) ["out"; "Dokumente"; "2024-01"] = true /\
  (os_path_exists (disk_of s) ["out"; "Dokumente"; "2024-01"] = false ->
   os_path_isdir (disk_of r.2) ["out"; "Dokumente"; "2024-01"] = true) /\
  create_directory_if_not_exists ["out"; "Dokumente"; "2024-01"] r.2
  = (Normal tt, r.2).
Proof.
  apply (X1_create_directory_idempotent ["out"; "Dokumente"; "2024-01"]
           (initial_state disk_two_copies)).
  vm_compute. reflexivity.
Defined.

Lemma create_directory_keeps (directory : path) (s : run_state) :
  let r := create_directory_if_not_exists directory s in
  (forall k n, disk_of s !! k = Some n -> disk_of r.2 !! k = Some n) /\
  (forall k, disk_of s !! k = None ->
             disk_of r.2 !! k = None \/
             (disk_of r.2 !! k = Some Dir /\ k `prefix_of` directory)) /\
  stats r.2 = stats s /\ file_hashes r.2 = file_hashes s /\
  (os_path_exists (disk_of s) directory = true -> r = (Normal tt, s)).
Proof.
  unfold create_directory_if_not_exists. unfold_monad.
  destruct (os_path_exists (disk_of s) directory) eqn:Hex; simpl.
  - repeat split; auto.
  - destruct (os_makedirs (disk_of s) directory) as [e|d'] eqn:Hmk; simpl.
    + repeat split; auto. done.
    + apply makedirs_rev_prefix in Hmk as [_ Hk]. rewrite rev_involutive in Hk.
      repeat split; try done.
      * intros k n Hn. destruct (Hk k) as [->|(? & _)]; congruence.
      * intros k Hn. destruct (Hk k) as [->|(_ & ? & ?)]; auto.
Qed.

(** X2: [create_directory_if_not_exists] keeps every entry of the disk
    as it is; what it adds are directories at the path itself and at
    its missing ancestors; it touches neither the counters nor the
    duplicate index; a path that is present, be it a regular file, is
    left alone without an error. *)
Theorem X2_create_directory_only_adds (directory : path) (s : run_state) :
  let r := create_directory_if_not_exists directory s in
  (forall k n, disk_of s !! k = Some n -> disk_of r.2 !! k = Some n) /\
  (forall k, disk_of s !! k = None ->
             disk_of r.2 !! k = None \/
             (disk_of r.2 !! k = Some Dir /\ k `prefix_of` directory)) /\
  stats r.2 = stats s /\ file_hashes r.2 = file_hashes s /\
  (os_path_exists (disk_of s) directory = true -> r = (Normal tt, s)).
Proof. apply create_directory_keeps. Qed.

Lemma create_category_directories_present (destination_dir : path)
    (names : list string) (s s' : run_state) :
  create_category_directories destination_dir names s = (Normal tt, s') ->
  forall category, category ∈ names ->
    os_path_exists (disk_of s') (os_path_join destination_dir category) = true.
Proof.
  revert s. induction names as [|name names IH]; intros s Hrun category Hin.
  - inversion Hin.
  - simpl in Hrun. unfold bind in Hrun.
    pose proof (create_directory_present
                  (os_path_join destination_dir name) s) as Hone.
    destruct (create_directory_if_not_exists _ s) as [[[]| |e] s1] eqn:Hdir;
      try done.
    simpl in Hone. destruct (Hone eq_refl) as (Hex & _ & _).
    apply elem_of_cons in Hin as [->|Hin]; [|by eapply IH].
    clear IH Hone Hdir. revert s1 Hrun Hex.
    induction names as [|name' names IH]; intros s1 Hrun Hex.
    + simpl in Hrun. by injection Hrun as <-.
    + simpl in Hrun. unfold bind in Hrun.
      pose proof (create_directory_keeps
                    (os_path_join destination_dir name') s1) as (Hkeep & _).
      destruct (create_directory_if_not_exists _ s1) as [[[]| |e] s2];
        try done.
      apply (IH s2 Hrun). simpl in Hkeep.
      unfold os_path_exists in *. rewrite node_at_join in *.
      destruct (disk_of s1 !! os_path_join destination_dir name) as [n|] eqn:E;
        [|done].
      by rewrite (Hkeep _ _ E).
Qed.

(** X3: when the loop over the category names before the walk returns,
    every category folder of the destination is present. *)
Theorem X3_category_folders_present (destination_dir : path)
    (names : list string) (s s' : run_state) :
  create_category_directories destination_dir names s = (Normal tt, s') ->
  forall category, category ∈ names ->
    os_path_exists (disk_of s') (os_path_join destination_dir category) = true.
Proof.
  apply create_category_directories_present.
Qed.

Lemma X3_category_folders_present_witness :
  os_path_exists
    (disk_of (create_category_directories ["out"] category_names
                (initial_state disk_two_copies)).2)
    (os_path_join ["out"] "Videos") = true.
Proof.
  apply (X3_category_folders_present ["out"] category_names
           (initial_state disk_two_copies)).
  - vm_compute. reflexivity.
  - apply list_elem_of_In. vm_compute. tauto.
Defined.

(** ** The category table *)

(** X4: every extension of the table is classified into the category
    that lists it, in whatever case it is written; so no extension is
    listed under two categories. *)
Theorem X4_listed_extension_has_its_category
    (category : string) (extensions : list string) (ext : string) :
  (category, extensions) ∈ FILE_CATEGORIES ->
  Str.lower ext ∈ extensions ->
  get_category_for_extension ext = category.
Proof.
  intros Hcat Hext. unfold get_category_for_extension.
  assert (Hall : forallb
            (fun item : string * list string =>
               forallb (fun e => String.eqb (category_loop e FILE_CATEGORIES)
                                            item.1) item.2)
            FILE_CATEGORIES = true) by (vm_compute; reflexivity).
  rewrite forallb_forall in Hall.
  specialize (Hall _ (proj1 (list_elem_of_In _ _) Hcat)). simpl in Hall.
  rewrite forallb_forall in Hall.
  specialize (Hall _ (proj1 (list_elem_of_In _ _) Hext)).
  by apply String.eqb_eq in Hall.
Qed.

Lemma X4_listed_extension_has_its_category_witness :
  get_category_for_extension ".JPeG" = "Bilder".
Proof.
  apply (X4_listed_extension_has_its_category "Bilder"
           [".jpg"; ".jpeg"; ".png"; ".gif"; ".bmp"; ".svg"; ".tiff";
            ".ico"; ".webp"; ".heic"; ".raw"; ".psd"; ".ai"] ".JPeG").
  - apply list_elem_of_In. simpl. tauto.
  - apply list_elem_of_In. simpl. tauto.
Defined.

(** ** File names without an extension *)

Lemma contains_char_cons c d rest :
  Str.contains (String c "") (String d rest) = false ->
  Ascii.eqb c d = false /\ Str.contains (String c "") rest = false.
Proof.
  change (Str.contains (String c "") (String d rest))
    with (String.prefix (String c "") (String d rest)
          || Str.contains (String c "") rest).
  intros H. apply orb_false_elim in H as [Hp Hc]. split; [|exact Hc].
  simpl in Hp. destruct (ascii_dec c d) as [->|Hne].
  - by destruct rest.
  - by apply Ascii.eqb_neq.
Qed.

Lemma rfind_from_absent c s i found :
  Str.contains (String c "") s = false -> Str.rfind_from c s i found = found.
Proof.
  revert i found. induction s as [|d rest IH]; intros i found H; [done|].
  apply contains_char_cons in H as [Hne Hrest]. simpl. rewrite Hne.
  by apply IH.
Qed.

Lemma rfind_from_lower c s i found :
  (-1 <= found)%Z -> (0 <= i)%Z -> (-1 <= Str.rfind_from c s i found)%Z.
Proof.
  revert i found. induction s as [|d rest IH]; intros i found Hf Hi; [done|].
  simpl. apply IH; [|lia]. destruct (Ascii.eqb c d); lia.
Qed.

(** X5: a file name without a dot has no extension and goes to
    "Andere"; so does a name whose only dot is its first character. *)
Theorem X5_no_extension_goes_to_andere :
  (forall filename,
      Str.contains "." filename = false ->
      os_path_splitext filename = (filename, "") /\
      category_of filename = "Andere")
  /\ (forall rest,
         Str.contains "." rest = false ->
         Str.contains "/" rest = false ->
         os_path_splitext (String "." rest) = (String "." rest, "") /\
         category_of (String "." rest) = "Andere").
Proof.
  split.
  - intros filename Hdot.
    assert (Hs : os_path_splitext filename = (filename, "")).
    { unfold os_path_splitext, Str.rfind.
      rewrite (rfind_from_absent "." filename) by exact Hdot.
      pose proof (rfind_from_lower "/" filename 0 (-1) ltac:(lia) ltac:(lia)).
      destruct (Z.ltb_spec (Str.rfind_from "/" filename 0 (-1)) (-1)); [lia|].
      done. }
    split; [exact Hs|]. unfold category_of. by rewrite Hs.
  - intros rest Hdot Hsep.
    assert (Hs : os_path_splitext (String "." rest) = (String "." rest, "")).
    { unfold os_path_splitext, Str.rfind. cbn [Str.rfind_from].
      change (Ascii.eqb "." ".") with true. change (Ascii.eqb "/" ".") with false.
      cbv iota.
      rewrite (rfind_from_absent "." rest) by exact Hdot.
      rewrite (rfind_from_absent "/" rest) by exact Hsep.
      reflexivity. }
    split; [exact Hs|]. unfold category_of. by rewrite Hs.
Qed.

Lemma X5_no_extension_goes_to_andere_witness :
  (os_path_splitext "Makefile" = ("Makefile", "") /\
   category_of "Makefile" = "Andere")
  /\ (os_path_splitext ".gitignore" = (".gitignore", "") /\
      category_of ".gitignore" = "Andere").
Proof.
  split.
  - apply (proj1 X5_no_extension_goes_to_andere "Makefile"). reflexivity.
  - apply (proj2 X5_no_extension_goes_to_andere "gitignore"); reflexivity.
Defined.

(** ** Every file is counted once *)

(** The three ways a file can be counted. *)
Lemma process_file_one_counter
    (md5_hexdigest : string -> string) (clock : nat -> Z)
    (destination_dir : path) (preview include_date : bool)
    (handle_duplicates : string) (root : path) (filename : string)
    (s : run_state) :
  let t := stats s in
  let t' := stats (process_file md5_hexdigest clock destination_dir preview
                     include_date handle_duplicates root filename s) in
  (verschoben t' = S (verschoben t) /\ uebersprungen t' = uebersprungen t /\
   fehler t' = fehler t)
  \/ (verschoben t' = verschoben t /\ uebersprungen t' = S (uebersprungen t) /\
      fehler t' = fehler t)
  \/ (verschoben t' = verschoben t /\ uebersprungen t' = uebersprungen t /\
      fehler t' = S (fehler t)).
Proof.
  cbv zeta. unfold process_file. destruct (already_organized root).
  - right. left. done.
  - destruct (try_body _ _ _ _ _ _ root filename s) as [o s1] eqn:Hbody.
    apply try_body_counters in Hbody. cbv zeta in Hbody.
    destruct o as [[]| |e]; destruct Hbody as (H1 & _ & H3 & H4);
      [left|right; left|right; right]; simpl; repeat split; congruence.
Qed.

(** X6: each file that the loop meets adds one to exactly one of the
    three counters, so the files of a directory add their number to the
    sum of the counters; along a walk no counter ever decreases. *)
Theorem X6_each_file_counted_once
    (md5_hexdigest : string -> string) (clock : nat -> Z)
    (destination_dir : path) (preview include_date : bool)
    (handle_duplicates : string) :
  (forall root filename s,
      let t := stats s in
      let t' := stats (process_file md5_hexdigest clock destination_dir preview
                         include_date handle_duplicates root filename s) in
      (verschoben t' = S (verschoben t) /\
       uebersprungen t' = uebersprungen t /\ fehler t' = fehler t)
      \/ (verschoben t' = verschoben t /\
          uebersprungen t' = S (uebersprungen t) /\ fehler t' = fehler t)
      \/ (verschoben t' = verschoben t /\
          uebersprungen t' = uebersprungen t /\ fehler t' = S (fehler t)))
  /\ (forall root files s,
      let t := stats s in
      let t' := stats (process_files md5_hexdigest clock destination_dir
                         preview include_date handle_duplicates root files s) in
      verschoben t' + uebersprungen t' + fehler t'
      = verschoben t + uebersprungen t + fehler t + length files)
  /\ (forall depth top s s',
         walk md5_hexdigest clock destination_dir preview include_date
              handle_duplicates depth top s = Some s' ->
         verschoben (stats s) <= verschoben (stats s') /\
         uebersprungen (stats s) <= uebersprungen (stats s') /\
         fehler (stats s) <= fehler (stats s')).
Proof.
  split; [apply process_file_one_counter|]. split.
  - intros root files. unfold process_files.
    induction files as [|f files IH]; intros s; cbv zeta; [simpl; lia|].
    specialize (IH (process_file md5_hexdigest clock destination_dir preview
                      include_date handle_duplicates root f s)).
    cbv zeta in IH. cbn [fold_left length].
    pose proof (process_file_one_counter md5_hexdigest clock destination_dir
                  preview include_date handle_duplicates root f s) as Hc.
    cbv zeta in Hc. lia.
  - intros depth top s s'.
    apply (walk_invariant md5_hexdigest clock destination_dir preview
             include_date handle_duplicates
             (fun s1 => verschoben (stats s) <= verschoben (stats s1) /\
                        uebersprungen (stats s) <= uebersprungen (stats s1) /\
                        fehler (stats s) <= fehler (stats s1)));
      [|lia].
    intros root filename s1 (H1 & H2 & H3).
    pose proof (process_file_one_counter md5_hexdigest clock destination_dir
                  preview include_date handle_duplicates root filename s1)
      as Hc.
    cbv zeta in Hc. lia.
Qed.

Lemma X6_each_file_counted_once_witness :
  exists s',
    walk sample_md5 sample_clock ["out"] false false "skip" 3 ["src"]
         (initial_state disk_three_copies) = Some s' /\
    0 <= verschoben (stats s') /\ 0 <= uebersprungen (stats s') /\
    0 <= fehler (stats s').
Proof.
  assert (exists s',
             walk sample_md5 sample_clock ["out"] false false "skip" 3 ["src"]
                  (initial_state disk_three_copies) = Some s') as [s' Hs'].
  { vm_compute. eexists. reflexivity. }
  exists s'. split; [exact Hs'|].
  exact (proj2 (proj2 (X6_each_file_counted_once sample_md5 sample_clock
                         ["out"] false false "skip")) 3 ["src"] _ s' Hs').
Defined.

(** ** What a run does to the disk *)

Lemma shutil_move_shape (d : disk) (src dst : path) (d' : disk) :
  shutil_move d src dst = inr d' ->
  exists f real_dst,
    src <> [] /\ d !! src = Some (File f) /\
    (real_dst = dst \/ real_dst = os_path_join dst (basename src)) /\
    os_path_isdir d real_dst = false /\
    d' = <[real_dst := File f]> (delete src d).
Proof.
  assert (Hsrc : forall f, node_at d src = Some (File f) ->
                           src <> [] /\ d !! src = Some (File f)).
  { intros f. unfold node_at. by destruct src. }
  unfold shutil_move. destruct (os_path_isdir d dst) eqn:Hdir.
  - destruct (os_path_exists d (os_path_join dst (basename src))) eqn:Hex;
      [done|].
    intros H. apply os_rename_inr in H as (f & Hf & _ & Hnd & _ & ->).
    destruct (Hsrc f Hf). exists f, (os_path_join dst (basename src)).
    repeat split; auto.
  - intros H. apply os_rename_inr in H as (f & Hf & _ & Hnd & _ & ->).
    destruct (Hsrc f Hf). exists f, dst. repeat split; auto.
Qed.

Section Shapes.
Variables (md5_hexdigest : string -> string) (clock : nat -> Z).
Variables (destination_dir : path) (preview include_date : bool).
Variable handle_duplicates : string.

(** The planner returns the category folder or a month folder in it,
    and at most makes that folder. *)
Lemma plan_shape source_path category s target_dir s2 :
  plan_target_dir destination_dir preview include_date source_path category s
  = (Normal target_dir, s2) ->
  os_path_join destination_dir category `prefix_of` target_dir /\
  (s2 = s \/
   exists d, preview = false /\ os_makedirs (disk_of s) target_dir = inr d /\
             s2 = set_disk d s).
Proof.
  unfold plan_target_dir. destruct include_date.
  - unfold_monad.
    destruct (getmtime_month (disk_of s) source_path) as [e|date_str]; [done|].
    destruct preview; simpl.
    + intros [= <- <-]. split; [by apply prefix_app_r|by left].
    + destruct (os_path_exists (disk_of s) _); simpl.
      * intros [= <- <-]. split; [by apply prefix_app_r|by left].
      * destruct (os_makedirs (disk_of s) _) as [e|d] eqn:Hmk; [done|].
        intros [= <- <-]. split; [by apply prefix_app_r|].
        right. by exists d.
  - intros [= <- <-]. split; [done|by left].
Qed.

(** The resolver answers with a path inside the target folder, and
    leaves the disk alone. *)
Lemma resolve_shape source_path target_dir filename s resolved s3 :
  (if os_path_exists (disk_of s) (os_path_join target_dir filename)
   then resolve_collision md5_hexdigest clock handle_duplicates source_path
          target_dir filename (os_path_join target_dir filename)
   else ret (os_path_join target_dir filename)) s = (Normal resolved, s3) ->
  (exists name, resolved = os_path_join target_dir name) /\
  disk_of s3 = disk_of s.
Proof.
  destruct (os_path_exists _ _).
  - unfold resolve_collision. unfold_monad.
    repeat (case_match; simplify_eq /=); intros; simplify_eq; eauto.
  - intros [= <- <-]. eauto.
Qed.

End Shapes.

Section RunInvariant.
Variables (md5_hexdigest : string -> string) (clock : nat -> Z).
Variables (destination_dir : path) (preview include_date : bool).
Variable handle_duplicates : string.

Local Abbreviation step :=
  (process_file md5_hexdigest clock destination_dir preview
                include_date handle_duplicates).
Local Abbreviation run_walk :=
  (walk md5_hexdigest clock destination_dir preview include_date
        handle_duplicates).

(** A property of the disk that is kept by the creation of a folder in
    a category folder of the destination, and by the move of a file of
    a directory that is not excluded to a path in such a folder. *)
Variable P : disk -> Prop.
Variable visited : path -> Prop.
Hypothesis makedirs_keeps :
  forall d category p d',
    category ∈ category_names ->
    os_path_join destination_dir category `prefix_of` p ->
    P d -> os_makedirs d p = inr d' -> P d'.
Hypothesis move_keeps :
  forall d root filename category dst d',
    visited root -> already_organized root = false ->
    category ∈ category_names ->
    os_path_join destination_dir category `prefix_of` dst ->
    P d -> shutil_move d (os_path_join root filename) dst = inr d' -> P d'.

Lemma process_file_keeps root filename s :
  visited root -> P (disk_of s) -> P (disk_of (step root filename s)).
Proof.
  intros Hvis HP. unfold process_file.
  destruct (already_organized root) eqn:Horg; [done|].
  destruct (try_body _ _ _ _ _ _ root filename s) as [o s'] eqn:Hbody.
  assert (HP' : P (disk_of s')); [|by destruct o].
  apply try_body_inv in Hbody. cbv zeta in Hbody.
  set (category := category_of filename) in *.
  assert (Hcat : category ∈ category_names) by apply get_category_in_names.
  set (s1 := set_stats (init_count category (stats s)) s) in *.
  destruct (plan_target_dir destination_dir preview include_date
              (os_path_join root filename) category s1)
    as [[target_dir| |e] s2] eqn:Hplan; [| done |].
  - apply plan_shape in Hplan as [Hpre Hs2].
    assert (HP2 : P (disk_of s2)).
    { destruct Hs2 as [->|(d & _ & Hmk & ->)]; [done|].
      by eapply (makedirs_keeps (disk_of s1) category target_dir d). }
    remember ((if os_path_exists (disk_of s2) (os_path_join target_dir filename)
               then resolve_collision md5_hexdigest clock handle_duplicates
                      (os_path_join root filename) target_dir filename
                      (os_path_join target_dir filename)
               else ret (os_path_join target_dir filename)) s2)
      as run eqn:Hres.
    destruct run as [[resolved| |e] s3]; symmetry in Hres; [| |done].
    + apply resolve_shape in Hres as [[name ->] Hd3].
      destruct Hbody as [_ Hbody]. rewrite <- Hd3 in HP2.
      destruct preview.
      * by destruct Hbody as [_ ->].
      * destruct (shutil_move (disk_of s3) _ _) as [e|d] eqn:Hmv.
        -- by destruct Hbody as [_ ->].
        -- destruct Hbody as [_ ->]. cbn [disk_of set_stats set_disk].
           apply (move_keeps (disk_of s3) root filename category
                    (os_path_join target_dir name) d Hvis Horg Hcat);
             [|exact HP2|exact Hmv].
           etrans; [exact Hpre|]. by apply prefix_app_r.
    + destruct Hbody as [_ ->].
      destruct (os_path_exists (disk_of s2) _).
      * pose proof (resolve_frame md5_hexdigest clock handle_duplicates
                      (os_path_join root filename) target_dir filename
                      (os_path_join target_dir filename) s2) as [Hd _].
        rewrite Hres in Hd. simpl in Hd. by rewrite Hd.
      * by injection Hres as _ <-.
  - destruct Hbody as [_ ->]. revert Hplan. unfold plan_target_dir. unfold_monad.
    repeat (case_match; simplify_eq /=); intros; simplify_eq; done.
Qed.

(** The walk below [top0]. *)
Hypothesis visited_below : forall top name,
  visited top -> visited (os_path_join top name).

Lemma walk_keeps depth top s s' :
  visited top -> P (disk_of s) -> run_walk depth top s = Some s' ->
  P (disk_of s').
Proof.
  revert top s s'. induction depth as [|depth IH]; intros top s s' Hvis HP.
  - simpl. destruct (scandir (disk_of s) top) as [[dirs files]|]; [done|].
    by intros [= <-].
  - rewrite walk_S.
    destruct (scandir (disk_of s) top) as [[dirs files]|];
      [|by intros [= <-]].
    assert (Hfiles : P (disk_of (process_files md5_hexdigest clock
              destination_dir preview include_date handle_duplicates
              top files s))).
    { unfold process_files. clear -HP Hvis makedirs_keeps move_keeps.
      revert s HP. induction files as [|f files IHf]; intros s HP; [done|].
      simpl. apply IHf. by apply process_file_keeps. }
    revert Hfiles. generalize (process_files md5_hexdigest clock
      destination_dir preview include_date handle_duplicates top files s).
    induction dirs as [|dir dirs IHdirs]; intros s1 Hs1; simpl.
    + by intros [= <-].
    + destruct (run_walk depth (os_path_join top dir) s1) as [s2|] eqn:Hw.
      * apply IHdirs. eapply IH; [|exact Hs1|exact Hw]. by apply visited_below.
      * intros Hnone. exfalso. revert Hnone. clear.
        induction dirs as [|dir' dirs IHd]; simpl; [done|exact IHd].
Qed.

Lemma create_category_directories_keeps names s :
  (forall name, name ∈ names -> name ∈ category_names) ->
  P (disk_of s) ->
  P (disk_of (create_category_directories destination_dir names s).2).
Proof.
  revert s. induction names as [|name names IH]; intros s Hsub HP; [done|].
  simpl. unfold bind.
  assert (Hone : P (disk_of (create_directory_if_not_exists
                               (os_path_join destination_dir name) s).2)).
  { unfold create_directory_if_not_exists. unfold_monad.
    destruct (os_path_exists (disk_of s) _); simpl; [done|].
    destruct (os_makedirs (disk_of s) _) as [e|d] eqn:Hmk; simpl; [done|].
    eapply (makedirs_keeps (disk_of s) name); eauto. apply Hsub. by left. }
  destruct (create_directory_if_not_exists _ s) as [[[]| |e] s1];
    simpl in Hone; [|done|done].
  apply IH; [|done]. intros n Hn. apply Hsub. by right.
Qed.

End RunInvariant.

(** A property of the disk that the folder creations and the moves of
    a run keep holds when the run returns. *)
Lemma organize_keeps (md5_hexdigest : string -> string) (clock : nat -> Z)
    (depth : nat) (source_dir : path) (destination : option path)
    (preview include_date : bool) (handle_duplicates : string)
    (P : disk -> Prop) (d : disk) (s' : run_state) :
  let destination_dir := destination_or_source source_dir destination in
  (forall d category p d',
      category ∈ category_names ->
      os_path_join destination_dir category `prefix_of` p ->
      P d -> os_makedirs d p = inr d' -> P d') ->
  (forall d root filename category dst d',
      source_dir `prefix_of` root -> already_organized root = false ->
      category ∈ category_names ->
      os_path_join destination_dir category `prefix_of` dst ->
      P d -> shutil_move d (os_path_join root filename) dst = inr d' -> P d') ->
  P d ->
  organize_files_by_type md5_hexdigest clock depth source_dir destination
    preview include_date handle_duplicates d = Some (Returned s') ->
  P (disk_of s').
Proof.
  intros destination_dir Hmk Hmv HP. unfold organize_files_by_type.
  fold destination_dir.
  set (prepared := if negb preview then _ else _).
  assert (Hprep : P (disk_of prepared.2)).
  { subst prepared. destruct preview; [done|].
    change (P (disk_of (create_category_directories destination_dir
                          category_names (initial_state d)).2)).
    by apply (create_category_directories_keeps destination_dir P Hmk). }
  destruct prepared as [o s0]. simpl in Hprep.
  assert (Hwalk : forall s1,
             walk md5_hexdigest clock destination_dir preview include_date
                  handle_duplicates depth source_dir s0 = Some s1 ->
             P (disk_of s1)).
  { intros s1.
    apply (walk_keeps md5_hexdigest clock destination_dir preview
             include_date handle_duplicates P
             (fun root => source_dir `prefix_of` root) Hmk Hmv); [|done|done].
    intros top name Htop. by apply prefix_app_r. }
  destruct o as [[]| |e]; [| |done];
    destruct (walk _ _ _ _ _ _ depth source_dir s0) as [s1|]; try done;
    intros [= <-]; by apply Hwalk.
Qed.

Lemma prefix_of_join_cases (p : path) (name : string) (q k : path) :
  os_path_join p name `prefix_of` q -> k `prefix_of` q ->
  k `prefix_of` p \/ os_path_join p name `prefix_of` k.
Proof.
  intros Hq Hk. destruct (prefix_weak_total _ _ _ Hk Hq) as [[t Ht]|H]; [|by right].
  unfold os_path_join in *.
  destruct t as [|y t _] using rev_ind.
  - right. rewrite app_nil_r in Ht. by rewrite Ht.
  - left. rewrite app_assoc in Ht. apply app_inj_tail in Ht as [-> _].
    by apply prefix_app_r.
Qed.

(** X7: a run invents no file and alters none: every regular file of
    the disk it leaves was on the disk before it, with the same bytes,
    month and permissions, at that or at another path. *)
Theorem X7_files_are_only_moved
    (md5_hexdigest : string -> string) (clock : nat -> Z)
    (depth : nat) (source_dir : path) (destination : option path)
    (preview include_date : bool) (handle_duplicates : string)
    (d : disk) (s' : run_state) :
  organize_files_by_type md5_hexdigest clock depth source_dir destination
    preview include_date handle_duplicates d = Some (Returned s') ->
  forall k f, disk_of s' !! k = Some (File f) ->
              exists k0, d !! k0 = Some (File f).
Proof.
  apply (organize_keeps md5_hexdigest clock depth source_dir destination
           preview include_date handle_duplicates
           (fun d1 => forall k f, d1 !! k = Some (File f) ->
                                  exists k0, d !! k0 = Some (File f))).
  - intros d1 category p d2 _ _ HP Hmk k f Hk.
    destruct (os_makedirs_spec _ _ _ Hmk k) as [Heq|(_ & Hdir & _)];
      [|congruence].
    apply (HP k). congruence.
  - intros d1 root filename category dst d2 _ _ _ _ HP Hmv k f Hk.
    apply shutil_move_shape in Hmv as (f1 & real_dst & _ & Hsrc & _ & _ & ->).
    destruct (decide (real_dst = k)) as [->|Hne].
    + rewrite lookup_insert_eq in Hk. injection Hk as <-. by apply (HP _ _ Hsrc).
    + rewrite lookup_insert_ne in Hk by done.
      destruct (decide (os_path_join root filename = k)) as [<-|Hne'].
      * by rewrite lookup_delete_eq in Hk.
      * rewrite lookup_delete_ne in Hk by done. by apply (HP k).
  - eauto.
Qed.

(** X8: a run removes no directory and puts no file in the place of
    one. *)
Theorem X8_directories_stay
    (md5_hexdigest : string -> string) (clock : nat -> Z)
    (depth : nat) (source_dir : path) (destination : option path)
    (preview include_date : bool) (handle_duplicates : string)
    (d : disk) (s' : run_state) :
  organize_files_by_type md5_hexdigest clock depth source_dir destination
    preview include_date handle_duplicates d = Some (Returned s') ->
  forall k, d !! k = Some Dir -> disk_of s' !! k = Some Dir.
Proof.
  apply (organize_keeps md5_hexdigest clock depth source_dir destination
           preview include_date handle_duplicates
           (fun d1 => forall k, d !! k = Some Dir -> d1 !! k = Some Dir)).
  - intros d1 category p d2 _ _ HP Hmk k Hk.
    destruct (os_makedirs_spec _ _ _ Hmk k) as [Heq|(_ & Hdir & _)]; [|done].
    rewrite Heq. by apply HP.
  - intros d1 root filename category dst d2 _ _ _ _ HP Hmv k Hk.
    apply shutil_move_shape in Hmv as (f1 & real_dst & _ & Hsrc & _ & Hnd & ->).
    specialize (HP k Hk).
    rewrite lookup_insert_ne, lookup_delete_ne; [done| |].
    + intros <-. congruence.
    + intros <-. unfold os_path_isdir, node_at in Hnd.
      destruct real_dst; [done|]. by rewrite HP in Hnd.
  - done.
Qed.

(** X9: a run changes the disk in three ways only.  Every path either
    holds after the run what it held before, or lies in a category
    folder of the destination, or is a directory on the way to the
    destination, or held a file of a directory below the source that is
    not excluded and holds nothing now. *)
Theorem X9_changes_are_confined
    (md5_hexdigest : string -> string) (clock : nat -> Z)
    (depth : nat) (source_dir : path) (destination : option path)
    (preview include_date : bool) (handle_duplicates : string)
    (d : disk) (s' : run_state) :
  organize_files_by_type md5_hexdigest clock depth source_dir destination
    preview include_date handle_duplicates d = Some (Returned s') ->
  let destination_dir := destination_or_source source_dir destination in
  forall k,
    disk_of s' !! k = d !! k
    \/ (exists category, category ∈ category_names /\
          os_path_join destination_dir category `prefix_of` k)
    \/ (k `prefix_of` destination_dir /\ disk_of s' !! k = Some Dir)
    \/ (exists root name f,
          k = os_path_join root name /\ source_dir `prefix_of` root /\
          already_organized root = false /\
          d !! k = Some (File f) /\ disk_of s' !! k = None).
Proof.
  intros Hrun destination_dir. revert Hrun.
  apply (organize_keeps md5_hexdigest clock depth source_dir destination
           preview include_date handle_duplicates
           (fun d1 => forall k,
              d1 !! k = d !! k
              \/ (exists category, category ∈ category_names /\
                    os_path_join destination_dir category `prefix_of` k)
              \/ (k `prefix_of` destination_dir /\ d1 !! k = Some Dir)
              \/ (exists root name f,
                    k = os_path_join root name /\ source_dir `prefix_of` root /\
                    already_organized root = false /\
                    d !! k = Some (File f) /\ d1 !! k = None))).
  - intros d1 category p d2 Hcat Hpre HP Hmk k.
    apply makedirs_rev_prefix in Hmk as [_ Hmk]. rewrite rev_involutive in Hmk.
    destruct (Hmk k) as [Heq|(Hnone & Hdir & Hk)].
    + rewrite Heq. apply HP.
    + destruct (prefix_of_join_cases _ _ _ _ Hpre Hk) as [Hd|Hc].
      * right. right. left. done.
      * right. left. eauto.
  - intros d1 root filename category dst d2 Hvis Horg Hcat Hpre HP Hmv k.
    apply shutil_move_shape in Hmv as (f1 & real_dst & _ & Hsrc & Hreal & _ & ->).
    destruct (decide (real_dst = k)) as [<-|Hne].
    + right. left. exists category. split; [done|].
      destruct Hreal as [->| ->]; [done|]. by apply prefix_app_r.
    + rewrite lookup_insert_ne by done.
      destruct (decide (os_path_join root filename = k)) as [<-|Hne'].
      * rewrite lookup_delete_eq.
        destruct (HP (os_path_join root filename))
          as [Heq|[Hin|[[_ Hdir]|(r & n & f & _ & _ & _ & _ & Hgone)]]].
        -- right. right. right. exists root, filename, f1.
           repeat split; auto. congruence.
        -- right. left. done.
        -- congruence.
        -- congruence.
      * rewrite lookup_delete_ne by done. apply HP.
  - intros k. by left.
Qed.

(** X10: a run removes no file of an excluded directory, and no file
    outside of the source tree: such a path holds a regular file after
    the run (the same one, unless another file was moved onto it). *)
Theorem X10_excluded_and_outside_files_stay
    (md5_hexdigest : string -> string) (clock : nat -> Z)
    (depth : nat) (source_dir : path) (destination : option path)
    (preview include_date : bool) (handle_duplicates : string)
    (d : disk) (s' : run_state) :
  organize_files_by_type md5_hexdigest clock depth source_dir destination
    preview include_date handle_duplicates d = Some (Returned s') ->
  forall root name f0,
    d !! os_path_join root name = Some (File f0) ->
    already_organized root = true \/ ~ source_dir `prefix_of` root ->
    exists f, disk_of s' !! os_path_join root name = Some (File f).
Proof.
  apply (organize_keeps md5_hexdigest clock depth source_dir destination
           preview include_date handle_duplicates
           (fun d1 => forall root name f0,
              d !! os_path_join root name = Some (File f0) ->
              already_organized root = true \/ ~ source_dir `prefix_of` root ->
              exists f, d1 !! os_path_join root name = Some (File f))).
  - intros d1 category p d2 _ _ HP Hmk root name f0 Hk Hroot.
    destruct (HP root name f0 Hk Hroot) as [f Hf].
    destruct (os_makedirs_spec _ _ _ Hmk (os_path_join root name))
      as [Heq|(Hnone & _)]; [|congruence].
    exists f. congruence.
  - intros d1 root' filename category dst d2 Hvis Horg _ _ HP Hmv
           root name f0 Hk Hroot.
    destruct (HP root name f0 Hk Hroot) as [f Hf].
    apply shutil_move_shape in Hmv as (f1 & real_dst & _ & Hsrc & _ & _ & ->).
    destruct (decide (real_dst = os_path_join root name)) as [->|Hne].
    + exists f1. apply lookup_insert_eq.
    + exists f. rewrite lookup_insert_ne, lookup_delete_ne; [done| |done].
      intros Heq. apply app_inj_tail in Heq as [-> _].
      destruct Hroot as [Hroot|Hroot]; [congruence|done].
  - eauto.
Qed.

Lemma X7_files_are_only_moved_witness :
  exists s',
    organize_files_by_type sample_md5 sample_clock 3 ["src"] (Some ["out"])
      false false "rename" disk_three_copies = Some (Returned s') /\
    forall k f, disk_of s' !! k = Some (File f) ->
                exists k0, disk_three_copies !! k0 = Some (File f).
Proof.
  assert (exists s',
             organize_files_by_type sample_md5 sample_clock 3 ["src"]
               (Some ["out"]) false false "rename" disk_three_copies
             = Some (Returned s')) as [s' Hs'].
  { vm_compute. eexists. reflexivity. }
  exists s'. split; [exact Hs'|].
  exact (X7_files_are_only_moved sample_md5 sample_clock 3 ["src"]
           (Some ["out"]) false false "rename" disk_three_copies s' Hs').
Defined.

Lemma X8_directories_stay_witness :
  exists s',
    organize_files_by_type sample_md5 sample_clock 3 ["src"] (Some ["out"])
      false false "rename" disk_three_copies = Some (Returned s') /\
    disk_of s' !! ["src"; "a"] = Some Dir.
Proof.
  assert (exists s',
             organize_files_by_type sample_md5 sample_clock 3 ["src"]
               (Some ["out"]) false false "rename" disk_three_copies
             = Some (Returned s')) as [s' Hs'].
  { vm_compute. eexists. reflexivity. }
  exists s'. split; [exact Hs'|].
  apply (X8_directories_stay sample_md5 sample_clock 3 ["src"]
           (Some ["out"]) false false "rename" disk_three_copies s' Hs').
  reflexivity.
Defined.

Lemma X9_changes_are_confined_witness :
  exists s',
    organize_files_by_type sample_md5 sample_clock 3 ["src"] (Some ["out"])
      false false "rename" disk_three_copies = Some (Returned s') /\
    forall k,
      disk_of s' !! k = disk_three_copies !! k
      \/ (exists category, category ∈ category_names /\
            os_path_join ["out"] category `prefix_of` k)
      \/ (k `prefix_of` ["out"] /\ disk_of s' !! k = Some Dir)
      \/ (exists root name f,
            k = os_path_join root name /\ ["src"] `prefix_of` root /\
            already_organized root = false /\
            disk_three_copies !! k = Some (File f) /\ disk_of s' !! k = None).
Proof.
  assert (exists s',
             organize_files_by_type sample_md5 sample_clock 3 ["src"]
               (Some ["out"]) false false "rename" disk_three_copies
             = Some (Returned s')) as [s' Hs'].
  { vm_compute. eexists. reflexivity. }
  exists s'. split; [exact Hs'|].
  exact (X9_changes_are_confined sample_md5 sample_clock 3 ["src"]
           (Some ["out"]) false false "rename" disk_three_copies s' Hs').
Defined.

Lemma X10_excluded_and_outside_files_stay_witness :
  exists s',
    organize_files_by_type sample_md5 sample_clock 3 ["src"] (Some ["out"])
      false false "rename" (disk_clash hello) = Some (Returned s') /\
    exists f, disk_of s' !! os_path_join ["out"; "Dokumente"] "x.txt"
              = Some (File f).
Proof.
  assert (exists s',
             organize_files_by_type sample_md5 sample_clock 3 ["src"]
               (Some ["out"]) false false "rename" (disk_clash hello)
             = Some (Returned s')) as [s' Hs'].
  { vm_compute. eexists. reflexivity. }
  exists s'. split; [exact Hs'|].
  apply (X10_excluded_and_outside_files_stay sample_md5 sample_clock 3 ["src"]
           (Some ["out"]) false false "rename" (disk_clash hello) s' Hs'
           ["out"; "Dokumente"] "x.txt" old_report).
  - reflexivity.
  - left. reflexivity.
Defined.

(** ** The strategies, file by file *)

Lemma known_duplicate_intro (md5_hexdigest : string -> string) (d : disk) (source_path : path)
    (index : gmap (option string) path) (h : string) (p : path) :
  get_file_hash md5_hexdigest d source_path = Some h ->
  h <> "" ->
  index !! Some h = Some p ->
  known_duplicate (get_file_hash md5_hexdigest d source_path) index = true.
Proof.
  intros -> Hne Hin. unfold known_duplicate. rewrite Hin.
  apply String.eqb_neq in Hne. by rewrite Hne.
Qed.

Section StrategySteps.
Variables (md5_hexdigest : string -> string) (clock : nat -> Z).
Variables (destination_dir : path) (include_date : bool).
Variables (root : path) (filename : string) (s : run_state) (f : file).
Variables (h : string) (recorded : path).

Local Abbreviation source_path := (os_path_join root filename).
Local Abbreviation category := (category_of filename).
Local Abbreviation target_dir :=
  (planned_target_dir destination_dir include_date category f).
Local Abbreviation target_path := (os_path_join target_dir filename).

Hypothesis not_excluded : already_organized root = false.
Hypothesis source_file : disk_of s !! source_path = Some (File f).
Hypothesis folder : os_path_isdir (disk_of s) target_dir = true.
Hypothesis collision : os_path_exists (disk_of s) target_path = true.
Hypothesis hashed :
  get_file_hash md5_hexdigest (disk_of s) source_path = Some h.
Hypothesis hash_not_empty : h <> "".
Hypothesis hash_recorded : file_hashes s !! Some h = Some recorded.

(** A file whose digest the index holds, under "skip": nothing moves. *)
Lemma known_duplicate_skipped preview :
  process_file md5_hexdigest clock destination_dir preview include_date
               "skip" root filename s
  = set_stats (add_uebersprungen (init_count category (stats s))) s.
Proof.
  unfold process_file. rewrite not_excluded.
  destruct (try_body _ _ _ _ _ _ root filename s) as [o s'] eqn:Hbody.
  apply try_body_inv in Hbody. cbv zeta in Hbody.
  rewrite (plan_existing destination_dir include_date preview source_path
             category _ f) in Hbody;
    [|by rewrite <- source_file; apply node_at_join|exact folder].
  cbn [disk_of set_stats] in Hbody. rewrite collision in Hbody.
  rewrite resolve_known_skip in Hbody
    by (cbn [disk_of file_hashes set_stats];
        eapply known_duplicate_intro; eauto).
  by destruct Hbody as [-> ->].
Qed.

(** The same file under "rename", when the new name is free: the file
    goes to the new name and the file at the planned path stays. *)
Lemma known_duplicate_renamed :
  let new_filename :=
    (os_path_splitext filename).1 +:+ "_" +:+ Str.of_int (clock (ticks s))
    +:+ (os_path_splitext filename).2 in
  let new_path := os_path_join target_dir new_filename in
  movable f = true ->
  disk_of s !! new_path = None ->
  process_file md5_hexdigest clock destination_dir false include_date
               "rename" root filename s
  = mk_state (<[new_path := File f]> (delete source_path (disk_of s)))
             (S (ticks s))
             (<[Some h := new_path]> (file_hashes s))
             (count_completed category (stats s)).
Proof.
  intros new_filename new_path Hmov Hfree.
  unfold process_file. rewrite not_excluded.
  destruct (try_body _ _ _ _ _ _ root filename s) as [o s'] eqn:Hbody.
  apply try_body_inv in Hbody. cbv zeta in Hbody.
  rewrite (plan_existing destination_dir include_date false source_path
             category _ f) in Hbody;
    [|by rewrite <- source_file; apply node_at_join|exact folder].
  cbn [disk_of set_stats] in Hbody. rewrite collision in Hbody.
  rewrite resolve_known_rename in Hbody
    by (cbn [disk_of file_hashes set_stats];
        eapply known_duplicate_intro; eauto).
  cbv zeta in Hbody.
  cbn [disk_of set_stats ticks file_hashes stats] in Hbody.
  fold new_filename in Hbody. fold new_path in Hbody.
  rewrite hashed in Hbody.
  assert (Hmove : shutil_move (disk_of s) source_path new_path
                  = inr (<[new_path := File f]>
                           (delete source_path (disk_of s)))).
  { unfold shutil_move, os_rename, os_path_isdir. subst new_path.
    rewrite !node_at_join, Hfree, source_file, Hmov, dirname_join.
    by rewrite (isdir_node_at _ _ folder). }
  rewrite Hmove in Hbody. by destruct Hbody as (_ & -> & ->).
Qed.

End StrategySteps.

(** X11: a file whose planned path exists and whose digest the index
    already holds is, under the strategy "skip", left where it is: the
    disk and the index stay as they are, the clock is not read, and the
    file is counted as skipped, in a preview as in a real run. *)
Theorem X11_known_duplicate_is_skipped
    (md5_hexdigest : string -> string) (clock : nat -> Z)
    (destination_dir : path) (preview include_date : bool)
    (root : path) (filename : string) (s : run_state) (f : file)
    (h : string) (recorded : path) :
  let source_path := os_path_join root filename in
  let target_dir :=
    planned_target_dir destination_dir include_date (category_of filename) f in
  let target_path := os_path_join target_dir filename in
  already_organized root = false ->
  disk_of s !! source_path = Some (File f) ->
  os_path_isdir (disk_of s) target_dir = true ->
  os_path_exists (disk_of s) target_path = true ->
  get_file_hash md5_hexdigest (disk_of s) source_path = Some h ->
  h <> "" ->
  file_hashes s !! Some h = Some recorded ->
  let s' := process_file md5_hexdigest clock destination_dir preview
              include_date "skip" root filename s in
  disk_of s' = disk_of s /\ file_hashes s' = file_hashes s /\
  ticks s' = ticks s /\
  uebersprungen (stats s') = S (uebersprungen (stats s)) /\
  verschoben (stats s') = verschoben (stats s) /\
  fehler (stats s') = fehler (stats s) /\
  total (kategorien (stats s')) = total (kategorien (stats s)).
Proof.
  intros source_path target_dir target_path H1 H2 H3 H4 H5 H6 H7 s'. subst s'.
  rewrite (known_duplicate_skipped md5_hexdigest clock destination_dir
             include_date root filename s f h recorded H1 H2 H3 H4 H5 H6 H7).
  pose proof (init_count_fields (category_of filename) (stats s))
    as (Hm & Hs & He).
  pose proof (init_count_total (category_of filename) (stats s)) as Ht.
  simpl. repeat split; congruence.
Qed.

Lemma X11_known_duplicate_is_skipped_witness :
  let s := state_known_hello in
  let s' := process_file sample_md5 sample_clock ["out"] false false "skip"
              ["src"; "a"] "x.txt" s in
  disk_of s' = disk_of s /\ file_hashes s' = file_hashes s /\
  ticks s' = ticks s /\
  uebersprungen (stats s') = S (uebersprungen (stats s)) /\
  verschoben (stats s') = verschoben (stats s) /\
  fehler (stats s') = fehler (stats s) /\
  total (kategorien (stats s')) = total (kategorien (stats s)).
Proof.
  apply (X11_known_duplicate_is_skipped sample_md5 sample_clock ["out"] false
           false ["src"; "a"] "x.txt" state_known_hello hello "md5:hello"
           ["out"; "Dokumente"; "x.txt"]); try reflexivity.
  discriminate.
Defined.

(** X12: the same file under the strategy "rename", in a real run and
    with the new name free: the file goes to the name made of the stem,
    an underscore, the seconds of the clock and the extension, in the
    folder planned for it; its old path holds nothing, the file at the
    planned path stays as it is, the index now points the digest to the
    new path, the clock was read once, and the file is counted as
    moved. *)
Theorem X12_known_duplicate_is_renamed
    (md5_hexdigest : string -> string) (clock : nat -> Z)
    (destination_dir : path) (include_date : bool)
    (root : path) (filename : string) (s : run_state) (f : file)
    (h : string) (recorded : path) :
  let source_path := os_path_join root filename in
  let target_dir :=
    planned_target_dir destination_dir include_date (category_of filename) f in
  let target_path := os_path_join target_dir filename in
  let new_filename :=
    (os_path_splitext filename).1 +:+ "_" +:+ Str.of_int (clock (ticks s))
    +:+ (os_path_splitext filename).2 in
  let new_path := os_path_join target_dir new_filename in
  already_organized root = false ->
  disk_of s !! source_path = Some (File f) ->
  os_path_isdir (disk_of s) target_dir = true ->
  os_path_exists (disk_of s) target_path = true ->
  get_file_hash md5_hexdigest (disk_of s) source_path = Some h ->
  h <> "" ->
  file_hashes s !! Some h = Some recorded ->
  movable f = true ->
  disk_of s !! new_path = None ->
  let s' := process_file md5_hexdigest clock destination_dir false
              include_date "rename" root filename s in
  disk_of s' !! new_path = Some (File f) /\
  disk_of s' !! source_path = None /\
  disk_of s' !! target_path = disk_of s !! target_path /\
  file_hashes s' = <[Some h := new_path]> (file_hashes s) /\
  ticks s' = S (ticks s) /\
  verschoben (stats s') = S (verschoben (stats s)) /\
  uebersprungen (stats s') = uebersprungen (stats s) /\
  fehler (stats s') = fehler (stats s).
Proof.
  intros source_path target_dir target_path new_filename new_path
         H1 H2 H3 H4 H5 H6 H7 Hmov Hfree s'. subst s'.
  rewrite (known_duplicate_renamed md5_hexdigest clock destination_dir
             include_date root filename s f h recorded H1 H2 H3 H4 H5 H6 H7
             Hmov Hfree).
  fold source_path target_dir new_filename new_path.
  cbn [disk_of ticks file_hashes stats].
  pose proof (category_is_organized destination_dir include_date filename f)
    as Horg. fold target_dir in Horg.
  assert (Hsn : source_path <> new_path).
  { intros Heq. apply app_inj_tail in Heq as [Heq _]. congruence. }
  assert (Hst : source_path <> target_path).
  { intros Heq. apply app_inj_tail in Heq as [Heq _]. congruence. }
  assert (Hnt : new_path <> target_path).
  { intros Heq. unfold os_path_exists in H4. subst target_path.
    rewrite node_at_join, <- Heq, Hfree in H4. done. }
  split; [apply lookup_insert_eq|].
  split; [by rewrite lookup_insert_ne, lookup_delete_eq|].
  split; [by rewrite lookup_insert_ne, lookup_delete_ne|].
  split; [done|]. split; [done|].
  destruct (count_completed_spec (category_of filename) (stats s))
    as (K1 & _ & K3 & K4).
  done.
Qed.

Lemma X12_known_duplicate_is_renamed_witness :
  let s := state_known_hello in
  let s' := process_file sample_md5 sample_clock ["out"] false false "rename"
              ["src"; "a"] "x.txt" s in
  disk_of s' !! ["out"; "Dokumente"; "x_1700000000.txt"] = Some (File hello) /\
  disk_of s' !! ["src"; "a"; "x.txt"] = None /\
  disk_of s' !! ["out"; "Dokumente"; "x.txt"]
  = disk_of s !! ["out"; "Dokumente"; "x.txt"] /\
  file_hashes s'
  = <[Some "md5:hello" := ["out"; "Dokumente"; "x_1700000000.txt"]]>
      (file_hashes s) /\
  ticks s' = S (ticks s) /\
  verschoben (stats s') = S (verschoben (stats s)) /\
  uebersprungen (stats s') = uebersprungen (stats s) /\
  fehler (stats s') = fehler (stats s).
Proof.
  apply (X12_known_duplicate_is_renamed sample_md5 sample_clock ["out"] false
           ["src"; "a"] "x.txt" state_known_hello hello "md5:hello"
           ["out"; "Dokumente"; "x.txt"]); try reflexivity.
  discriminate.
Defined.

(** ** The clock and the other strategies *)

Lemma resolve_other_always (md5_hexdigest : string -> string)
    (clock : nat -> Z) (handle_duplicates : string)
    (source_path target_dir : path) (filename : string) (target_path : path)
    (s : run_state) :
  handle_duplicates <> "skip" -> handle_duplicates <> "rename" ->
  resolve_collision md5_hexdigest clock handle_duplicates source_path
    target_dir filename target_path s
  = (Normal target_path,
     mk_state (disk_of s) (ticks s)
       (<[get_file_hash md5_hexdigest (disk_of s) source_path
          := target_path]> (file_hashes s))
       (stats s)).
Proof.
  intros Hskip Hrename. unfold resolve_collision. unfold_monad.
  apply String.eqb_neq in Hskip, Hrename. rewrite Hskip, Hrename.
  by destruct (known_duplicate _ _).
Qed.

Lemma resolve_ticks (md5_hexdigest : string -> string)
    (clock : nat -> Z) (handle_duplicates : string)
    (source_path target_dir : path) (filename : string) (target_path : path)
    (s : run_state) :
  let r := resolve_collision md5_hexdigest clock handle_duplicates source_path
             target_dir filename target_path s in
  ticks s <= ticks r.2 <= S (ticks s) /\
  (handle_duplicates <> "rename" -> ticks r.2 = ticks s) /\
  (r.1 = Continue -> handle_duplicates = "skip").
Proof.
  unfold resolve_collision. unfold_monad.
  destruct (known_duplicate _ _);
    destruct (String.eqb handle_duplicates "skip") eqn:Hs;
    destruct (String.eqb handle_duplicates "rename") eqn:Hr;
    destruct (os_path_splitext filename) as [name ext]; simpl;
    repeat split; try lia; try done;
    try (intros _; by apply String.eqb_eq);
    intros Hne; apply String.eqb_eq in Hr; congruence.
Qed.

Section Clock.
Variables (md5_hexdigest : string -> string) (clock : nat -> Z).
Variables (destination_dir : path) (preview include_date : bool).
Variable handle_duplicates : string.

Local Abbreviation step :=
  (process_file md5_hexdigest clock destination_dir preview
                include_date handle_duplicates).

(** What the resolver stage of a file does to the clock and whether it
    skips. *)
Lemma process_file_ticks root filename s :
  ticks s <= ticks (step root filename s) <= S (ticks s) /\
  (handle_duplicates <> "rename" -> ticks (step root filename s) = ticks s) /\
  (already_organized root = false -> handle_duplicates <> "skip" ->
   uebersprungen (stats (step root filename s)) = uebersprungen (stats s)).
Proof.
  unfold process_file. destruct (already_organized root) eqn:Horg.
  { simpl. repeat split; try lia; done. }
  destruct (try_body _ _ _ _ _ _ root filename s) as [o s'] eqn:Hbody.
  pose proof (try_body_counters _ _ _ _ _ _ _ _ _ _ _ Hbody) as Hcount.
  cbv zeta in Hcount.
  apply try_body_inv in Hbody. cbv zeta in Hbody.
  set (category := category_of filename) in *.
  set (s1 := set_stats (init_count category (stats s)) s) in *.
  pose proof (plan_frame destination_dir preview include_date
                (os_path_join root filename) category s1) as (_ & _ & Ht2 & _).
  destruct (plan_target_dir destination_dir preview include_date
              (os_path_join root filename) category s1)
    as [[target_dir| |e] s2]; [| done |]; simpl in Ht2;
    change (ticks s1) with (ticks s) in Ht2; cycle 1.
  { destruct Hbody as [-> ->]. simpl. rewrite Ht2.
    repeat split; try lia; try done. }
  assert (Hres : forall or s3,
             (if os_path_exists (disk_of s2) (os_path_join target_dir filename)
              then resolve_collision md5_hexdigest clock handle_duplicates
                     (os_path_join root filename) target_dir filename
                     (os_path_join target_dir filename)
              else ret (os_path_join target_dir filename)) s2 = (or, s3) ->
             ticks s2 <= ticks s3 <= S (ticks s2) /\
             (handle_duplicates <> "rename" -> ticks s3 = ticks s2) /\
             (or = Continue -> handle_duplicates = "skip")).
  { intros or s3. destruct (os_path_exists _ _).
    - intros Hr.
      pose proof (resolve_ticks md5_hexdigest clock handle_duplicates
                    (os_path_join root filename) target_dir filename
                    (os_path_join target_dir filename) s2) as Hrt.
      cbv zeta in Hrt. by rewrite Hr in Hrt.
    - intros [= <- <-]. repeat split; try lia; done. }
  remember ((if os_path_exists (disk_of s2) (os_path_join target_dir filename)
             then resolve_collision md5_hexdigest clock handle_duplicates
                    (os_path_join root filename) target_dir filename
                    (os_path_join target_dir filename)
             else ret (os_path_join target_dir filename)) s2) as run eqn:Hrun.
  destruct run as [or s3].
  destruct (Hres or s3 eq_refl) as (Hle & Heq & Hskip). clear Hres.
  rewrite Ht2 in Hle, Heq.
  assert (Hticks : ticks s' = ticks s3 /\
                   (o = Continue -> or = Continue)).
  { destruct or as [resolved| |e]; [| by destruct Hbody as [-> ->] | done].
    destruct Hbody as [_ Hbody]. destruct preview.
    - by destruct Hbody as [-> ->].
    - destruct (shutil_move _ _ _); by destruct Hbody as [-> ->]. }
  destruct Hticks as [Hts Hcont].
  assert (Hgoal : ticks s <= ticks s' <= S (ticks s) /\
                  (handle_duplicates <> "rename" -> ticks s' = ticks s) /\
                  (handle_duplicates <> "skip" ->
                   uebersprungen (stats s') = uebersprungen (stats s) \/
                   o = Continue -> uebersprungen (stats s')
                                   = uebersprungen (stats s))).
  { rewrite Hts. repeat split; try lia.
    - intros Hne. by rewrite Heq.
    - intros Hns [Hu|Hc]; [done|]. by destruct (Hns (Hskip (Hcont Hc))). }
  destruct Hgoal as (G1 & G2 & G3).
  destruct o as [[]| |e]; simpl; repeat split; try lia; auto.
Qed.

End Clock.

(** X13: under a strategy other than "skip" and "rename", "replace"
    among them, the resolver always answers with the planned path and
    only records the digest for it, whether the index knew the digest
    or not; so no file of a directory that is not excluded is ever
    counted as skipped, and the clock is never read. *)
Theorem X13_other_strategy_keeps_planned_path
    (md5_hexdigest : string -> string) (clock : nat -> Z)
    (handle_duplicates : string) :
  handle_duplicates <> "skip" -> handle_duplicates <> "rename" ->
  (forall source_path target_dir filename target_path s,
      resolve_collision md5_hexdigest clock handle_duplicates source_path
        target_dir filename target_path s
      = (Normal target_path,
         mk_state (disk_of s) (ticks s)
           (<[get_file_hash md5_hexdigest (disk_of s) source_path
              := target_path]> (file_hashes s))
           (stats s)))
  /\ (forall destination_dir preview include_date root filename s,
         already_organized root = false ->
         let s' := process_file md5_hexdigest clock destination_dir preview
                     include_date handle_duplicates root filename s in
         uebersprungen (stats s') = uebersprungen (stats s) /\
         ticks s' = ticks s).
Proof.
  intros Hskip Hrename. split.
  - intros. by apply resolve_other_always.
  - intros destination_dir preview include_date root filename s Horg s'.
    destruct (process_file_ticks md5_hexdigest clock destination_dir preview
                include_date handle_duplicates root filename s)
      as (_ & Ht & Hu).
    split; [by apply Hu|by apply Ht].
Qed.

Lemma X13_other_strategy_keeps_planned_path_witness :
  let s := state_known_hello in
  let s' := process_file sample_md5 sample_clock ["out"] false false "replace"
              ["src"; "a"] "x.txt" s in
  uebersprungen (stats s') = uebersprungen (stats s) /\ ticks s' = ticks s.
Proof.
  apply (proj2 (X13_other_strategy_keeps_planned_path sample_md5 sample_clock
                  "replace" ltac:(discriminate) ltac:(discriminate))
           ["out"] false false ["src"; "a"] "x.txt" state_known_hello).
  reflexivity.
Defined.

(** X14: the clock is read at most once for a file, and only by the
    "rename" branch: under any other strategy a whole walk reads it
    never. *)
Theorem X14_clock_read_only_for_rename
    (md5_hexdigest : string -> string) (clock : nat -> Z)
    (destination_dir : path) (preview include_date : bool)
    (handle_duplicates : string) :
  (forall root filename s,
      let s' := process_file md5_hexdigest clock destination_dir preview
                  include_date handle_duplicates root filename s in
      ticks s <= ticks s' <= S (ticks s))
  /\ (handle_duplicates <> "rename" ->
      forall depth top s s',
        walk md5_hexdigest clock destination_dir preview include_date
             handle_duplicates depth top s = Some s' ->
        ticks s' = ticks s).
Proof.
  split.
  - intros root filename s.
    by destruct (process_file_ticks md5_hexdigest clock destination_dir
                   preview include_date handle_duplicates root filename s)
      as (H & _ & _).
  - intros Hne depth top s s'.
    apply (walk_invariant md5_hexdigest clock destination_dir preview
             include_date handle_duplicates (fun s1 => ticks s1 = ticks s));
      [|done].
    intros root filename s1 <-.
    destruct (process_file_ticks md5_hexdigest clock destination_dir preview
                include_date handle_duplicates root filename s1)
      as (_ & Ht & _).
    by apply Ht.
Qed.

Lemma X14_clock_read_only_for_rename_witness :
  exists s',
    walk sample_md5 sample_clock ["out"] true false "skip" 3 ["src"]
         (initial_state disk_two_copies) = Some s' /\
    ticks s' = ticks (initial_state disk_two_copies).
Proof.
  assert (exists s',
             walk sample_md5 sample_clock ["out"] true false "skip" 3 ["src"]
                  (initial_state disk_two_copies) = Some s') as [s' Hs'].
  { vm_compute. eexists. reflexivity. }
  exists s'. split; [exact Hs'|].
  exact (proj2 (X14_clock_read_only_for_rename sample_md5 sample_clock ["out"]
                  true false "skip") ltac:(discriminate) 3 ["src"] _ s' Hs').
Defined.

(** ** Files that are not moved *)




(** ** The per-category dict *)

Lemma dict_get_None_keys k (d : counts) :
  dict_get k d = None <-> k ∉ map fst d.
Proof.
  induction d as [|[k' v] d IH]; simpl.
  - split; [intros _ H; inversion H|done].
  - destruct (String.eqb_spec k k') as [->|Hne].
    + split; [done|]. intros H. destruct H. by left.
    + rewrite IH. rewrite not_elem_of_cons. tauto.
Qed.

Lemma dict_set_keys k v (d : counts) :
  map fst (dict_set k v d)
  = match dict_get k d with
    | Some _ => map fst d
    | None => map fst d ++ [k]
    end.
Proof.
  induction d as [|[k' v'] d IH]; simpl; [done|].
  destruct (String.eqb k k'); simpl; [done|].
  rewrite IH. by destruct (dict_get k d).
Qed.

Lemma init_count_keys category t :
  NoDup (map fst (kategorien t)) ->
  NoDup (map fst (kategorien (init_count category t))) /\
  forall c, c ∈ map fst (kategorien (init_count category t)) ->
            c = category \/ c ∈ map fst (kategorien t).
Proof.
  intros Hnd. unfold init_count.
  destruct (dict_get category (kategorien t)) eqn:E; [by auto|].
  simpl. rewrite dict_set_keys, E. split.
  - apply NoDup_app. split; [done|]. split; [|apply NoDup_singleton].
    intros c Hc Hc'. apply list_elem_of_singleton in Hc' as ->.
    by apply dict_get_None_keys in E.
  - intros c Hc. apply elem_of_app in Hc as [Hc|Hc]; [by right|].
    left. by apply list_elem_of_singleton in Hc.
Qed.

Lemma count_completed_keys category t :
  map fst (kategorien (count_completed category t))
  = map fst (kategorien (init_count category t)).
Proof.
  unfold count_completed. simpl. rewrite dict_set_keys.
  by destruct (init_count_present category t) as [v ->].
Qed.

(** The dict after a file is the dict before it, with the category of
    the file entered, and counted when the file completed. *)
Lemma process_file_kategorien
    (md5_hexdigest : string -> string) (clock : nat -> Z)
    (destination_dir : path) (preview include_date : bool)
    (handle_duplicates : string) (root : path) (filename : string)
    (s : run_state) :
  let k' := kategorien (stats (process_file md5_hexdigest clock
              destination_dir preview include_date handle_duplicates
              root filename s)) in
  k' = kategorien (stats s)
  \/ k' = kategorien (init_count (category_of filename) (stats s))
  \/ k' = kategorien (count_completed (category_of filename) (stats s)).
Proof.
  cbv zeta. unfold process_file.
  destruct (already_organized root); [by left|].
  destruct (try_body _ _ _ _ _ _ root filename s) as [o s'] eqn:Hbody.
  apply try_body_inv in Hbody. cbv zeta in Hbody.
  set (category := category_of filename) in *.
  set (s1 := set_stats (init_count category (stats s)) s) in *.
  pose proof (plan_frame destination_dir preview include_date
                (os_path_join root filename) category s1) as (Hst2 & _).
  destruct (plan_target_dir destination_dir preview include_date
              (os_path_join root filename) category s1)
    as [[target_dir| |e] s2]; [| done |]; simpl in Hst2;
    change (stats s1) with (init_count category (stats s)) in Hst2.
  - remember ((if os_path_exists (disk_of s2)
                     (os_path_join target_dir filename)
               then resolve_collision md5_hexdigest clock handle_duplicates
                      (os_path_join root filename) target_dir filename
                      (os_path_join target_dir filename)
               else ret (os_path_join target_dir filename)) s2)
      as run eqn:Hres.
    destruct run as [[resolved| |e] s3]; symmetry in Hres; [| |done].
    + destruct Hbody as [Hst3 Hbody]. destruct preview.
      * destruct Hbody as [-> ->]. right. right. done.
      * destruct (shutil_move _ _ _); destruct Hbody as [-> ->].
        -- right. left. simpl. by rewrite Hst3.
        -- right. right. done.
    + destruct Hbody as [-> ->]. right. left.
      assert (Hst3 : stats s3 = add_uebersprungen (stats s2)).
      { destruct (os_path_exists (disk_of s2) _); [|done].
        pose proof (resolve_frame md5_hexdigest clock handle_duplicates
                      (os_path_join root filename) target_dir filename
                      (os_path_join target_dir filename) s2) as [_ Hfr].
        by rewrite Hres in Hfr. }
      by rewrite Hst3, Hst2.
  - destruct Hbody as [-> ->]. right. left. simpl. by rewrite Hst2.
Qed.

(** X16: the keys of [stats["kategorien"]] are declared category names
    and no key occurs twice, after every file and in the returned
    statistics; so the dict never has more than eight entries. *)
Theorem X16_category_keys_are_distinct_names
    (md5_hexdigest : string -> string) (clock : nat -> Z)
    (depth : nat) (source_dir : path) (destination : option path)
    (preview include_date : bool) (handle_duplicates : string)
    (d : disk) (s' : run_state) :
  organize_files_by_type md5_hexdigest clock depth source_dir destination
    preview include_date handle_duplicates d = Some (Returned s') ->
  NoDup (map fst (kategorien (stats s'))) /\
  (forall c, c ∈ map fst (kategorien (stats s')) -> c ∈ category_names) /\
  length (kategorien (stats s')) <= 8.
Proof.
  intros Hrun.
  assert (Hinv : NoDup (map fst (kategorien (stats s'))) /\
                 forall c, c ∈ map fst (kategorien (stats s')) ->
                           c ∈ category_names).
  { revert Hrun. unfold organize_files_by_type.
    set (dest := destination_or_source source_dir destination).
    set (prepared := if negb preview then _ else _).
    assert (Hprep : stats prepared.2 = mk_stats 0 0 0 []).
    { subst prepared. destruct preview; [done|].
      change (stats (create_category_directories dest category_names
                       (initial_state d)).2 = mk_stats 0 0 0 []).
      by destruct (create_category_directories_frame dest category_names
                     (initial_state d)) as (-> & _). }
    destruct prepared as [o s0]. simpl in Hprep.
    assert (Hwalk : forall s1,
               walk md5_hexdigest clock dest preview include_date
                    handle_duplicates depth source_dir s0 = Some s1 ->
               NoDup (map fst (kategorien (stats s1))) /\
               forall c, c ∈ map fst (kategorien (stats s1)) ->
                         c ∈ category_names).
    { intros s1.
      apply (walk_invariant md5_hexdigest clock dest preview include_date
               handle_duplicates
               (fun s2 => NoDup (map fst (kategorien (stats s2))) /\
                          forall c, c ∈ map fst (kategorien (stats s2)) ->
                                    c ∈ category_names)).
      - intros root filename s2 [Hnd Hin].
        pose proof (process_file_kategorien md5_hexdigest clock dest preview
                      include_date handle_duplicates root filename s2) as Hk.
        cbv zeta in Hk.
        destruct (init_count_keys (category_of filename) (stats s2) Hnd)
          as [Hnd' Hin'].
        assert (Hnames : forall c,
                   c ∈ map fst (kategorien
                                  (init_count (category_of filename) (stats s2)))
                   -> c ∈ category_names).
        { intros c Hc. destruct (Hin' c Hc) as [->|Hc']; [|by apply Hin].
          apply get_category_in_names. }
        destruct Hk as [->|[->| ->]]; [done|done|].
        by rewrite count_completed_keys.
      - rewrite Hprep. simpl. split; [apply NoDup_nil_2|].
        intros c Hc. inversion Hc. }
    destruct o as [[]| |e]; [| |done];
      destruct (walk _ _ _ _ _ _ depth source_dir s0) as [s1|]; try done;
      intros [= <-]; by apply Hwalk. }
  destruct Hinv as [Hnd Hin]. split; [done|]. split; [done|].
  rewrite <- (length_map fst).
  change 8 with (length category_names).
  apply submseteq_length, NoDup_submseteq; [done|]. intros c Hc. by apply Hin.
Qed.

Lemma X16_category_keys_are_distinct_names_witness :
  exists s',
    organize_files_by_type sample_md5 sample_clock 2 ["src"] (Some ["out"])
      true false "rename" disk_three_kinds = Some (Returned s') /\
    NoDup (map fst (kategorien (stats s'))) /\
    (forall c, c ∈ map fst (kategorien (stats s')) -> c ∈ category_names) /\
    length (kategorien (stats s')) <= 8.
Proof.
  assert (exists s',
             organize_files_by_type sample_md5 sample_clock 2 ["src"]
               (Some ["out"]) true false "rename" disk_three_kinds
             = Some (Returned s')) as [s' Hs'].
  { vm_compute. eexists. reflexivity. }
  exists s'. split; [exact Hs'|].
  exact (X16_category_keys_are_distinct_names sample_md5 sample_clock 2
           ["src"] (Some ["out"]) true false "rename" disk_three_kinds s' Hs').
Defined.

(** ** Failure of the preparation *)





Lemma makedirs_below_file (d : disk) (p : path) (name : string) (f : file) :
  p <> [] -> d !! p = Some (File f) -> d !! os_path_join p name = None ->
  os_makedirs d (os_path_join p name) = inl NotADirectoryError.
Proof.
  intros Hne Hfile Hnone.
  assert (Hhead : os_path_exists d p = true).
  { unfold os_path_exists, node_at. destruct p; [done|]. by rewrite Hfile. }
  assert (Hparent : node_at d p = Some (File f)).
  { unfold node_at. by destruct p. }
  assert (Hex : os_path_exists d (os_path_join p name) = false).
  { unfold os_path_exists. by rewrite node_at_join, Hnone. }
  unfold os_makedirs.
  replace (rev (os_path_join p name)) with (name :: rev p)
    by (unfold os_path_join; by rewrite rev_app_distr).
  cbn [makedirs_rev]. rewrite rev_involutive.
  replace (rev (name :: rev p)) with (os_path_join p name)
    by (unfold os_path_join; simpl; by rewrite rev_involutive).
  destruct p as [|a l]; [done|]. rewrite Hhead.
  unfold os_mkdir. by rewrite Hex, dirname_join, Hparent.
Qed.

(** X18: when the destination is a regular file, a call that is not a
    preview raises [NotADirectoryError] from the first category folder,
    outside of every [try]: nothing is counted and the disk is as it
    was. *)
Theorem X18_destination_is_a_file
    (md5_hexdigest : string -> string) (clock : nat -> Z) (depth : nat)
    (source_dir : path) (destination : option path)
    (include_date : bool) (handle_duplicates : string) (d : disk) (f : file) :
  let destination_dir := destination_or_source source_dir destination in
  destination_dir <> [] ->
  d !! destination_dir = Some (File f) ->
  d !! os_path_join destination_dir "Dokumente" = None ->
  organize_files_by_type md5_hexdigest clock depth source_dir destination
    false include_date handle_duplicates d
  = Some (Raised NotADirectoryError (initial_state d)).
Proof.
  intros destination_dir Hne Hfile Hnone.
  unfold organize_files_by_type. fold destination_dir.
  cbn [negb]. cbv iota.
  assert (Hprep : create_category_directories destination_dir category_names
                    (initial_state d)
                  = (Raise NotADirectoryError, initial_state d)).
  { change category_names with ("Dokumente" :: tl category_names).
    cbn [create_category_directories]. unfold bind.
    assert (Hone : create_directory_if_not_exists
                     (os_path_join destination_dir "Dokumente")
                     (initial_state d)
                   = (Raise NotADirectoryError, initial_state d)).
    { unfold create_directory_if_not_exists. unfold_monad.
      cbn [disk_of initial_state].
      assert (Hex : os_path_exists d (os_path_join destination_dir "Dokumente")
                    = false).
      { unfold os_path_exists. by rewrite node_at_join, Hnone. }
      rewrite Hex. cbn [negb].
      change (disk_of (initial_state d)) with d.
      by rewrite (makedirs_below_file d destination_dir "Dokumente" f). }
    by rewrite Hone. }
  by rewrite Hprep.
Qed.

Lemma X18_destination_is_a_file_witness :
  organize_files_by_type sample_md5 sample_clock 3 ["src"]
    (Some ["src"; "a"; "x.txt"]) false false "rename" disk_two_copies
  = Some (Raised NotADirectoryError (initial_state disk_two_copies)).
Proof.
  apply (X18_destination_is_a_file sample_md5 sample_clock 3 ["src"]
           (Some ["src"; "a"; "x.txt"]) false "rename" disk_two_copies hello).
  - discriminate.
  - reflexivity.
  - reflexivity.
Defined.

(** ** A source that is not a directory *)

Lemma create_category_directories_source (destination_dir source_dir : path)
    (d : disk) (names : list string) (s : run_state) :
  (forall category, category ∈ names ->
     ~ source_dir `prefix_of` os_path_join destination_dir category) ->
  os_path_isdir (disk_of s) source_dir = false ->
  (forall k n, d !! k = Some n -> disk_of s !! k = Some n) ->
  let s' := (create_category_directories destination_dir names s).2 in
  os_path_isdir (disk_of s') source_dir = false /\
  (forall k n, d !! k = Some n -> disk_of s' !! k = Some n).
Proof.
  revert s. induction names as [|name names IH]; intros s Hout Hdir Hkeep;
    [done|].
  cbn [create_category_directories]. unfold bind.
  pose proof (create_directory_keeps (os_path_join destination_dir name) s)
    as (Hsome & Hnone & _).
  assert (Hdir1 : os_path_isdir
                    (disk_of (create_directory_if_not_exists
                                (os_path_join destination_dir name) s).2)
                    source_dir = false).
  { revert Hdir. unfold os_path_isdir, node_at.
    destruct source_dir as [|a l] eqn:Hsrc; [done|]. rewrite <- Hsrc in *.
    destruct (disk_of s !! source_dir) as [n|] eqn:E.
    - rewrite (Hsome _ _ E). done.
    - intros _. destruct (Hnone _ E) as [-> | [_ Hpre]]; [done|].
      exfalso. apply (Hout name); [by left|done]. }
  destruct (create_directory_if_not_exists _ s) as [[[]| |e] s1];
    cbn [fst snd] in *; try (split; [done|]; by eauto).
  apply IH; [|done|by eauto].
  intros category Hin. apply Hout. by right.
Qed.

(** X19: a source that is not a directory is no error.  The walk lists
    nothing, whatever the nesting bound: when the call returns, the
    counters are zero, the per-category dict and the duplicate index are
    empty and every entry of the disk is as it was; outside of a preview
    the category folders are still created.  The source must not be an
    ancestor of the destination, nor one of its category folders, which
    the preparation would create. *)
Theorem X19_missing_source_is_not_an_error
    (md5_hexdigest : string -> string) (clock : nat -> Z) (depth : nat)
    (source_dir : path) (destination : option path)
    (preview include_date : bool) (handle_duplicates : string) (d : disk) :
  os_path_isdir d source_dir = false ->
  (preview = true \/
   forall category, category ∈ category_names ->
     ~ source_dir `prefix_of`
         os_path_join (destination_or_source source_dir destination)
                      category) ->
  exists r,
    organize_files_by_type md5_hexdigest clock depth source_dir destination
      preview include_date handle_duplicates d = Some r /\
    forall s', r = Returned s' ->
      stats s' = mk_stats 0 0 0 [] /\ file_hashes s' = ∅ /\
      (forall k n, d !! k = Some n -> disk_of s' !! k = Some n) /\
      (preview = false ->
       forall category, category ∈ category_names ->
         os_path_exists (disk_of s')
           (os_path_join (destination_or_source source_dir destination)
                         category) = true).
Proof.
  intros Hdir Hout. unfold organize_files_by_type.
  set (dest := destination_or_source source_dir destination) in *.
  set (prepared := if negb preview then _ else _).
  assert (Hprep : stats prepared.2 = mk_stats 0 0 0 [] /\
                  file_hashes prepared.2 = ∅ /\
                  os_path_isdir (disk_of prepared.2) source_dir = false /\
                  (forall k n, d !! k = Some n ->
                               disk_of prepared.2 !! k = Some n) /\
                  (preview = false -> prepared.1 = Normal tt ->
                   forall category, category ∈ category_names ->
                     os_path_exists (disk_of prepared.2)
                       (os_path_join dest category) = true) /\
                  prepared.1 <> Continue).
  { subst prepared. destruct preview; cbn [negb]; cbv iota.
    - repeat split; try done.
    - destruct Hout as [Hout|Hout]; [done|].
      destruct (create_category_directories_frame dest category_names
                  (initial_state d)) as (Hst & Hfh & _ & Hcont).
      destruct (create_category_directories_source dest source_dir d
                  category_names (initial_state d) Hout Hdir)
        as [Hdir' Hkeep']; [done|].
      cbv zeta in Hst, Hfh, Hcont.
      repeat split; try done.
      intros _ Hnormal category Hin.
      destruct (create_category_directories dest category_names
                  (initial_state d)) as [o s0] eqn:Hrun.
      cbn [fst snd] in *. subst o.
      by apply (create_category_directories_present dest category_names
                  (initial_state d) s0 Hrun). }
  destruct prepared as [o s0]. cbn [fst snd] in Hprep.
  destruct Hprep as (Hst & Hfh & Hdir0 & Hkeep & Hmade & Hcont).
  assert (Hwalk : walk md5_hexdigest clock dest preview include_date
                       handle_duplicates depth source_dir s0 = Some s0).
  { unfold scandir. destruct depth; simpl; unfold scandir; by rewrite Hdir0. }
  destruct o as [[]| |e]; [|done|].
  - rewrite Hwalk. eexists. split; [done|]. intros s' [= <-]. auto.
  - eexists. split; [done|]. intros s' [=].
Qed.

Lemma X19_missing_source_is_not_an_error_witness :
  exists r,
    organize_files_by_type sample_md5 sample_clock 0 ["nowhere"]
      (Some ["out"]) false false "rename" disk_two_copies = Some r /\
    forall s', r = Returned s' ->
      stats s' = mk_stats 0 0 0 [] /\ file_hashes s' = ∅ /\
      (forall k n, disk_two_copies !! k = Some n ->
                   disk_of s' !! k = Some n) /\
      (false = false ->
       forall category, category ∈ category_names ->
         os_path_exists (disk_of s') (os_path_join ["out"] category) = true).
Proof.
  apply (X19_missing_source_is_not_an_error sample_md5 sample_clock 0
           ["nowhere"] (Some ["out"]) false false "rename" disk_two_copies).
  - reflexivity.
  - right. intros category _ [t Ht]. discriminate.
Defined.

(** ** The exit status *)


(** ** Where a moved file goes *)

(** The folder that the planner returns. *)
Lemma plan_target (destination_dir : path) (preview include_date : bool)
    (source_path : path) (category : string) (s : run_state)
    (target_dir : path) (s2 : run_state) :
  plan_target_dir destination_dir preview include_date source_path category s
  = (Normal target_dir, s2) ->
  if include_date
  then exists f, node_at (disk_of s) source_path = Some (File f) /\
                 target_dir
                 = planned_target_dir destination_dir true category f
  else target_dir = os_path_join destination_dir category.
Proof.
  unfold plan_target_dir, planned_target_dir. destruct include_date.
  - unfold_monad. unfold getmtime_month.
    destruct (node_at (disk_of s) source_path) as [[f|]|]; [|done|done].
    intros Hrun. exists f. split; [done|]. revert Hrun.
    repeat (case_match; simplify_eq /=); intros; by simplify_eq.
  - by intros [= <- <-].
Qed.

Lemma below_category_is_organized (destination_dir : path)
    (category : string) (root : path) :
  category ∈ category_names ->
  os_path_join destination_dir category `prefix_of` root ->
  already_organized root = true.
Proof.
  intros Hcat [t ->]. apply (already_organized_intro category); [done|].
  apply contains_segment. unfold os_path_join.
  apply elem_of_app. left. apply elem_of_app. right.
  apply elem_of_cons. by left.
Qed.

(** X21: a file that is counted as moved has been moved, to its
    category.  When a step that is not a preview adds one to
    [verschoben], the file has left its place and sits, unchanged,
    below its category folder in the destination, in the folder of its
    month when [include_date] is set. *)
Theorem X21_counted_file_sits_in_its_category
    (md5_hexdigest : string -> string) (clock : nat -> Z)
    (destination_dir : path) (include_date : bool)
    (handle_duplicates : string) (root : path) (filename : string)
    (s : run_state) :
  let s' := process_file md5_hexdigest clock destination_dir false
              include_date handle_duplicates root filename s in
  let source_path := os_path_join root filename in
  verschoben (stats s') = S (verschoben (stats s)) ->
  exists f real_dst,
    disk_of s !! source_path = Some (File f) /\
    disk_of s' !! source_path = None /\
    disk_of s' !! real_dst = Some (File f) /\
    planned_target_dir destination_dir include_date (category_of filename) f
      `prefix_of` real_dst /\
    real_dst
      <> planned_target_dir destination_dir include_date
           (category_of filename) f.
Proof.
  cbv zeta. unfold process_file.
  destruct (already_organized root) eqn:Horg; [simpl; lia|].
  destruct (try_body _ _ _ _ _ _ root filename s) as [o s'] eqn:Hbody.
  pose proof (try_body_counters _ _ _ _ _ _ _ _ _ _ _ Hbody) as Hcount.
  cbv zeta in Hcount.
  destruct o as [[]| |e]; simpl; [intros _|lia|lia].
  apply try_body_inv in Hbody. cbv zeta in Hbody.
  set (category := category_of filename) in *.
  assert (Hcat : category ∈ category_names) by apply get_category_in_names.
  set (s1 := set_stats (init_count category (stats s)) s) in *.
  destruct (plan_target_dir destination_dir false include_date
              (os_path_join root filename) category s1)
    as [[target_dir| |e] s2] eqn:Hplan; [| done |by destruct Hbody].
  pose proof (plan_target _ _ _ _ _ _ _ _ Hplan) as Htarget.
  apply plan_shape in Hplan as [Hpre Hs2].
  remember ((if os_path_exists (disk_of s2) (os_path_join target_dir filename)
             then resolve_collision md5_hexdigest clock handle_duplicates
                    (os_path_join root filename) target_dir filename
                    (os_path_join target_dir filename)
             else ret (os_path_join target_dir filename)) s2)
    as run eqn:Hres.
  destruct run as [[resolved| |e] s3]; symmetry in Hres;
    [|by destruct Hbody|done].
  apply resolve_shape in Hres as [[name ->] Hd3].
  destruct Hbody as [_ Hbody].
  destruct (shutil_move (disk_of s3) (os_path_join root filename)
              (os_path_join target_dir name)) as [e|d] eqn:Hmv;
    [by destruct Hbody|].
  destruct Hbody as [_ ->]. cbn [disk_of set_stats set_disk].
  apply shutil_move_shape in Hmv as (f & real_dst & _ & Hsrc & Hreal & _ & ->).
  rewrite Hd3 in Hsrc.
  assert (Hsrc0 : disk_of s !! os_path_join root filename = Some (File f)).
  { destruct Hs2 as [->|(d & _ & Hmk & ->)]; [done|].
    cbn [disk_of set_disk] in Hsrc.
    destruct (os_makedirs_spec _ _ _ Hmk (os_path_join root filename))
      as [Heq|(_ & Hdir & _)]; [|congruence].
    rewrite Heq in Hsrc. exact Hsrc. }
  assert (Htd : target_dir
                = planned_target_dir destination_dir include_date category f).
  { destruct include_date; [|done].
    destruct Htarget as (f' & Hf' & ->).
    rewrite node_at_join in Hf'. cbn [disk_of s1 set_stats] in Hf'.
    change (disk_of s1) with (disk_of s) in Hf'. congruence. }
  assert (Hbelow : target_dir `prefix_of` real_dst /\ real_dst <> target_dir /\
                   target_dir `prefix_of` dirname real_dst).
  { destruct Hreal as [-> | ->].
    - split; [by apply prefix_app_r|]. split; [apply join_neq|].
      by rewrite dirname_join.
    - split; [by apply prefix_app_r, prefix_app_r|]. split.
      + intros Heq. apply (f_equal length) in Heq.
        unfold os_path_join in Heq. rewrite !length_app in Heq.
        simpl in Heq. lia.
      + rewrite dirname_join. by apply prefix_app_r. }
  destruct Hbelow as (Hb1 & Hb2 & Hb3).
  assert (Hne : real_dst <> os_path_join root filename).
  { intros ->. rewrite dirname_join in Hb3.
    assert (Horg' : already_organized root = true); [|congruence].
    apply (below_category_is_organized destination_dir category); [done|].
    by etrans. }
  exists f, real_dst. rewrite <- Htd.
  split; [done|]. split.
  { rewrite lookup_insert_ne by done. apply lookup_delete_eq. }
  split; [apply lookup_insert_eq|]. done.
Qed.

Lemma X21_counted_file_sits_in_its_category_witness :
  let s := initial_state (disk_clash hello) in
  let s' := process_file sample_md5 sample_clock ["out"] false true "rename"
              ["src"; "a"] "x.txt" s in
  exists f real_dst,
    disk_of s !! os_path_join ["src"; "a"] "x.txt" = Some (File f) /\
    disk_of s' !! os_path_join ["src"; "a"] "x.txt" = None /\
    disk_of s' !! real_dst = Some (File f) /\
    planned_target_dir ["out"] true (category_of "x.txt") f
      `prefix_of` real_dst /\
    real_dst <> planned_target_dir ["out"] true (category_of "x.txt") f.
Proof.
  apply (X21_counted_file_sits_in_its_category sample_md5 sample_clock ["out"]
           true "rename" ["src"; "a"] "x.txt"
           (initial_state (disk_clash hello))).
  vm_compute. reflexivity.
Defined.

(** ** The category folders after a run *)

Lemma makedirs_keeps_dirs (d0 d1 d2 : disk) (p : path) :
  (forall k, d0 !! k = Some Dir -> d1 !! k = Some Dir) ->
  os_makedirs d1 p = inr d2 ->
  forall k, d0 !! k = Some Dir -> d2 !! k = Some Dir.
Proof.
  intros HP Hmk k Hk.
  destruct (os_makedirs_spec _ _ _ Hmk k) as [Heq|(_ & Hdir & _)]; [|done].
  rewrite Heq. by apply HP.
Qed.

Lemma move_keeps_dirs (d0 d1 d2 : disk) (src dst : path) :
  (forall k, d0 !! k = Some Dir -> d1 !! k = Some Dir) ->
  shutil_move d1 src dst = inr d2 ->
  forall k, d0 !! k = Some Dir -> d2 !! k = Some Dir.
Proof.
  intros HP Hmv k Hk.
  apply shutil_move_shape in Hmv as (f1 & real_dst & _ & Hsrc & _ & Hnd & ->).
  specialize (HP k Hk).
  rewrite lookup_insert_ne, lookup_delete_ne; [done| |].
  - intros <-. congruence.
  - intros <-. unfold os_path_isdir, node_at in Hnd.
    destruct real_dst; [done|]. by rewrite HP in Hnd.
Qed.

(** X22: when a run that is not a preview returns, every category
    folder of the destination is a directory, unless a regular file had
    its name before the run. *)
Theorem X22_category_folders_after_run
    (md5_hexdigest : string -> string) (clock : nat -> Z)
    (depth : nat) (source_dir : path) (destination : option path)
    (include_date : bool) (handle_duplicates : string)
    (d : disk) (s' : run_state) :
  organize_files_by_type md5_hexdigest clock depth source_dir destination
    false include_date handle_duplicates d = Some (Returned s') ->
  forall category, category ∈ category_names ->
    (forall f, d !! os_path_join
                      (destination_or_source source_dir destination) category
               <> Some (File f)) ->
    os_path_isdir (disk_of s')
      (os_path_join (destination_or_source source_dir destination) category)
    = true.
Proof.
  unfold organize_files_by_type.
  set (dest := destination_or_source source_dir destination).
  cbn [negb]. cbv iota.
  intros Hrun category Hcat Hfile.
  destruct (create_category_directories_frame dest category_names
              (initial_state d)) as (_ & _ & _ & Hcont).
  assert (Hadds : forall k,
             disk_of (create_category_directories dest category_names
                        (initial_state d)).2 !! k = d !! k \/
             (d !! k = None /\
              disk_of (create_category_directories dest category_names
                         (initial_state d)).2 !! k = Some Dir)).
  { apply (create_category_directories_keeps dest
             (fun d1 => forall k, d1 !! k = d !! k \/
                                  (d !! k = None /\ d1 !! k = Some Dir)));
      [|done|intros k; by left].
    intros d1 c p d2 _ _ HP Hmk k.
    destruct (os_makedirs_spec _ _ _ Hmk k) as [Heq|(Hn & Hd & _)].
    - rewrite Heq. apply HP.
    - right. split; [|done]. destruct (HP k) as [Heq|[Hnone _]]; congruence. }
  cbv zeta in Hcont.
  destruct (create_category_directories dest category_names (initial_state d))
    as [o s0] eqn:Hprep.
  cbn [fst snd] in *.
  destruct o as [[]| |e]; [|done|done].
  assert (Hdir0 : disk_of s0 !! os_path_join dest category = Some Dir).
  { pose proof (create_category_directories_present dest category_names
                  (initial_state d) s0 Hprep category Hcat) as Hex.
    unfold os_path_exists in Hex. rewrite node_at_join in Hex.
    destruct (disk_of s0 !! os_path_join dest category) as [[f|]|] eqn:E;
      [|done|done].
    exfalso. destruct (Hadds (os_path_join dest category)) as [Heq|(_ & Hd)].
    - apply (Hfile f). congruence.
    - congruence. }
  destruct (walk md5_hexdigest clock dest false include_date
              handle_duplicates depth source_dir s0) as [s1|] eqn:Hwalk;
    [|done].
  injection Hrun as <-.
  assert (Hkeep : forall k, disk_of s0 !! k = Some Dir ->
                            disk_of s1 !! k = Some Dir).
  { apply (walk_keeps md5_hexdigest clock dest false include_date
             handle_duplicates
             (fun d1 => forall k, disk_of s0 !! k = Some Dir ->
                                  d1 !! k = Some Dir)
             (fun _ => True)) with (depth := depth) (top := source_dir)
                                   (s := s0); try done.
    - intros d1 c p d2 _ _ HP Hmk. by eapply makedirs_keeps_dirs.
    - intros d1 root filename c dst d2 _ _ _ _ HP Hmv.
      by eapply move_keeps_dirs. }
  unfold os_path_isdir. by rewrite node_at_join, (Hkeep _ Hdir0).
Qed.

Lemma X22_category_folders_after_run_witness :
  exists s',
    organize_files_by_type sample_md5 sample_clock 2 ["src"] (Some ["out"])
      false false "rename" disk_three_kinds = Some (Returned s') /\
    os_path_isdir (disk_of s') (os_path_join ["out"] "Videos") = true.
Proof.
  assert (exists s',
             organize_files_by_type sample_md5 sample_clock 2 ["src"]
               (Some ["out"]) false false "rename" disk_three_kinds
             = Some (Returned s')) as [s' Hs'].
  { vm_compute. eexists. reflexivity. }
  exists s'. split; [exact Hs'|].
  apply (X22_category_folders_after_run sample_md5 sample_clock 2 ["src"]
           (Some ["out"]) false "rename" disk_three_kinds s' Hs' "Videos").
  - apply list_elem_of_In. vm_compute. tauto.
  - intros f. vm_compute. discriminate.
Defined.

(** ** The name of a renamed copy *)

Lemma string_app_cons c (s t : string) :
  String c s +:+ t = String c (s +:+ t).
Proof. reflexivity. Qed.

Lemma string_app_nil_r (s : string) : s +:+ "" = s.
Proof.
  induction s as [|c s IH]; [done|]. by rewrite string_app_cons, IH.
Qed.

Lemma string_app_assoc (a b c : string) : (a +:+ b) +:+ c = a +:+ (b +:+ c).
Proof.
  induction a as [|d a IH]; [done|]. by rewrite !string_app_cons, IH.
Qed.

Lemma string_length_app (a b : string) :
  String.length (a +:+ b) = String.length a + String.length b.
Proof.
  induction a as [|d a IH]; [done|]. rewrite string_app_cons. simpl.
  by rewrite IH.
Qed.

Lemma contains_char_intro c d rest :
  Ascii.eqb c d = false ->
  Str.contains (String c "") rest = false ->
  Str.contains (String c "") (String d rest) = false.
Proof.
  intros Hne Hrest.
  change (Str.contains (String c "") (String d rest))
    with (String.prefix (String c "") (String d rest)
          || Str.contains (String c "") rest).
  rewrite Hrest, orb_false_r. simpl.
  destruct (ascii_dec c d) as [->|Hn]; [|done].
  by rewrite Ascii.eqb_refl in Hne.
Qed.

Lemma rfind_from_app c (a b : string) i found :
  Str.rfind_from c (a +:+ b) i found
  = Str.rfind_from c b (i + Z.of_nat (String.length a))
                   (Str.rfind_from c a i found).
Proof.
  revert i found. induction a as [|d a IH]; intros i found.
  - change ("" +:+ b) with b. simpl. by rewrite Z.add_0_r.
  - rewrite string_app_cons. cbn [Str.rfind_from String.length]. rewrite IH.
    f_equal. lia.
Qed.

Lemma rfind_from_range c (s : string) i found :
  (found < i)%Z ->
  (found <= Str.rfind_from c s i found < i + Z.of_nat (String.length s))%Z.
Proof.
  revert i found. induction s as [|d s IH]; intros i found Hlt.
  - simpl. lia.
  - cbn [Str.rfind_from String.length].
    specialize (IH (i + 1)%Z (if Ascii.eqb c d then i else found)).
    destruct (Ascii.eqb c d); lia.
Qed.

(** The last occurrence of a character splits the string. *)
Lemma rfind_from_split c (s : string) i found :
  (found < i)%Z ->
  (Str.rfind_from c s i found = found /\
   Str.contains (String c "") s = false)
  \/ (exists a b, s = a +:+ String c b /\
                  Str.contains (String c "") b = false /\
                  Str.rfind_from c s i found
                  = (i + Z.of_nat (String.length a))%Z).
Proof.
  revert i found. induction s as [|d s IH]; intros i found Hlt.
  - left. done.
  - cbn [Str.rfind_from]. destruct (Ascii.eqb_spec c d) as [<-|Hne].
    + destruct (IH (i + 1)%Z i ltac:(lia)) as [[Hr Habs]|(a & b & -> & Hb & Hr)].
      * right. exists "", s. rewrite Hr. simpl. split; [done|].
        split; [done|lia].
      * right. exists (String c a), b. rewrite Hr.
        split; [done|]. split; [done|].
        cbn [String.length]. lia.
    + apply Ascii.eqb_neq in Hne.
      destruct (IH (i + 1)%Z found ltac:(lia))
        as [[Hr Habs]|(a & b & -> & Hb & Hr)].
      * left. split; [done|]. by apply contains_char_intro.
      * right. exists (String d a), b. rewrite Hr.
        split; [done|]. split; [done|].
        cbn [String.length]. lia.
Qed.

Lemma substring_all (s : string) : String.substring 0 (String.length s) s = s.
Proof. induction s as [|c s IH]; simpl; [done|by rewrite IH]. Qed.

Lemma take_app (a b : string) :
  Str.take (Z.of_nat (String.length a)) (a +:+ b) = a.
Proof.
  unfold Str.take. rewrite Nat2Z.id.
  induction a as [|c a IH]; [by destruct b|].
  rewrite string_app_cons. simpl. by rewrite IH.
Qed.

Lemma drop_app (a b : string) :
  Str.drop (Z.of_nat (String.length a)) (a +:+ b) = b.
Proof.
  unfold Str.drop. rewrite Nat2Z.id, string_length_app.
  replace (String.length a + String.length b - String.length a)
    with (String.length b) by lia.
  induction a as [|c a IH]; [apply substring_all|].
  rewrite string_app_cons. exact IH.
Qed.

(** The scan of [_splitext] reads the characters of its range only,
    and a longer range finds what a shorter one found. *)
Lemma splitext_scan_app (a x : string) n i :
  (0 <= i)%Z -> (i + Z.of_nat n <= Z.of_nat (String.length a))%Z ->
  splitext_scan (a +:+ x) i n = splitext_scan a i n.
Proof.
  revert i. induction n as [|n IH]; intros i Hi Hlen; [done|].
  cbn [splitext_scan].
  rewrite <- (append_correct1 a x (Z.to_nat i)) by lia.
  destruct (String.get (Z.to_nat i) a) as [c|]; [|done].
  destruct (Ascii.eqb c "."); [|done]. apply IH; lia.
Qed.

Lemma splitext_scan_mono (p : string) n m i :
  splitext_scan p i n = true -> n <= m -> splitext_scan p i m = true.
Proof.
  revert m i. induction n as [|n IH]; intros m i Hscan Hle; [done|].
  destruct m as [|m]; [lia|]. cbn [splitext_scan] in *.
  destruct (String.get (Z.to_nat i) p) as [c|]; [|done].
  destruct (Ascii.eqb c "."); [|done]. apply (IH m (i + 1)%Z Hscan). lia.
Qed.

(** [str(n)] holds digits and a sign only. *)
Lemma of_int_no_separator c (n : Z) :
  c = "."%char \/ c = "/"%char ->
  Str.contains (String c "") (Str.of_int n) = false.
Proof.
  intros Hc.
  assert (Hu : forall u, Str.contains (String c "")
                           (NilEmpty.string_of_uint u) = false).
  { induction u; cbn [NilEmpty.string_of_uint]; [done|..];
      (apply contains_char_intro; [by destruct Hc as [-> | ->]|done]). }
  assert (Hz : forall u, Str.contains (String c "")
                           (NilZero.string_of_uint u) = false).
  { intros u. unfold NilZero.string_of_uint.
    destruct u; try apply Hu. by destruct Hc as [-> | ->]. }
  unfold Str.of_int, NilZero.string_of_int.
  destruct (Z.to_int n) as [u|u]; [apply Hz|].
  apply contains_char_intro; [by destruct Hc as [-> | ->]|apply Hz].
Qed.

(** A piece without a dot and without a separator, put between the
    name and the extension, leaves both as they are. *)
Lemma splitext_insert (filename name ext mid : string) :
  os_path_splitext filename = (name, ext) ->
  Str.contains "." mid = false -> Str.contains "/" mid = false ->
  os_path_splitext (name +:+ mid +:+ ext) = (name +:+ mid, ext).
Proof.
  intros Hsplit Hmd Hms. revert Hsplit.
  unfold os_path_splitext at 1. unfold Str.rfind.
  pose proof (rfind_from_range "/" filename 0 (-1) ltac:(lia)) as Hsep.
  pose proof (rfind_from_range "." filename 0 (-1) ltac:(lia)) as Hdot.
  set (sep := Str.rfind_from "/" filename 0 (-1)) in *.
  set (dot := Str.rfind_from "." filename 0 (-1)) in *.
  destruct ((sep <? dot)%Z) eqn:Hlt; cbn [andb].
  - apply Z.ltb_lt in Hlt.
    destruct (splitext_scan filename (sep + 1)
                (Z.to_nat (dot - (sep + 1)))) eqn:Hscan.
    + intros [= <- <-].
      destruct (rfind_from_split "." filename 0 (-1) ltac:(lia))
        as [[Hr _]|(a & b & Hfn & Hb & Hr)]; [fold dot in Hr; lia|].
      fold dot in Hr.
      assert (Hsepa : sep = Str.rfind_from "/" a 0 (-1) /\
                      Str.contains "/" b = false).
      { assert (Hsepeq : sep = Str.rfind_from "/" b
                                 (0 + Z.of_nat (String.length a) + 1)
                                 (Str.rfind_from "/" a 0 (-1))).
        { unfold sep. rewrite Hfn, rfind_from_app. cbn [Str.rfind_from].
          change (Ascii.eqb "/" ".") with false. done. }
        pose proof (rfind_from_range "/" a 0 (-1) ltac:(lia)) as Hsa.
        destruct (rfind_from_split "/" b
                    (0 + Z.of_nat (String.length a) + 1)
                    (Str.rfind_from "/" a 0 (-1)) ltac:(lia))
          as [[Hr' Habs]|(a0 & b0 & _ & _ & Hr')]; [split; congruence|].
        lia. }
      destruct Hsepa as [Hsa Hbs].
      replace dot with (Z.of_nat (String.length a)) in * by lia.
      rewrite Hfn in Hscan |- *. rewrite take_app, drop_app.
      rewrite splitext_scan_app in Hscan by lia.
      unfold os_path_splitext, Str.rfind.
      assert (Hdot' : Str.rfind_from "." (a +:+ mid +:+ String "." b) 0 (-1)
                      = Z.of_nat (String.length (a +:+ mid))).
      { rewrite !rfind_from_app. cbn [Str.rfind_from].
        change (Ascii.eqb "." ".") with true. cbv iota.
        rewrite (rfind_from_absent "." b) by done.
        rewrite string_length_app. lia. }
      assert (Hsep' : Str.rfind_from "/" (a +:+ mid +:+ String "." b) 0 (-1)
                      = sep).
      { rewrite !rfind_from_app. cbn [Str.rfind_from].
        change (Ascii.eqb "/" ".") with false. cbv iota.
        rewrite (rfind_from_absent "/" b) by done.
        rewrite (rfind_from_absent "/" mid) by done. done. }
      rewrite Hdot', Hsep'.
      assert (Hlt' : (sep <? Z.of_nat (String.length (a +:+ mid)))%Z = true).
      { apply Z.ltb_lt. rewrite string_length_app. lia. }
      rewrite Hlt'. cbn [andb].
      rewrite (splitext_scan_mono (a +:+ mid +:+ String "." b)
                 (Z.to_nat (Z.of_nat (String.length a) - (sep + 1)))).
      * rewrite <- string_app_assoc. by rewrite take_app, drop_app.
      * rewrite splitext_scan_app by lia. exact Hscan.
      * rewrite string_length_app. lia.
    + intros [= <- <-]. rewrite string_app_nil_r.
      unfold os_path_splitext, Str.rfind. rewrite !rfind_from_app.
      rewrite (rfind_from_absent "." mid), (rfind_from_absent "/" mid) by done.
      fold sep dot. apply Z.ltb_lt in Hlt. rewrite Hlt. cbn [andb].
      rewrite splitext_scan_app by lia. by rewrite Hscan.
  - intros [= <- <-]. rewrite string_app_nil_r.
    unfold os_path_splitext, Str.rfind. rewrite !rfind_from_app.
    rewrite (rfind_from_absent "." mid), (rfind_from_absent "/" mid) by done.
    fold sep dot. by rewrite Hlt.
Qed.

(** X23: the name that the "rename" strategy builds has the extension
    of the file, and the name of the file with the time stamp as its
    stem; so the renamed copy is in the category of the file. *)
Theorem X23_renamed_copy_keeps_extension (filename : string) (timestamp : Z) :
  let name := (os_path_splitext filename).1 in
  let ext := (os_path_splitext filename).2 in
  let new_filename := name +:+ "_" +:+ Str.of_int timestamp +:+ ext in
  os_path_splitext new_filename = (name +:+ "_" +:+ Str.of_int timestamp, ext)
  /\ category_of new_filename = category_of filename.
Proof.
  cbv zeta.
  assert (Hsplit :
    os_path_splitext
      ((os_path_splitext filename).1 +:+ "_" +:+ Str.of_int timestamp
       +:+ (os_path_splitext filename).2)
    = ((os_path_splitext filename).1 +:+ "_" +:+ Str.of_int timestamp,
       (os_path_splitext filename).2)).
  { apply (splitext_insert filename (os_path_splitext filename).1
             (os_path_splitext filename).2
             ("_" +:+ Str.of_int timestamp)).
    - by destruct (os_path_splitext filename).
    - apply contains_char_intro; [done|]. apply of_int_no_separator. by left.
    - apply contains_char_intro; [done|]. apply of_int_no_separator. by right. }
  split; [exact Hsplit|]. unfold category_of. by rewrite Hsplit.
Qed.
